(** * Alert-to-order pipeline of the TradingView -> Bybit relay

    A shallow embedding of the Netlify functions [processAlert.js] and
    [generateWebhook.js] and of the revisions of the Bybit client
    ([netlify/utils/bybit.js], [bybit.mjs] and the two form-encoded legacy
    revisions, with their order placement and their position queries), with
    the properties of the pipeline stated over it.

    JavaScript strings are modelled by [string] (a sequence of bytes, the
    UTF-8 image of the text: keys, tokens and URLs of the program are ASCII),
    numbers by exact rationals, objects with string keys by insertion-ordered
    association lists, and the effects of a request (clock, backing store,
    exchange) by a state-and-exception monad over the world of one
    invocation.  The hash of [node:crypto] is SHA-256 and HMAC as the
    standards define them, checked on their published vectors.  Log lines are
    left out, apart from the property reads in them that can throw. *)

From Stdlib Require Import ZArith QArith List String Ascii Bool Lia DecimalString.
From Stdlib Require Import Sorting.Sorted Sorting.Permutation.
Import ListNotations.

Local Open Scope Z_scope.

(* ================================================================== *)
(** ** node:crypto -- [createHmac('sha256', key).update(msg).digest('hex')] *)
(* ================================================================== *)

Module Crypto.

(** 32-bit words are integers in [0, 2^32) with explicit wrap-around. *)
Definition wrap32 (x : Z) : Z := x mod 2 ^ 32.
Definition add32 (x y : Z) : Z := wrap32 (x + y).
Definition rotr (n x : Z) : Z :=
  Z.lor (Z.shiftr x n) (wrap32 (Z.shiftl x (32 - n))).
Definition not32 (x : Z) : Z := Z.lxor x 0xffffffff.

Definition Ch (x y z : Z) : Z := Z.lxor (Z.land x y) (Z.land (not32 x) z).
Definition Maj (x y z : Z) : Z :=
  Z.lxor (Z.lxor (Z.land x y) (Z.land x z)) (Z.land y z).
Definition bsig0 (x : Z) : Z := Z.lxor (Z.lxor (rotr 2 x) (rotr 13 x)) (rotr 22 x).
Definition bsig1 (x : Z) : Z := Z.lxor (Z.lxor (rotr 6 x) (rotr 11 x)) (rotr 25 x).
Definition ssig0 (x : Z) : Z := Z.lxor (Z.lxor (rotr 7 x) (rotr 18 x)) (Z.shiftr x 3).
Definition ssig1 (x : Z) : Z := Z.lxor (Z.lxor (rotr 17 x) (rotr 19 x)) (Z.shiftr x 10).

(** The constants of FIPS 180-4: the first 32 bits of the fractional parts
    of the cube roots of the first 64 primes, and of the square roots of the
    first 8 primes. *)
Fixpoint cube_root_bits (bits : nat) (n r : Z) : Z :=
  match bits with
  | O => r
  | S b =>
      let c := r + 2 ^ Z.of_nat b in
      if c * c * c <=? n then cube_root_bits b n c else cube_root_bits b n r
  end.

Definition cube_root (n : Z) : Z := cube_root_bits 40 n 0.

Definition is_prime (n : nat) : bool :=
  forallb (fun d => negb (Nat.eqb (n mod d) 0)) (seq 2 (n - 2)).

Definition primes : list Z :=
  map Z.of_nat (filter is_prime (seq 2 310)).

Definition round_constants : list Z :=
  Eval vm_compute in map (fun p => wrap32 (cube_root (p * 2 ^ 96))) primes.

Definition initial_hash : list Z :=
  Eval vm_compute in map (fun p => wrap32 (Z.sqrt (p * 2 ^ 64))) (firstn 8 primes).

(** Big-endian encodings. *)
Fixpoint be_bytes (n : nat) (x : Z) : list Z :=
  match n with
  | O => []
  | S n' => (Z.shiftr x (8 * Z.of_nat n')) mod 256 :: be_bytes n' x
  end.

Definition be_word (bs : list Z) : Z :=
  fold_left (fun acc b => 256 * acc + b) bs 0.

Fixpoint chunks {A} (size count : nat) (l : list A) : list (list A) :=
  match count with
  | O => []
  | S c => firstn size l :: chunks size c (skipn size l)
  end.

(** Padding: one [0x80] byte, zeros up to 56 modulo 64, the bit length on
    eight bytes. *)
Definition pad (msg : list Z) : list Z :=
  let len := Z.of_nat (List.length msg) in
  let zeros := Z.to_nat ((55 - len) mod 64) in
  msg ++ 0x80 :: repeat 0 zeros ++ be_bytes 8 (8 * len).

(** Message schedule, most recent word first. *)
Fixpoint extend (n : nat) (rw : list Z) : list Z :=
  match n with
  | O => rw
  | S n' =>
      let w := add32 (add32 (ssig1 (nth 1 rw 0)) (nth 6 rw 0))
                     (add32 (ssig0 (nth 14 rw 0)) (nth 15 rw 0)) in
      extend n' (w :: rw)
  end.

Definition schedule (block : list Z) : list Z :=
  rev (extend 48 (rev (map be_word (chunks 4 16 block)))).

Definition round (st : list Z) (kw : Z * Z) : list Z :=
  match st with
  | [a; b; c; d; e; f; g; h] =>
      let t1 := add32 (add32 (add32 h (bsig1 e)) (add32 (Ch e f g) (fst kw))) (snd kw) in
      let t2 := add32 (bsig0 a) (Maj a b c) in
      [add32 t1 t2; a; b; c; add32 d t1; e; f; g]
  | _ => st
  end.

Fixpoint add_words (xs ys : list Z) : list Z :=
  match xs, ys with
  | x :: xs', y :: ys' => add32 x y :: add_words xs' ys'
  | _, _ => []
  end.

Definition compress (h : list Z) (block : list Z) : list Z :=
  add_words h (fold_left round (combine round_constants (schedule block)) h).

Definition sha256 (msg : list Z) : list Z :=
  let p := pad msg in
  let hs := fold_left compress (chunks 64 (List.length p / 64) p) initial_hash in
  flat_map (be_bytes 4) hs.

(** HMAC (RFC 2104) with a 64-byte block. *)
Definition block_key (key : list Z) : list Z :=
  let k := if (64 <? List.length key)%nat then sha256 key else key in
  k ++ repeat 0 (64 - List.length k).

Definition hmac_sha256_bytes (key msg : list Z) : list Z :=
  let k := block_key key in
  let ipad := map (Z.lxor 0x36) k in
  let opad := map (Z.lxor 0x5c) k in
  sha256 (opad ++ sha256 (ipad ++ msg)).

Definition bytes_of_string (s : string) : list Z :=
  map (fun c => Z.of_N (N_of_ascii c)) (list_ascii_of_string s).

Definition hex_digit (d : Z) : ascii :=
  if d <? 10 then ascii_of_N (Z.to_N (48 + d)) else ascii_of_N (Z.to_N (87 + d)).

Fixpoint hex (bs : list Z) : string :=
  match bs with
  | [] => EmptyString
  | b :: bs' => String (hex_digit (b / 16)) (String (hex_digit (b mod 16)) (hex bs'))
  end.

Definition sha256_hex (msg : string) : string :=
  hex (sha256 (bytes_of_string msg)).

Definition hmac_sha256 (key msg : string) : string :=
  hex (hmac_sha256_bytes (bytes_of_string key) (bytes_of_string msg)).

End Crypto.

Local Open Scope string_scope.

Arguments Crypto.hmac_sha256 : simpl never.
Arguments Crypto.sha256_hex : simpl never.


(* ================================================================== *)
(** ** JavaScript values, operators and objects *)
(* ================================================================== *)

Module JS.

(** The values that reach the pipeline: JSON payload fields and columns of
    the backing store.  A number is an exact rational (JSON text and store
    columns carry no NaN or infinity); [VObj] stands for a nested object or
    array, of which the ToString image and the JSON text are kept. *)
Inductive value : Type :=
| VUndefined
| VNull
| VBool (b : bool)
| VNum (q : Q)
| VStr (s : string)
| VObj (image json : string).

(** ToBoolean. *)
Definition truthy (v : value) : bool :=
  match v with
  | VUndefined | VNull => false
  | VBool b => b
  | VNum q => negb (Qnum q =? 0)%Z
  | VStr s => negb (s =? "")%string
  | VObj _ _ => true
  end.

(** [a || b] and [a ?? b]. *)
Definition logical_or (a b : value) : value := if truthy a then a else b.

Definition nullish (v : value) : bool :=
  match v with
  | VUndefined | VNull => true
  | _ => false
  end.

Definition coalesce (a b : value) : value := if nullish a then b else a.

(** [v != null] *)
Definition not_null (v : value) : bool := negb (nullish v).

(** [a === b]; an object is never the same reference as another operand. *)
Definition strict_eq (a b : value) : bool :=
  match a, b with
  | VUndefined, VUndefined | VNull, VNull => true
  | VBool x, VBool y => Bool.eqb x y
  | VNum x, VNum y => Qeq_bool x y
  | VStr x, VStr y => (x =? y)%string
  | _, _ => false
  end.

(** Decimal image of an integer ([Date.now().toString()]). *)
Definition IntegerToString (z : Z) : string :=
  NilZero.string_of_int (Z.to_int z).

Definition digit (d : Z) : string :=
  String (ascii_of_N (Z.to_N (48 + d))) EmptyString.

Fixpoint fraction_digits (fuel : nat) (r d : Z) : string :=
  match fuel with
  | O => ""
  | S fuel' =>
      if (r =? 0)%Z then ""
      else digit (10 * r / d) ++ fraction_digits fuel' ((10 * r) mod d) d
  end.

(** The decimal exponent of the positive rational [n / d]: the [e] with
    [10^e <= n / d < 10^(e + 1)]. *)
Fixpoint exponent_up (fuel : nat) (n d e : Z) : Z :=
  match fuel with
  | O => e
  | S fuel' => if (10 * d <=? n)%Z then exponent_up fuel' n (10 * d) (e + 1) else e
  end.

Fixpoint exponent_down (fuel : nat) (n d e : Z) : Z :=
  match fuel with
  | O => e
  | S fuel' => if (n <? d)%Z then exponent_down fuel' (10 * n) d (e - 1) else e
  end.

Definition exponent (n d : Z) : Z :=
  let fuel := S (Z.to_nat (Z.log2 (Z.max n d))) in
  if (n <? d)%Z then exponent_down fuel n d 0 else exponent_up fuel n d 0.

(** The digits of [n / d] in positional notation: the integer part, and the
    decimal expansion of the fraction (at most 20 digits). *)
Definition positional (n d : Z) : string :=
  let r := n mod d in
  IntegerToString (n / d) ++ (if (r =? 0)%Z then "" else "." ++ fraction_digits 20 r d).

(** Number::toString: positional notation for zero and for the magnitudes
    from 1e-6 and below 1e21, else the digits of the mantissa followed by
    [e], the sign of the exponent and the exponent ([1e-7], [1.5e+21]).
    The digits are those of the rational itself: they are the ones that
    JavaScript prints when the number is a decimal of at most 15 significant
    digits, such a decimal being the shortest text that reads back as its
    double. *)
Definition NumberToString (q : Q) : string :=
  let n := Z.abs (Qnum q) in
  let d := Z.pos (Qden q) in
  let e := exponent n d in
  let body :=
    if (n =? 0)%Z || ((-7 <? e)%Z && (e <? 21)%Z) then positional n d
    else
      (if (0 <=? e)%Z then positional n (d * 10 ^ e) else positional (n * 10 ^ (- e)) d)
      ++ "e" ++ (if (0 <=? e)%Z then "+" else "-") ++ IntegerToString (Z.abs e) in
  if (Qnum q <? 0)%Z then "-" ++ body else body.

(** ToString, as applied by template literals, [+ ''] and [String(v)]. *)
Definition ToString (v : value) : string :=
  match v with
  | VUndefined => "undefined"
  | VNull => "null"
  | VBool true => "true"
  | VBool false => "false"
  | VNum q => NumberToString q
  | VStr s => s
  | VObj image _ => image
  end.

(** Objects with string keys, in insertion order. *)
Definition obj : Type := list (string * value).

(** [o[k]] *)
Fixpoint get (o : obj) (k : string) : value :=
  match o with
  | [] => VUndefined
  | (k', v) :: o' => if (k =? k')%string then v else get o' k
  end.

(** [o[k] = v]: an existing key keeps its position, a new key is appended. *)
Fixpoint set (o : obj) (k : string) (v : value) : obj :=
  match o with
  | [] => [(k, v)]
  | (k', v') :: o' =>
      if (k =? k')%string then (k, v) :: o' else (k', v') :: set o' k v
  end.

(** [Object.keys(o)] *)
Definition keys (o : obj) : list string := map fst o.

(** [k in o] *)
Definition has (o : obj) (k : string) : bool :=
  existsb (String.eqb k) (keys o).

(** [Array.prototype.sort()] on strings: ascending code-unit order.  The
    order is total and antisymmetric, so the sorted array does not depend
    on the engine's algorithm; insertion is used here. *)
Fixpoint insert_sorted (k : string) (l : list string) : list string :=
  match l with
  | [] => [k]
  | x :: l' => if String.leb k x then k :: l else x :: insert_sorted k l'
  end.

Definition sort (l : list string) : list string :=
  fold_right insert_sorted [] l.

(** [s.split(sep)] for a one-character separator; never the empty array. *)
Fixpoint split (sep : ascii) (s : string) : list string :=
  match s with
  | EmptyString => [""]
  | String c s' =>
      if Ascii.eqb c sep then "" :: split sep s'
      else match split sep s' with
           | [] => [String c ""]
           | x :: xs => String c x :: xs
           end
  end.

(** [a.pop()] read as a value: the last element (the arrays popped here
    come from [split] and are not empty). *)
Definition pop (l : list string) : string := last l "".

(** [s.slice(0, -1)] *)
Fixpoint drop_last (s : string) : string :=
  match s with
  | EmptyString => ""
  | String c EmptyString => ""
  | String c s' => String c (drop_last s')
  end.

(** [a.join(sep)] *)
Definition join (sep : string) (l : list string) : string := String.concat sep l.

(** A value that may be an object whose properties are read. *)
Inductive nested : Type :=
| Prim (v : value)
| Object (o : obj).

(** [JSON.stringify] on strings, primitives and flat objects. *)
Definition hex_upper (d : Z) : ascii :=
  if (d <? 10)%Z then ascii_of_N (Z.to_N (48 + d)) else ascii_of_N (Z.to_N (55 + d)).

Definition hex_lower (d : Z) : ascii :=
  if (d <? 10)%Z then ascii_of_N (Z.to_N (48 + d)) else ascii_of_N (Z.to_N (87 + d)).

Definition code (c : ascii) : Z := Z.of_N (N_of_ascii c).

Definition json_escape_char (c : ascii) : string :=
  let n := code c in
  if (n =? 34)%Z then "\" ++ String c ""
  else if (n =? 92)%Z then "\\"
  else if (n =? 8)%Z then "\b"
  else if (n =? 9)%Z then "\t"
  else if (n =? 10)%Z then "\n"
  else if (n =? 12)%Z then "\f"
  else if (n =? 13)%Z then "\r"
  else if (n <? 32)%Z then
    "\u00" ++ String (hex_lower (n / 16)) (String (hex_lower (n mod 16)) "")
  else String c "".

Fixpoint json_escape (s : string) : string :=
  match s with
  | EmptyString => ""
  | String c s' => json_escape_char c ++ json_escape s'
  end.

Definition json_quote (s : string) : string :=
  String (ascii_of_N 34) (json_escape s) ++ String (ascii_of_N 34) "".

Definition json_value (v : value) : string :=
  match v with
  | VUndefined => "null"
  | VNull => "null"
  | VBool true => "true"
  | VBool false => "false"
  | VNum q => NumberToString q
  | VStr s => json_quote s
  | VObj _ json => json
  end.

(** Properties whose value is [undefined] are left out. *)
Definition json_members (o : obj) : list string :=
  map (fun kv => json_quote (fst kv) ++ ":" ++ json_value (snd kv))
      (filter (fun kv => match snd kv with VUndefined => false | _ => true end) o).

Definition JSON_stringify (o : obj) : string :=
  "{" ++ join "," (json_members o) ++ "}".

(** [new URLSearchParams(o).toString()]: the
    application/x-www-form-urlencoded serialisation. *)
Definition form_safe (c : ascii) : bool :=
  let n := code c in
  ((48 <=? n) && (n <=? 57) || (65 <=? n) && (n <=? 90) || (97 <=? n) && (n <=? 122)
   || (n =? 42) || (n =? 45) || (n =? 46) || (n =? 95))%Z%bool.

Definition form_encode_char (c : ascii) : string :=
  if form_safe c then String c ""
  else if (code c =? 32)%Z then "+"
  else String "%" (String (hex_upper (code c / 16)) (String (hex_upper (code c mod 16)) "")).

Fixpoint form_encode (s : string) : string :=
  match s with
  | EmptyString => ""
  | String c s' => form_encode_char c ++ form_encode s'
  end.

Definition URLSearchParams_toString (o : obj) : string :=
  join "&" (map (fun kv => form_encode (fst kv) ++ "=" ++ form_encode (ToString (snd kv))) o).

End JS.

Import JS.

(* ================================================================== *)
(** ** Rows of the backing store and the transient records *)
(* ================================================================== *)

Module Bot.
Record t : Type := mk {
  id : string;
  name : value;
  symbol : value;
  default_side : value;
  default_order_type : value;
  default_quantity : value;
  default_stop_loss : value;
  default_take_profit : value;
  test_mode : value;
  trade_count : value;
  last_trade_at : option Z
}.
End Bot.

Module Webhook.
Record t : Type := mk {
  webhook_token : string;
  user_id : string;
  bot_id : string;
  expires_at : Z;
  created_at : Z;
}.
End Webhook.

(** A webhook row with its embedded bot, as the select with the embedded
    [bots] resource returns it; [bots] is null when no bot row has the id. *)
Module Joined.
Record t : Type := mk {
  row : Webhook.t;
  bots : option Bot.t
}.
Definition user_id (w : t) : string := Webhook.user_id (row w).
Definition bot_id (w : t) : string := Webhook.bot_id (row w).
End Joined.

(** A credential row.  Key and secret are strings, as the text columns hold
    them: with a secret that is not a string, [createHmac] throws before the
    [try] statement of every revision of the client, and such rows are
    outside the model. *)
Module ApiKey.
Record t : Type := mk {
  user_id : string;
  exchange : string;
  api_key : string;
  api_secret : string;
  test_mode : value
}.
End ApiKey.

Module Trade.
Record t : Type := mk {
  user_id : string;
  bot_id : string;
  symbol : value;
  side : value;
  order_type : value;
  quantity : value;
  price : value;
  order_id : value;
  status : value;
  created_at : Z
}.
End Trade.

(** The argument of [executeBybitOrder], with a key and a secret that are
    strings (see [ApiKey]). *)
Module OrderParams.
Record t : Type := mk {
  apiKey : string;
  apiSecret : string;
  symbol : value;
  side : value;
  orderType : value;
  quantity : value;
  price : value;
  stopLoss : value;
  takeProfit : value;
  testnet : value
}.
End OrderParams.

Module OrderResult.
Record t : Type := mk {
  orderId : value;
  symbol : value;
  side : value;
  orderType : value;
  qty : value;
  price : value;
  status : value
}.
End OrderResult.

(* ================================================================== *)
(** ** The world of one invocation, and its effects *)
(* ================================================================== *)

(** What axios is asked to send. *)
Inductive data : Type :=
| ObjectData (o : obj)
| TextData (s : string)
| NoData.

Record http_request : Type := {
  http_method : string;
  http_url : string;
  http_data : data;
  http_headers : list (string * string)
}.

(** A thrown error: [new Error(message)] has neither [response] nor
    [request]; an axios rejection has [response] (status and the JSON text of
    its data) when the server answered outside 2xx, and [request] when no
    answer came. *)
Record error : Type := {
  message : string;
  response : option (Z * string);
  request : bool
}.

Definition Error (msg : string) : error :=
  {| message := msg; response := None; request := false |}.

(** [response.data] of a resolved axios call: its top-level properties and
    its [result] property. *)
Record response_data : Type := {
  fields : obj;
  result : nested
}.

Inductive axios_result : Type :=
| Resolved (d : response_data)
| Rejected (e : error).

Inductive store_op : Type := SelectWebhook | SelectApiKey | InsertTrade | UpdateBot.

Record world : Type := {
  deno : bool;                            (* the global Deno exists *)
  env : string -> option string;          (* Deno.env *)
  client_error : option string -> option string -> option error;
                                          (* what createClient throws, if anything *)
  clock : nat -> Z;                       (* the n-th reading of the clock, ms *)
  reads : nat;                            (* readings taken so far *)
  webhooks : list Webhook.t;
  bots : list Bot.t;
  api_keys : list ApiKey.t;
  trades : list Trade.t;
  store_fails : store_op -> bool;         (* the store answers with an error *)
  exchange : http_request -> axios_result;
  sent : list http_request                (* outbound requests, oldest first *)
}.

Definition tick (w : world) : world :=
  {| deno := deno w; env := env w; client_error := client_error w; clock := clock w; reads := S (reads w);
     webhooks := webhooks w; bots := bots w; api_keys := api_keys w;
     trades := trades w; store_fails := store_fails w;
     exchange := exchange w; sent := sent w |}.

Definition record_sent (r : http_request) (w : world) : world :=
  {| deno := deno w; env := env w; client_error := client_error w; clock := clock w; reads := reads w;
     webhooks := webhooks w; bots := bots w; api_keys := api_keys w;
     trades := trades w; store_fails := store_fails w;
     exchange := exchange w; sent := sent w ++ [r] |}.

Definition with_trades (ts : list Trade.t) (w : world) : world :=
  {| deno := deno w; env := env w; client_error := client_error w; clock := clock w; reads := reads w;
     webhooks := webhooks w; bots := bots w; api_keys := api_keys w;
     trades := ts; store_fails := store_fails w;
     exchange := exchange w; sent := sent w |}.

Definition with_bots (bs : list Bot.t) (w : world) : world :=
  {| deno := deno w; env := env w; client_error := client_error w; clock := clock w; reads := reads w;
     webhooks := webhooks w; bots := bs; api_keys := api_keys w;
     trades := trades w; store_fails := store_fails w;
     exchange := exchange w; sent := sent w |}.

(** Computations: they return or throw, and change the world. *)
Inductive outcome (A : Type) : Type :=
| Returned (a : A)
| Thrown (e : error).
Arguments Returned {A} a.
Arguments Thrown {A} e.

Definition M (A : Type) : Type := world -> outcome A * world.

Definition ret {A} (a : A) : M A := fun w => (Returned a, w).

Definition throw {A} (e : error) : M A := fun w => (Thrown e, w).

Definition bind {A B} (m : M A) (k : A -> M B) : M B :=
  fun w =>
    match m w with
    | (Returned a, w') => k a w'
    | (Thrown e, w') => (Thrown e, w')
    end.

Definition try_catch {A} (m : M A) (handler : error -> M A) : M A :=
  fun w =>
    match m w with
    | (Returned a, w') => (Returned a, w')
    | (Thrown e, w') => handler e w'
    end.

Notation "x <- m ;; k" := (bind m (fun x => k))
  (at level 61, m at next level, right associativity).

(** [Date.now()], [new Date()] *)
Definition Date_now : M Z := fun w => (Returned (clock w (reads w)), tick w).

(** [Deno.env.get(name)]; where the global does not exist, a
    ReferenceError. *)
Definition Deno_env_get (name : string) : M (option string) :=
  fun w =>
    if deno w then (Returned (env w name), w)
    else (Thrown (Error "Deno is not defined"), w).

(** [createClient(url, key)] of the store's library: it makes the client
    that the queries go through, or throws (a missing or malformed URL). *)
Definition createClient (supabaseUrl supabaseKey : option string) : M unit :=
  fun w =>
    match client_error w supabaseUrl supabaseKey with
    | Some e => (Thrown e, w)
    | None => (Returned tt, w)
    end.

(** [axios.post], [axios.get]: the request goes out, the exchange answers. *)
Definition axios (method url : string) (d : data) (headers : list (string * string))
  : M response_data :=
  fun w =>
    let r := {| http_method := method; http_url := url;
                http_data := d; http_headers := headers |} in
    match exchange w r with
    | Resolved d => (Returned d, record_sent r w)
    | Rejected e => (Thrown e, record_sent r w)
    end.

(** [x.k] where [x] may be null or undefined (messages as V8 words them). *)
Definition member (x : nested) (k : string) : M value :=
  match x with
  | Object o => ret (get o k)
  | Prim VUndefined =>
      throw (Error ("Cannot read properties of undefined (reading '" ++ k ++ "')"))
  | Prim VNull =>
      throw (Error ("Cannot read properties of null (reading '" ++ k ++ "')"))
  | Prim _ => ret VUndefined
  end.

(** A default parameter value applies to [undefined] only. *)
Definition default_param (v d : value) : value :=
  match v with
  | VUndefined => d
  | _ => v
  end.

(* ================================================================== *)
(** ** The Bybit client, its revisions *)
(* ================================================================== *)

(** The order parameters shared by the three legacy revisions: the literal
    [params], then [price] for limit orders and the optional stop loss and
    take profit. *)
Definition legacy_params (p : OrderParams.t) : obj :=
  let params :=
    [ ("api_key", VStr (OrderParams.apiKey p));
      ("symbol", OrderParams.symbol p);
      ("side", OrderParams.side p);
      ("order_type", OrderParams.orderType p);
      ("qty", OrderParams.quantity p);
      ("time_in_force", VStr "GoodTillCancel") ] in
  let params :=
    if strict_eq (OrderParams.orderType p) (VStr "Limit")
    then set params "price" (OrderParams.price p) else params in
  let params :=
    if truthy (OrderParams.stopLoss p)
    then set params "stop_loss" (OrderParams.stopLoss p) else params in
  if truthy (OrderParams.takeProfit p)
  then set params "take_profit" (OrderParams.takeProfit p) else params.

(** The result object the legacy revisions build from the exchange's answer. *)
Definition legacy_result (p : OrderParams.t) (response : response_data) : M OrderResult.t :=
  if strict_eq (get (fields response) "ret_code") (VNum 0) then
    order_id <- member (result response) "order_id" ;;
    order_status <- member (result response) "order_status" ;;
    ret (OrderResult.mk order_id (OrderParams.symbol p) (OrderParams.side p)
           (OrderParams.orderType p) (OrderParams.quantity p) (OrderParams.price p)
           order_status)
  else
    throw (Error ("Bybit API error: " ++ ToString (get (fields response) "ret_msg"))).

(** The catch block of the two form-encoded revisions. *)
Definition describe_failure {A} (error : error) : M A :=
  match response error with
  | Some (status, text) =>
      throw (Error ("Failed to execute order: " ++ IntegerToString status ++ " - " ++ text))
  | None =>
      if request error
      then throw (Error "Failed to execute order: No response received from server")
      else throw (Error ("Failed to execute order: " ++ message error))
  end.

(** [netlify/utils/bybit.js]: the signer reads the clock and returns the
    timestamp with the signature; the order goes out as a JSON object. *)
Module BybitV2a.

Definition MAINNET_URL : string := "https://api.bybit.com".
Definition TESTNET_URL : string := "https://api-testnet.bybit.com".

(** [testnet ? TESTNET_URL : MAINNET_URL], with the default [testnet = false]. *)
Definition baseUrl (testnet : value) : string :=
  if truthy (default_param testnet (VBool false)) then TESTNET_URL else MAINNET_URL.

(** The string given to [update]: the reduction over the sorted keys,
    started from the timestamp pair, without its last character. *)
Definition queryString (params : obj) (timestamp : string) : string :=
  fold_left (fun a b => a ++ b ++ "=" ++ ToString (get params b) ++ "&")
            (sort (keys params))
            ("timestamp=" ++ timestamp ++ "&").

Definition signed_string (params : obj) (timestamp : string) : string :=
  drop_last (queryString params timestamp).

Definition generateSignature (apiSecret : string) (params : obj) : M (string * string) :=
  now <- Date_now ;;
  let timestamp := IntegerToString now in
  let signature := Crypto.hmac_sha256 apiSecret (signed_string params timestamp) in
  ret (timestamp, signature).

Definition executeBybitOrder (p : OrderParams.t) : M OrderResult.t :=
  let baseUrl := baseUrl (OrderParams.testnet p) in
  let endpoint := "/v2/private/order/create" in
  let params := legacy_params p in
  signed <- generateSignature (OrderParams.apiSecret p) params ;;
  let params := set params "timestamp" (VStr (fst signed)) in
  let params := set params "sign" (VStr (snd signed)) in
  try_catch
    (response <- axios "POST" (baseUrl ++ endpoint) (ObjectData params) [] ;;
     legacy_result p response)
    (fun error => throw (Error ("Failed to execute order: " ++ message error))).

End BybitV2a.

(** The first form-encoded revision ([unnamed/part_001]): the caller stamps
    [params], and the signer stamps its copy again before it sorts the keys. *)
Module BybitV2b.

Definition MAINNET_URL : string := "https://api.bybit.com".
Definition TESTNET_URL : string := "https://api-testnet.bybit.com".

(** [testnet ? TESTNET_URL : MAINNET_URL], with the default [testnet = false]. *)
Definition baseUrl (testnet : value) : string :=
  if truthy (default_param testnet (VBool false)) then TESTNET_URL else MAINNET_URL.

Definition queryString (params : obj) : string :=
  join "&" (map (fun key => key ++ "=" ++ ToString (get params key))
                (sort (keys params))).

Definition generateSignature (apiSecret : string) (params : obj) : M string :=
  now <- Date_now ;;
  let timestamp := IntegerToString now in
  let params := set params "timestamp" (VStr timestamp) in
  ret (Crypto.hmac_sha256 apiSecret (queryString params)).

Definition executeBybitOrder (p : OrderParams.t) : M OrderResult.t :=
  let baseUrl := baseUrl (OrderParams.testnet p) in
  let endpoint := "/v2/private/order/create" in
  let params := legacy_params p in
  now <- Date_now ;;
  let timestamp := IntegerToString now in
  let params := set params "timestamp" (VStr timestamp) in
  signature <- generateSignature (OrderParams.apiSecret p) params ;;
  let params := set params "sign" (VStr signature) in
  try_catch
    (let encodedParams := URLSearchParams_toString params in
     response <- axios "POST" (baseUrl ++ endpoint) (TextData encodedParams)
                   [("Content-Type", "application/x-www-form-urlencoded")] ;;
     legacy_result p response)
    describe_failure.

End BybitV2b.

(** The second form-encoded revision ([unnamed/part_000]): the signer is a
    function of the secret and of [params], which already hold the timestamp
    (its note: the function assumes that the params object already contains a
    timestamp). *)
Module BybitV2c.

Definition MAINNET_URL : string := "https://api.bybit.com".
Definition TESTNET_URL : string := "https://api-testnet.bybit.com".

(** [testnet ? TESTNET_URL : MAINNET_URL], with the default [testnet = false]. *)
Definition baseUrl (testnet : value) : string :=
  if truthy (default_param testnet (VBool false)) then TESTNET_URL else MAINNET_URL.

Definition queryString (params : obj) : string :=
  join "&" (map (fun key => key ++ "=" ++ ToString (get params key))
                (sort (keys params))).

Definition generateSignature (apiSecret : string) (params : obj) : string :=
  Crypto.hmac_sha256 apiSecret (queryString params).

Definition executeBybitOrder (p : OrderParams.t) : M OrderResult.t :=
  let baseUrl := baseUrl (OrderParams.testnet p) in
  let endpoint := "/v2/private/order/create" in
  let params := legacy_params p in
  now <- Date_now ;;
  let timestamp := IntegerToString now in
  let params := set params "timestamp" (VStr timestamp) in
  let signature := generateSignature (OrderParams.apiSecret p) params in
  let params := set params "sign" (VStr signature) in
  try_catch
    (let encodedParams := URLSearchParams_toString params in
     response <- axios "POST" (baseUrl ++ endpoint) (TextData encodedParams)
                   [("Content-Type", "application/x-www-form-urlencoded")] ;;
     legacy_result p response)
    describe_failure.

End BybitV2c.

(** [netlify/utils/bybit.mjs]: the V5 protocol, signed over
    [timestamp + apiKey + recvWindow + body] with the exchange's clock. *)
Module BybitV5.

Definition MAINNET_URL : string := "https://api.byhkbit.com".
Definition TESTNET_URL : string := "https://api-testnet.bybit.com".
Definition DEFAULT_RECV_WINDOW : string := "15000".

(** [testnet ? TESTNET_URL : MAINNET_URL], with the default [testnet = false]. *)
Definition baseUrl (testnet : value) : string :=
  if truthy (default_param testnet (VBool false)) then TESTNET_URL else MAINNET_URL.

Definition getServerTimestamp (testnet : value) : M string :=
  let testnet := default_param testnet (VBool false) in
  let url := (if truthy testnet then TESTNET_URL else MAINNET_URL) ++ "/v5/market/time" in
  data <- axios "GET" url NoData [] ;;
  if negb (strict_eq (get (fields data) "retCode") (VNum 0)) then
    throw (Error ("Failed to fetch server time: " ++ ToString (get (fields data) "retMsg")))
  else ret (ToString (get (fields data) "time")).

Definition signPost (apiSecret apiKey recvWindow timestamp body : string) : string :=
  let plain := timestamp ++ apiKey ++ recvWindow ++ body in
  Crypto.hmac_sha256 apiSecret plain.

Definition signGet (apiSecret apiKey recvWindow timestamp queryString : string) : string :=
  let plain := timestamp ++ apiKey ++ recvWindow ++ queryString in
  Crypto.hmac_sha256 apiSecret plain.

(** The JSON payload of an order. *)
Definition payload (category : value) (p : OrderParams.t) : obj :=
  let payload :=
    [ ("category", category);
      ("symbol", OrderParams.symbol p);
      ("side", OrderParams.side p);
      ("orderType", OrderParams.orderType p);
      ("qty", VStr (ToString (OrderParams.quantity p)));
      ("timeInForce",
       if strict_eq (OrderParams.orderType p) (VStr "Market")
       then VStr "IOC" else VStr "PostOnly") ] in
  let payload :=
    if strict_eq (OrderParams.orderType p) (VStr "Limit") && not_null (OrderParams.price p)
    then set payload "price" (VStr (ToString (OrderParams.price p))) else payload in
  let payload :=
    if not_null (OrderParams.stopLoss p)
    then set payload "stopLoss" (VStr (ToString (OrderParams.stopLoss p))) else payload in
  if not_null (OrderParams.takeProfit p)
  then set payload "takeProfit" (VStr (ToString (OrderParams.takeProfit p))) else payload.

(** [category] and [recvWindow] are the two properties of the argument
    that the alert processor never sets. *)
Definition executeBybitOrderWith (category recvWindow : value) (p : OrderParams.t)
  : M OrderResult.t :=
  let testnet := default_param (OrderParams.testnet p) (VBool false) in
  let category := default_param category (VStr "linear") in
  let recvWindow := ToString (default_param recvWindow (VStr DEFAULT_RECV_WINDOW)) in
  let baseUrl := baseUrl (OrderParams.testnet p) in
  let endpoint := "/v5/order/create" in
  let bodyStr := JSON_stringify (payload category p) in
  timestamp <- getServerTimestamp testnet ;;
  let signature :=
    signPost (OrderParams.apiSecret p) (OrderParams.apiKey p) recvWindow timestamp bodyStr in
  let headers :=
    [ ("Content-Type", "application/json");
      ("X-BAPI-API-KEY", OrderParams.apiKey p);
      ("X-BAPI-TIMESTAMP", timestamp);
      ("X-BAPI-RECV-WINDOW", recvWindow);
      ("X-BAPI-SIGN", signature) ] in
  data <- axios "POST" (baseUrl ++ endpoint) (TextData bodyStr) headers ;;
  if negb (strict_eq (get (fields data) "retCode") (VNum 0)) then
    throw (Error ("Bybit API error " ++ ToString (get (fields data) "retCode")
                    ++ ": " ++ ToString (get (fields data) "retMsg")))
  else
    orderId <- member (result data) "orderId" ;;
    orderStatus <- member (result data) "orderStatus" ;;
    ret (OrderResult.mk orderId (OrderParams.symbol p) (OrderParams.side p)
           (OrderParams.orderType p) (OrderParams.quantity p)
           (logical_or (OrderParams.price p) VNull) orderStatus).

Definition executeBybitOrder (p : OrderParams.t) : M OrderResult.t :=
  executeBybitOrderWith VUndefined VUndefined p.

End BybitV5.

(* ================================================================== *)
(** ** The backing store, as the alert processor queries it *)
(* ================================================================== *)

(** [.single()]: the one row of the selection, or an error. *)
Definition single {A} (rows : list A) : option A :=
  match rows with
  | [r] => Some r
  | _ => None
  end.

Definition join_bot (w : world) (r : Webhook.t) : Joined.t :=
  Joined.mk r (find (fun b => (Bot.id b =? Webhook.bot_id r)%string) (bots w)).

(** [from('webhooks').select(...).eq('webhook_token', token)
      .gt('expires_at', now).single()]; [None] when the answer carries an
    error or no row. *)
Definition find_webhook (w : world) (token : string) (now : Z) : option Joined.t :=
  if store_fails w SelectWebhook then None
  else
    let rows :=
      filter (fun r => (Webhook.webhook_token r =? token)%string
                       && (now <? Webhook.expires_at r)%Z)
             (webhooks w) in
    option_map (join_bot w) (single rows).

Definition select_webhook (token : string) (now : Z) : M (option Joined.t) :=
  fun w => (Returned (find_webhook w token now), w).

(** [from('api_keys').select('*').eq('user_id', id).eq('exchange', 'bybit')
      .single()] *)
Definition find_api_key (w : world) (user_id : string) : option ApiKey.t :=
  if store_fails w SelectApiKey then None
  else
    single (filter (fun k => (ApiKey.user_id k =? user_id)%string
                             && (ApiKey.exchange k =? "bybit")%string)
                   (api_keys w)).

Definition select_api_key (user_id : string) : M (option ApiKey.t) :=
  fun w => (Returned (find_api_key w user_id), w).

(** [from('trades').insert(row)]; the result is [true] when the answer
    carries an error, and then no row was added. *)
Definition insert_trade (row : Trade.t) : M bool :=
  fun w =>
    if store_fails w InsertTrade then (Returned true, w)
    else (Returned false, with_trades (trades w ++ [row]) w).

(** [from('bots').update({last_trade_at, trade_count}).eq('id', id)] *)
Definition update_bot (id : string) (last_trade_at : Z) (trade_count : value) : M bool :=
  fun w =>
    if store_fails w UpdateBot then (Returned true, w)
    else
      let touch b :=
        if (Bot.id b =? id)%string then
          Bot.mk (Bot.id b) (Bot.name b) (Bot.symbol b) (Bot.default_side b)
                 (Bot.default_order_type b) (Bot.default_quantity b)
                 (Bot.default_stop_loss b) (Bot.default_take_profit b)
                 (Bot.test_mode b) trade_count (Some last_trade_at)
        else b in
      (Returned false, with_bots (map touch (bots w)) w).

(* ================================================================== *)
(** ** [netlify/functions/processAlert.js] *)
(* ================================================================== *)

Module Request.
(** What [req.json()] gives: a rejection, or the parsed body. *)
Inductive parsed : Type :=
| Malformed (e : error)
| Parsed (v : nested).

Record t : Type := mk {
  method : string;
  url : string;
  json : parsed
}.
End Request.

Module Response.
(** [body] is the object that [JSON.stringify] turns into the body text. *)
Record t : Type := mk {
  status : Z;
  headers : list (string * string);
  body : option obj
}.

Definition text (r : t) : option string := option_map JSON_stringify (body r).
End Response.

Definition corsHeaders : list (string * string) :=
  [ ("Access-Control-Allow-Origin", "*");
    ("Access-Control-Allow-Methods", "POST, OPTIONS");
    ("Access-Control-Allow-Headers", "Content-Type, Authorization") ].

Definition json_response (status : Z) (body : obj) : Response.t :=
  Response.mk status (corsHeaders ++ [("Content-Type", "application/json")]) (Some body).

Definition req_json (req : Request.t) : M nested :=
  match Request.json req with
  | Request.Malformed e => throw e
  | Request.Parsed v => ret v
  end.

(** [!s] for an environment variable. *)
Definition unset (s : option string) : bool :=
  match s with
  | None => true
  | Some s => (s =? "")%string
  end.

(** [webhook.bots] bound to [bot], then [bot.name] read for the log line. *)
Definition bot_of (webhook : Joined.t) : M Bot.t :=
  match Joined.bots webhook with
  | Some bot => ret bot
  | None => throw (Error "Cannot read properties of null (reading 'name')")
  end.

(** The properties that can be read off a parsed body: those of an object,
    none of a number, string or boolean; null has no properties to read. *)
Definition readable (alertData : nested) : option obj :=
  match alertData with
  | Object o => Some o
  | Prim VUndefined | Prim VNull => None
  | Prim _ => Some []
  end.

(** The properties of [alertData] are first read at [alertData.symbol]. *)
Definition properties (alertData : nested) : M obj :=
  match alertData with
  | Object o => ret o
  | Prim VUndefined => throw (Error "Cannot read properties of undefined (reading 'symbol')")
  | Prim VNull => throw (Error "Cannot read properties of null (reading 'symbol')")
  | Prim _ => ret []
  end.

(** The object literal [orderParams]. *)
Definition orderParams (apiKey : ApiKey.t) (alertData : obj) (bot : Bot.t) : OrderParams.t :=
  {| OrderParams.apiKey := ApiKey.api_key apiKey;
     OrderParams.apiSecret := ApiKey.api_secret apiKey;
     OrderParams.symbol := logical_or (get alertData "symbol") (Bot.symbol bot);
     OrderParams.side := logical_or (get alertData "side") (Bot.default_side bot);
     OrderParams.orderType := logical_or (get alertData "orderType") (Bot.default_order_type bot);
     OrderParams.quantity := logical_or (get alertData "quantity") (Bot.default_quantity bot);
     OrderParams.price := get alertData "price";
     OrderParams.stopLoss := logical_or (get alertData "stopLoss") (Bot.default_stop_loss bot);
     OrderParams.takeProfit :=
       logical_or (get alertData "takeProfit") (Bot.default_take_profit bot);
     OrderParams.testnet := Bot.test_mode bot |}.

(** The simulated result of test mode. *)
Definition test_order (p : OrderParams.t) (now : Z) : OrderResult.t :=
  {| OrderResult.orderId := VStr ("test-" ++ IntegerToString now);
     OrderResult.symbol := OrderParams.symbol p;
     OrderResult.side := OrderParams.side p;
     OrderResult.orderType := OrderParams.orderType p;
     OrderResult.qty := OrderParams.quantity p;
     OrderResult.price := logical_or (OrderParams.price p) (VNum 0);
     OrderResult.status := VStr "TEST_ORDER" |}.

Definition trade_row (webhook : Joined.t) (r : OrderResult.t) (now : Z) : Trade.t :=
  {| Trade.user_id := Joined.user_id webhook;
     Trade.bot_id := Joined.bot_id webhook;
     Trade.symbol := OrderResult.symbol r;
     Trade.side := OrderResult.side r;
     Trade.order_type := OrderResult.orderType r;
     Trade.quantity := OrderResult.qty r;
     Trade.price := OrderResult.price r;
     Trade.order_id := OrderResult.orderId r;
     Trade.status := OrderResult.status r;
     Trade.created_at := now |}.

(** [bot.trade_count ? bot.trade_count + 1 : 1] *)
Definition next_trade_count (count : value) : value :=
  if truthy count then
    match count with
    | VNum q => VNum (q + 1)
    | VStr s => VStr (s ++ "1")
    | VObj image _ => VStr (image ++ "1")
    | VBool _ => VNum 2
    | VUndefined | VNull => VNum 1
    end
  else VNum 1.

Definition success_body (r : OrderResult.t) (bot : Bot.t) : obj :=
  [ ("success", VBool true);
    ("orderId", OrderResult.orderId r);
    ("status", OrderResult.status r);
    ("testMode", Bot.test_mode bot) ].

(** [req.url.split('/').pop()] *)
Definition webhookToken (req : Request.t) : string :=
  pop (split "/" (Request.url req)).

(** [orderResult]: simulated in test mode, else placed by the client. *)
Definition orderResult (executeBybitOrder : OrderParams.t -> M OrderResult.t)
  (bot : Bot.t) (orderParams : OrderParams.t) : M OrderResult.t :=
  if truthy (Bot.test_mode bot) then
    now <- Date_now ;;
    ret (test_order orderParams now)
  else
    executeBybitOrder orderParams.

(** The [try] block.  [executeBybitOrder] is the imported client. *)
Definition process (executeBybitOrder : OrderParams.t -> M OrderResult.t)
  (req : Request.t) : M Response.t :=
  let webhookToken := webhookToken req in
  now <- Date_now ;;
  webhook <- select_webhook webhookToken now ;;
  match webhook with
  | None => ret (json_response 404 [("error", VStr "Invalid or expired webhook")])
  | Some webhook =>
      alertData <- req_json req ;;
      bot <- bot_of webhook ;;
      apiKey <- select_api_key (Joined.user_id webhook) ;;
      match apiKey with
      | None => ret (json_response 400 [("error", VStr "API credentials not found")])
      | Some apiKey =>
          alertData <- properties alertData ;;
          let orderParams := orderParams apiKey alertData bot in
          orderResult <- orderResult executeBybitOrder bot orderParams ;;
          now <- Date_now ;;
          tradeError <- insert_trade (trade_row webhook orderResult now) ;;
          now <- Date_now ;;
          botUpdateError <-
            update_bot (Joined.bot_id webhook) now (next_trade_count (Bot.trade_count bot)) ;;
          ret (json_response 200 (success_body orderResult bot))
      end
  end.

(** The exported handler. *)
Definition processAlert (executeBybitOrder : OrderParams.t -> M OrderResult.t)
  (req : Request.t) : M Response.t :=
  if (Request.method req =? "OPTIONS")%string then
    ret (Response.mk 204 corsHeaders None)
  else if negb (Request.method req =? "POST")%string then
    ret (json_response 405 [("error", VStr "Method not allowed")])
  else
    supabaseUrl <- Deno_env_get "SUPABASE_URL" ;;
    supabaseServiceKey <- Deno_env_get "SUPABASE_SERVICE_KEY" ;;
    if unset supabaseUrl || unset supabaseServiceKey then
      ret (json_response 500 [("error", VStr "Server configuration error")])
    else
      supabase <- createClient supabaseUrl supabaseServiceKey ;;
      try_catch (process executeBybitOrder req)
                (fun error => ret (json_response 500 [("error", VStr (message error))])).

(** The handler with the client that [processAlert.js] imports,
    [../utils/bybit.js]. *)
Definition handler : Request.t -> M Response.t :=
  processAlert BybitV2a.executeBybitOrder.

(** The other copy of the handler, the one kept after the webhook generator
    in [netlify/functions/generateWebhook.js]: it builds [orderParams] with
    another [testnet], has no check of the environment and does not log the
    bot. *)
Module Earlier.

Definition orderParams (apiKey : ApiKey.t) (alertData : obj) (bot : Bot.t) : OrderParams.t :=
  {| OrderParams.apiKey := ApiKey.api_key apiKey;
     OrderParams.apiSecret := ApiKey.api_secret apiKey;
     OrderParams.symbol := logical_or (get alertData "symbol") (Bot.symbol bot);
     OrderParams.side := logical_or (get alertData "side") (Bot.default_side bot);
     OrderParams.orderType :=
       logical_or (get alertData "orderType") (Bot.default_order_type bot);
     OrderParams.quantity := logical_or (get alertData "quantity") (Bot.default_quantity bot);
     OrderParams.price := get alertData "price";
     OrderParams.stopLoss := logical_or (get alertData "stopLoss") (Bot.default_stop_loss bot);
     OrderParams.takeProfit :=
       logical_or (get alertData "takeProfit") (Bot.default_take_profit bot);
     OrderParams.testnet := logical_or (ApiKey.test_mode apiKey) (Bot.test_mode bot) |}.

(** This copy names the bot without reading it: of a missing bot, the
    first property read is the default of the first field that the payload
    leaves falsy, and [test_mode] when it leaves none. *)
Definition first_bot_read (alertData : obj) : string :=
  if negb (truthy (get alertData "symbol")) then "symbol"
  else if negb (truthy (get alertData "side")) then "default_side"
  else if negb (truthy (get alertData "orderType")) then "default_order_type"
  else if negb (truthy (get alertData "quantity")) then "default_quantity"
  else if negb (truthy (get alertData "stopLoss")) then "default_stop_loss"
  else if negb (truthy (get alertData "takeProfit")) then "default_take_profit"
  else "test_mode".

Definition bot_of (webhook : Joined.t) (alertData : obj) : M Bot.t :=
  match Joined.bots webhook with
  | Some bot => ret bot
  | None =>
      throw (Error ("Cannot read properties of null (reading '"
                      ++ first_bot_read alertData ++ "')"))
  end.

(** The [try] block. *)
Definition process (executeBybitOrder : OrderParams.t -> M OrderResult.t)
  (req : Request.t) : M Response.t :=
  let webhookToken := webhookToken req in
  now <- Date_now ;;
  webhook <- select_webhook webhookToken now ;;
  match webhook with
  | None => ret (json_response 404 [("error", VStr "Invalid or expired webhook")])
  | Some webhook =>
      alertData <- req_json req ;;
      apiKey <- select_api_key (Joined.user_id webhook) ;;
      match apiKey with
      | None => ret (json_response 400 [("error", VStr "API credentials not found")])
      | Some apiKey =>
          alertData <- properties alertData ;;
          bot <- bot_of webhook alertData ;;
          let orderParams := orderParams apiKey alertData bot in
          orderResult <- orderResult executeBybitOrder bot orderParams ;;
          now <- Date_now ;;
          tradeError <- insert_trade (trade_row webhook orderResult now) ;;
          now <- Date_now ;;
          botUpdateError <-
            update_bot (Joined.bot_id webhook) now (next_trade_count (Bot.trade_count bot)) ;;
          ret (json_response 200 (success_body orderResult bot))
      end
  end.

(** The exported handler of this copy: the client is made of whatever the
    environment holds, without a check. *)
Definition processAlert (executeBybitOrder : OrderParams.t -> M OrderResult.t)
  (req : Request.t) : M Response.t :=
  if (Request.method req =? "OPTIONS")%string then
    ret (Response.mk 204 corsHeaders None)
  else if negb (Request.method req =? "POST")%string then
    ret (json_response 405 [("error", VStr "Method not allowed")])
  else
    supabaseUrl <- Deno_env_get "SUPABASE_URL" ;;
    supabaseServiceKey <- Deno_env_get "SUPABASE_SERVICE_KEY" ;;
    supabase <- createClient supabaseUrl supabaseServiceKey ;;
    try_catch (process executeBybitOrder req)
              (fun error => ret (json_response 500 [("error", VStr (message error))])).

(** It imports [../utils/bybit.js] too. *)
Definition handler : Request.t -> M Response.t :=
  processAlert BybitV2a.executeBybitOrder.

End Earlier.

(* ================================================================== *)
(** ** Notions used by the statements *)
(* ================================================================== *)

(** The same credential row with another value of its test-mode flag, and
    the world in which every credential row carries the flag that [f] gives. *)
Definition reflag (f : ApiKey.t -> value) (k : ApiKey.t) : ApiKey.t :=
  {| ApiKey.user_id := ApiKey.user_id k;
     ApiKey.exchange := ApiKey.exchange k;
     ApiKey.api_key := ApiKey.api_key k;
     ApiKey.api_secret := ApiKey.api_secret k;
     ApiKey.test_mode := f k |}.

Definition with_key_flags (f : ApiKey.t -> value) (w : world) : world :=
  {| deno := deno w; env := env w; client_error := client_error w; clock := clock w; reads := reads w;
     webhooks := webhooks w; bots := bots w;
     api_keys := map (reflag f) (api_keys w);
     trades := trades w; store_fails := store_fails w;
     exchange := exchange w; sent := sent w |}.

(** The two ways a token misses: no row has it, or rows have it and each
    has [expires_at <= now]. *)
Definition is_absent (w : world) (token : string) : bool :=
  forallb (fun r => negb (Webhook.webhook_token r =? token)%string) (webhooks w).

Definition is_expired (w : world) (token : string) (now : Z) : bool :=
  existsb (fun r => (Webhook.webhook_token r =? token)%string) (webhooks w)
  && forallb (fun r => negb (Webhook.webhook_token r =? token)%string
                       || (Webhook.expires_at r <=? now)%Z)
             (webhooks w).

Definition not_found : Response.t :=
  json_response 404 [("error", VStr "Invalid or expired webhook")].

(** Tokens are minted by [nanoid(32)] in [generateWebhook.js]: 32 characters
    of the URL-friendly alphabet [A-Za-z0-9_-]. *)
Definition url_alphabet (c : ascii) : bool :=
  let n := code c in
  ((48 <=? n) && (n <=? 57) || (65 <=? n) && (n <=? 90) || (97 <=? n) && (n <=? 122)
   || (n =? 95) || (n =? 45))%Z%bool.

Definition minted (token : string) : bool :=
  (String.length token =? 32)%nat && forallb url_alphabet (list_ascii_of_string token).

(** No occurrence of the character in the string. *)
Definition free_of (c : ascii) (s : string) : bool :=
  forallb (fun x => negb (Ascii.eqb x c)) (list_ascii_of_string s).

(** The tokens that the application stores are not empty and have no
    question mark: those that [nanoid(32)] mints, and those that the front
    end draws with [Math.random().toString(36)]. *)
Definition plain_token (token : string) : bool :=
  negb (token =? "")%string && free_of "?" token.

Definition plain_store (w : world) : bool :=
  forallb (fun r => plain_token (Webhook.webhook_token r)) (webhooks w).

(** [createClient] makes a client of the two variables of the store. *)
Definition usable (w : world) : bool :=
  match client_error w (env w "SUPABASE_URL") (env w "SUPABASE_SERVICE_KEY") with
  | None => true
  | Some _ => false
  end.

(** The function runs on Deno, the environment has both variables of the
    store, and they make a client. *)
Definition configured (w : world) : bool :=
  deno w
  && negb (unset (env w "SUPABASE_URL")) && negb (unset (env w "SUPABASE_SERVICE_KEY"))
  && usable w.

(** The world in which the store fails on the operations that [fails] names. *)
Definition with_faults (fails : store_op -> bool) (w : world) : world :=
  {| deno := deno w; env := env w; client_error := client_error w; clock := clock w; reads := reads w;
     webhooks := webhooks w; bots := bots w; api_keys := api_keys w;
     trades := trades w; store_fails := fails;
     exchange := exchange w; sent := sent w |}.

(** The statements of the [try] block that follow [orderResult]: the trade
    is logged, the bot's counters are updated, the caller is answered. *)
Definition persist (webhook : Joined.t) (bot : Bot.t) (r : OrderResult.t) : M Response.t :=
  now <- Date_now ;;
  tradeError <- insert_trade (trade_row webhook r now) ;;
  now <- Date_now ;;
  botUpdateError <-
    update_bot (Joined.bot_id webhook) now (next_trade_count (Bot.trade_count bot)) ;;
  ret (json_response 200 (success_body r bot)).

(** The request that [netlify/utils/bybit.js] sends for [p] at time [now]. *)
Definition order_request (p : OrderParams.t) (now : Z) : http_request :=
  let timestamp := IntegerToString now in
  let params := legacy_params p in
  let signature :=
    Crypto.hmac_sha256 (OrderParams.apiSecret p) (BybitV2a.signed_string params timestamp) in
  {| http_method := "POST";
     http_url := BybitV2a.baseUrl (OrderParams.testnet p) ++ "/v2/private/order/create";
     http_data :=
       ObjectData (set (set params "timestamp" (VStr timestamp)) "sign" (VStr signature));
     http_headers := [] |}.

(** [m] does not see the difference that [T] makes to the world: from [T w]
    it has the outcome it has from [w], and leaves [T] of the world it leaves
    from [w]. *)
Definition blind (T : world -> world) {A} (m : M A) : Prop :=
  forall w, m (T w) = (fst (m w), T (snd (m w))).

(** [m] sends nothing to the exchange. *)
Definition quiet {A} (m : M A) : Prop :=
  forall w, sent (snd (m w)) = sent w.

(** Ascending in the order of [sort]: each string is below all that follow. *)
Definition ascending : list string -> Prop :=
  StronglySorted (fun a b => String.leb a b = true).

(** The pair that the signers write for a key. *)
Definition pair_of (params : obj) (key : string) : string :=
  key ++ "=" ++ ToString (get params key).

(** Every request that [m] sends satisfies [P]. *)
Definition emits (P : http_request -> Prop) {A} (m : M A) : Prop :=
  forall w, exists l, sent (snd (m w)) = app (sent w) l /\ Forall P l.

(** A POST of the V5 client for [p]: its body is the JSON text of the
    payload. *)
Definition carries_payload (category : value) (p : OrderParams.t) (r : http_request) : Prop :=
  http_method r = "POST" ->
  http_data r
  = TextData (JSON_stringify (BybitV5.payload (default_param category (VStr "linear")) p)).

(** A request of a legacy client: its data are parameters, as an object or
    form-encoded, with GoodTillCancel. *)
Definition carries_good_till_cancel (r : http_request) : Prop :=
  exists params,
    (http_data r = ObjectData params
     \/ http_data r = TextData (URLSearchParams_toString params))
    /\ get params "time_in_force" = VStr "GoodTillCancel".

(** The request goes to the order endpoint of the host that [testnet]
    selects. *)
Definition goes_to_venue (testnet : value) (r : http_request) : Prop :=
  http_url r = BybitV2a.baseUrl testnet ++ "/v2/private/order/create".

(** The order parameters as the specification words them: each field is the
    payload's when it is neither null nor undefined ([??]), and the bot's
    default otherwise; the price is the payload's. *)
Module Specified.

Definition orderParams (apiKey : ApiKey.t) (alertData : obj) (bot : Bot.t) : OrderParams.t :=
  {| OrderParams.apiKey := ApiKey.api_key apiKey;
     OrderParams.apiSecret := ApiKey.api_secret apiKey;
     OrderParams.symbol := coalesce (get alertData "symbol") (Bot.symbol bot);
     OrderParams.side := coalesce (get alertData "side") (Bot.default_side bot);
     OrderParams.orderType := coalesce (get alertData "orderType") (Bot.default_order_type bot);
     OrderParams.quantity := coalesce (get alertData "quantity") (Bot.default_quantity bot);
     OrderParams.price := get alertData "price";
     OrderParams.stopLoss := coalesce (get alertData "stopLoss") (Bot.default_stop_loss bot);
     OrderParams.takeProfit :=
       coalesce (get alertData "takeProfit") (Bot.default_take_profit bot);
     OrderParams.testnet := Bot.test_mode bot |}.

End Specified.

(* ================================================================== *)
(** ** Sample data *)
(* ================================================================== *)

Module Sample.

Definition bot : Bot.t :=
  {| Bot.id := "bot-1";
     Bot.name := VStr "Breakout";
     Bot.symbol := VStr "BTCUSD";
     Bot.default_side := VStr "Buy";
     Bot.default_order_type := VStr "Market";
     Bot.default_quantity := VNum 100;
     Bot.default_stop_loss := VNum 49000;
     Bot.default_take_profit := VNull;
     Bot.test_mode := VBool false;
     Bot.trade_count := VNum 7;
     Bot.last_trade_at := None |}.

Definition test_bot : Bot.t :=
  {| Bot.id := "bot-1";
     Bot.name := VStr "Breakout";
     Bot.symbol := VStr "BTCUSD";
     Bot.default_side := VStr "Buy";
     Bot.default_order_type := VStr "Market";
     Bot.default_quantity := VNum 100;
     Bot.default_stop_loss := VNum 49000;
     Bot.default_take_profit := VNull;
     Bot.test_mode := VBool true;
     Bot.trade_count := VNum 7;
     Bot.last_trade_at := None |}.

Definition token : string := "V1StGXR8_Z5jdHi6B-myTV1StGXR8_Z5".

Definition webhook : Webhook.t :=
  {| Webhook.webhook_token := token;
     Webhook.user_id := "user-1";
     Webhook.bot_id := "bot-1";
     Webhook.expires_at := 1700000600000;
     Webhook.created_at := 1699000000000 |}.

Definition apiKey : ApiKey.t :=
  {| ApiKey.user_id := "user-1";
     ApiKey.exchange := "bybit";
     ApiKey.api_key := "k";
     ApiKey.api_secret := "s";
     ApiKey.test_mode := VBool false |}.

Definition testnet_apiKey : ApiKey.t :=
  {| ApiKey.user_id := "user-1";
     ApiKey.exchange := "bybit";
     ApiKey.api_key := "k";
     ApiKey.api_secret := "s";
     ApiKey.test_mode := VBool true |}.

(** A payload that sets the stop loss to zero. *)
Definition alert_zero_stop : obj :=
  [ ("symbol", VStr "ETHUSD"); ("stopLoss", VNum 0) ].

Definition market_order : OrderParams.t :=
  {| OrderParams.apiKey := "k";
     OrderParams.apiSecret := "s";
     OrderParams.symbol := VStr "BTCUSD";
     OrderParams.side := VStr "Buy";
     OrderParams.orderType := VStr "Market";
     OrderParams.quantity := VNum 100;
     OrderParams.price := VUndefined;
     OrderParams.stopLoss := VUndefined;
     OrderParams.takeProfit := VUndefined;
     OrderParams.testnet := VBool false |}.

(** Parameters of an order with their timestamp, and the same with another
    timestamp. *)
Definition stamped : obj :=
  [ ("api_key", VStr "k"); ("symbol", VStr "BTCUSD"); ("side", VStr "Buy");
    ("timestamp", VStr "1700000000000") ].

Definition restamped : obj :=
  [ ("api_key", VStr "k"); ("symbol", VStr "BTCUSD"); ("side", VStr "Buy");
    ("timestamp", VStr "1700000000999") ].

(** The exchange accepts every order. *)
Definition accepting (r : http_request) : axios_result :=
  Resolved {| fields := [("ret_code", VNum 0); ("ret_msg", VStr "OK")];
              result := Object [("order_id", VStr "o-1"); ("order_status", VStr "Created")] |}.

(** The exchange rejects every order with a vendor code. *)
Definition rejecting (r : http_request) : axios_result :=
  Resolved {| fields := [("ret_code", VNum 10001); ("ret_msg", VStr "params error")];
              result := Prim VNull |}.

Definition environment (name : string) : option string :=
  if (name =? "SUPABASE_URL")%string then Some "https://db.example"
  else if (name =? "SUPABASE_SERVICE_KEY")%string then Some "service-key"
  else None.

Definition world_with (b : Bot.t) (keys : list ApiKey.t)
  (answer : http_request -> axios_result) (fails : store_op -> bool) : world :=
  {| deno := true;
     env := environment;
     client_error := fun _ _ => None;
     clock := fun n => 1700000000000 + Z.of_nat n;
     reads := 0;
     webhooks := [webhook];
     bots := [b];
     api_keys := keys;
     trades := [];
     store_fails := fails;
     exchange := answer;
     sent := [] |}.

Definition healthy (op : store_op) : bool := false.

(** The store refuses the insert and the update. *)
Definition read_only (op : store_op) : bool :=
  match op with
  | InsertTrade | UpdateBot => true
  | _ => false
  end.

(** The same world a year later: the webhook has expired. *)
Definition later (w : world) : world :=
  {| deno := deno w;
     env := env w;
     client_error := client_error w;
     clock := fun n => 1731536000000 + Z.of_nat n;
     reads := reads w;
     webhooks := webhooks w; bots := bots w; api_keys := api_keys w;
     trades := trades w; store_fails := store_fails w;
     exchange := exchange w; sent := sent w |}.

Definition post (url : string) (payload : obj) : Request.t :=
  {| Request.method := "POST";
     Request.url := url;
     Request.json := Request.Parsed (Object payload) |}.

Definition alert_url : string :=
  "https://relay.example/.netlify/functions/processAlert/" ++ token.

(** A bot out of test mode whose owner's credential row is flagged. *)
Definition flagged : world := world_with bot [testnet_apiKey] accepting healthy.

End Sample.

(* ================================================================== *)
(** ** The position queries of the client *)
(* ================================================================== *)

(** The argument of [getBybitPositions], with a key and a secret that are
    strings (see [ApiKey]). *)
Module PositionParams.
Record t : Type := mk {
  apiKey : string;
  apiSecret : string;
  symbol : value;
  testnet : value
}.
End PositionParams.

(** What the position queries of the legacy revisions do with the answer. *)
Definition positions_result (response : response_data) : M nested :=
  if strict_eq (get (fields response) "ret_code") (VNum 0) then
    ret (result response)
  else
    throw (Error ("Bybit API error: " ++ ToString (get (fields response) "ret_msg"))).

(** The catch block of the position query in the form-encoded revisions. *)
Definition describe_positions_failure {A} (error : error) : M A :=
  match response error with
  | Some (status, text) =>
      throw (Error ("Failed to get positions: " ++ IntegerToString status ++ " - " ++ text))
  | None =>
      if request error
      then throw (Error "Failed to get positions: No response received from server")
      else throw (Error ("Failed to get positions: " ++ message error))
  end.

(** [getBybitPositions] of [netlify/utils/bybit.js]; the [params] option of
    [axios.get] is kept as the data of the request. *)
Module BybitV2aPositions.

Definition getBybitPositions (p : PositionParams.t) : M nested :=
  let baseUrl := BybitV2a.baseUrl (PositionParams.testnet p) in
  let endpoint := "/v2/private/position/list" in
  let params :=
    [ ("api_key", VStr (PositionParams.apiKey p));
      ("symbol", PositionParams.symbol p) ] in
  signed <- BybitV2a.generateSignature (PositionParams.apiSecret p) params ;;
  let params := set params "timestamp" (VStr (fst signed)) in
  let params := set params "sign" (VStr (snd signed)) in
  try_catch
    (response <- axios "GET" (baseUrl ++ endpoint) (ObjectData params) [] ;;
     positions_result response)
    (fun error => throw (Error ("Failed to get positions: " ++ message error))).

End BybitV2aPositions.

(** [getBybitPositions] of the first form-encoded revision
    ([unnamed/part_001]). *)
Module BybitV2bPositions.

Definition getBybitPositions (p : PositionParams.t) : M nested :=
  let baseUrl := BybitV2b.baseUrl (PositionParams.testnet p) in
  let endpoint := "/v2/private/position/list" in
  let params :=
    [ ("api_key", VStr (PositionParams.apiKey p));
      ("symbol", PositionParams.symbol p) ] in
  now <- Date_now ;;
  let timestamp := IntegerToString now in
  let params := set params "timestamp" (VStr timestamp) in
  signature <- BybitV2b.generateSignature (PositionParams.apiSecret p) params ;;
  let params := set params "sign" (VStr signature) in
  try_catch
    (let url := baseUrl ++ endpoint ++ "?" ++ URLSearchParams_toString params in
     response <- axios "GET" url NoData [] ;;
     positions_result response)
    describe_positions_failure.

End BybitV2bPositions.

(** [getBybitPositions] of the second form-encoded revision
    ([unnamed/part_000]). *)
Module BybitV2cPositions.

Definition getBybitPositions (p : PositionParams.t) : M nested :=
  let baseUrl := BybitV2c.baseUrl (PositionParams.testnet p) in
  let endpoint := "/v2/private/position/list" in
  let params :=
    [ ("api_key", VStr (PositionParams.apiKey p));
      ("symbol", PositionParams.symbol p) ] in
  now <- Date_now ;;
  let timestamp := IntegerToString now in
  let params := set params "timestamp" (VStr timestamp) in
  let signature := BybitV2c.generateSignature (PositionParams.apiSecret p) params in
  let params := set params "sign" (VStr signature) in
  try_catch
    (let url := baseUrl ++ endpoint ++ "?" ++ URLSearchParams_toString params in
     response <- axios "GET" url NoData [] ;;
     positions_result response)
    describe_positions_failure.

End BybitV2cPositions.

(** [getBybitPositions] of [netlify/utils/bybit.mjs]. *)
Module BybitV5Positions.

(** The sorted query string of the two parameters. *)
Definition queryString (category symbol : value) : string :=
  let params := [("category", category); ("symbol", symbol)] in
  join "&" (map (fun k => k ++ "=" ++ ToString (get params k)) (sort (keys params))).

Definition getBybitPositionsWith (category recvWindow : value) (p : PositionParams.t)
  : M nested :=
  let testnet := default_param (PositionParams.testnet p) (VBool false) in
  let category := default_param category (VStr "linear") in
  let recvWindow :=
    ToString (default_param recvWindow (VStr BybitV5.DEFAULT_RECV_WINDOW)) in
  let baseUrl := BybitV5.baseUrl (PositionParams.testnet p) in
  let endpoint := "/v5/position/list" in
  let queryString := queryString category (PositionParams.symbol p) in
  timestamp <- BybitV5.getServerTimestamp testnet ;;
  let signature :=
    BybitV5.signGet (PositionParams.apiSecret p) (PositionParams.apiKey p) recvWindow
      timestamp queryString in
  let headers :=
    [ ("X-BAPI-API-KEY", PositionParams.apiKey p);
      ("X-BAPI-TIMESTAMP", timestamp);
      ("X-BAPI-RECV-WINDOW", recvWindow);
      ("X-BAPI-SIGN", signature) ] in
  let url := baseUrl ++ endpoint ++ "?" ++ queryString in
  data <- axios "GET" url NoData headers ;;
  if negb (strict_eq (get (fields data) "retCode") (VNum 0)) then
    throw (Error ("Bybit API error " ++ ToString (get (fields data) "retCode")
                    ++ ": " ++ ToString (get (fields data) "retMsg")))
  else ret (result data).

Definition getBybitPositions (p : PositionParams.t) : M nested :=
  getBybitPositionsWith VUndefined VUndefined p.

End BybitV5Positions.

(* ================================================================== *)
(** ** [netlify/functions/generateWebhook.js] *)
(* ================================================================== *)

(** The first of the two copies of the generator in the file; the second
    differs in its log lines and destructures the awaited body without
    naming it.  The columns [user_id] and [bot_id] of the row are kept as the
    strings of the given values. *)
Module GenerateWebhook.

(** What the function takes from its platform: whether the global
    [process] exists and the node-style environment (the global [Deno] and
    its environment are the world's), the token that [nanoid(32)] draws, the
    calendar ([expiry now days] is the time of [new Date()] taken at [now]
    after [setDate(getDate() + days)], nothing when that date is invalid),
    [toISOString], and the error, if any, with which the store answers the
    insert. *)
Record platform : Type := {
  has_process : bool;
  process_env : string -> option string;
  nanoid : string;
  expiry : Z -> value -> option Z;
  toISOString : Z -> string;
  insert_error : option error
}.

Record request : Type := {
  method : string;
  json : Request.parsed;
  host : value                       (* req.headers.get("host") *)
}.

(** [process.env.NAME || Deno.env?.get?.(NAME)]: a global that does not
    exist is a ReferenceError, and [Deno] is looked at only when the
    node-style variable is unset. *)
Definition lookup (pf : platform) (name : string) : M (option string) :=
  if negb (has_process pf) then throw (Error "process is not defined")
  else if unset (process_env pf name) then Deno_env_get name
  else ret (process_env pf name).

(** The destructuring of the parsed body. *)
Definition destructure (body : nested) : M obj :=
  match body with
  | Object o => ret o
  | Prim VUndefined =>
      throw (Error "Cannot destructure property 'userId' of 'body' as it is undefined.")
  | Prim VNull =>
      throw (Error "Cannot destructure property 'userId' of 'body' as it is null.")
  | Prim _ => ret []
  end.

(** [from('webhooks').insert(row)] *)
Definition insert_webhook (pf : platform) (row : Webhook.t) : M (option error) :=
  fun w =>
    match insert_error pf with
    | Some e => (Returned (Some e), w)
    | None =>
        (Returned None,
         {| deno := deno w; env := env w; client_error := client_error w; clock := clock w; reads := reads w;
            webhooks := webhooks w ++ [row]; bots := bots w; api_keys := api_keys w;
            trades := trades w; store_fails := store_fails w;
            exchange := exchange w; sent := sent w |})
    end.

(** [expirationDate.toISOString()]; an invalid date throws. *)
Definition expirationDate (pf : platform) (now : Z) (expirationDays : value) : M Z :=
  match expiry pf now expirationDays with
  | Some t => ret t
  | None => throw (Error "Invalid time value")
  end.

(** [process.env.URL || Deno.env?.get?.("URL") || req.headers.get("host")] *)
Definition baseUrl (url : option string) (req : request) : value :=
  if unset url then host req
  else match url with Some u => VStr u | None => VUndefined end.

Definition webhookUrl (base : value) (webhookToken : string) : string :=
  ToString base ++ "/.netlify/functions/processAlert/" ++ webhookToken.

(** The [try] block. *)
Definition generate (pf : platform) (req : request) : M Response.t :=
  body <- req_json (Request.mk (method req) EmptyString (json req)) ;;
  body <- destructure body ;;
  let userId := get body "userId" in
  let botId := get body "botId" in
  let expirationDays := default_param (get body "expirationDays") (VNum 30) in
  if negb (truthy userId) || negb (truthy botId) then
    ret (json_response 400 [("error", VStr "Missing required fields")])
  else
    let webhookToken := nanoid pf in
    now <- Date_now ;;
    expires <- expirationDate pf now expirationDays ;;
    created <- Date_now ;;
    error <- insert_webhook pf
               {| Webhook.webhook_token := webhookToken;
                  Webhook.user_id := ToString userId;
                  Webhook.bot_id := ToString botId;
                  Webhook.expires_at := expires;
                  Webhook.created_at := created |} ;;
    match error with
    | Some e => throw e
    | None =>
        url <- lookup pf "URL" ;;
        let webhookUrl := webhookUrl (baseUrl url req) webhookToken in
        ret (json_response 200
               [ ("webhookUrl", VStr webhookUrl);
                 ("expiresAt", VStr (toISOString pf expires)) ])
    end.

(** The exported handler. *)
Definition generateWebhook (pf : platform) (req : request) : M Response.t :=
  if (method req =? "OPTIONS")%string then
    ret (Response.mk 204 corsHeaders None)
  else if negb (method req =? "POST")%string then
    ret (json_response 405 [("error", VStr "Method not allowed")])
  else
    supabaseUrl <- lookup pf "SUPABASE_URL" ;;
    supabaseServiceKey <- lookup pf "SUPABASE_SERVICE_KEY" ;;
    if unset supabaseUrl || unset supabaseServiceKey then
      ret (json_response 500 [("error", VStr "Server configuration error")])
    else
      supabase <- createClient supabaseUrl supabaseServiceKey ;;
      try_catch (generate pf req)
                (fun error => ret (json_response 500 [("error", VStr (message error))])).

End GenerateWebhook.

(* ================================================================== *)
(** ** Notions used by the statements on the rest of the code *)
(* ================================================================== *)

(** The revisions of the client that the alert processor can be linked
    with. *)
Definition clients : list (OrderParams.t -> M OrderResult.t) :=
  [ BybitV2a.executeBybitOrder; BybitV2b.executeBybitOrder;
    BybitV2c.executeBybitOrder; BybitV5.executeBybitOrder ].

(** [m] leaves [f] of the world as it finds it. *)
Definition keeps {B} (f : world -> B) {A} (m : M A) : Prop :=
  forall w, f (snd (m w)) = f w.

(** The tables of the store. *)
Definition tables (w : world)
  : list Webhook.t * list Bot.t * list ApiKey.t * list Trade.t :=
  (webhooks w, bots w, api_keys w, trades w).

(** The rows that [.single()] of the webhook query chooses from. *)
Definition live_rows (w : world) (token : string) (now : Z) : list Webhook.t :=
  filter (fun r => (Webhook.webhook_token r =? token)%string
                   && (now <? Webhook.expires_at r)%Z)
         (webhooks w).

(** The credential rows that [.single()] of the second query chooses from. *)
Definition bybit_rows (w : world) (user_id : string) : list ApiKey.t :=
  filter (fun k => (ApiKey.user_id k =? user_id)%string
                   && (ApiKey.exchange k =? "bybit")%string)
         (api_keys w).

(** The revisions of the client that speak the legacy protocol. *)
Definition legacy_clients : list (OrderParams.t -> M OrderResult.t) :=
  [ BybitV2a.executeBybitOrder; BybitV2b.executeBybitOrder;
    BybitV2c.executeBybitOrder ].

(** The [try] statement of a legacy revision of [executeBybitOrder]: the
    request that was built and signed before it goes out, the answer is
    read, and the [catch] rethrows. *)
Definition legacy_try (catch : error -> M OrderResult.t) (request : http_request)
  (p : OrderParams.t) : M OrderResult.t :=
  try_catch
    (response <- axios "POST" (http_url request) (http_data request)
                   (http_headers request) ;;
     legacy_result p response)
    catch.

(** The [catch] blocks of the legacy revisions: of [netlify/utils/bybit.js],
    and of the two form-encoded revisions. *)
Definition legacy_catches : list (error -> M OrderResult.t) :=
  [ (fun error => throw (Error ("Failed to execute order: " ++ message error)));
    describe_failure ].


(** The message of the error starts with the given text. *)
Definition announced (text : string) (e : error) : Prop :=
  String.prefix text (message e) = true.

(** The request by which the V5 client asks the exchange for its time. *)
Definition time_request (testnet : value) : http_request :=
  {| http_method := "GET";
     http_url := BybitV5.baseUrl testnet ++ "/v5/market/time";
     http_data := NoData;
     http_headers := [] |}.

(** Two rows for each row of the webhook table. *)
Definition twice (w : world) : world :=
  {| deno := deno w; env := env w; client_error := client_error w; clock := clock w; reads := reads w;
     webhooks := app (webhooks w) (webhooks w); bots := bots w; api_keys := api_keys w;
     trades := trades w; store_fails := store_fails w;
     exchange := exchange w; sent := sent w |}.

(** [x.k] when the read does not throw. *)
Definition property (x : nested) (k : string) : value :=
  match x with
  | Object o => get o k
  | Prim _ => VUndefined
  end.

(** The numbers that the model prints as the code does: the decimals
    [m / 10^k] with [|m| < 10^15] and [k <= 20].  Such a decimal is the
    shortest text that reads back as its double, which is the text that
    Number::toString prints (in exponent form below 1e-6). *)
Definition short_decimal (q : Q) : bool :=
  existsb (fun k =>
             let m := (Qnum q * 10 ^ Z.of_nat k)%Z in
             ((m mod Z.pos (Qden q) =? 0) && (Z.abs (m / Z.pos (Qden q)) <? 10 ^ 15))%Z)
          (seq 0 21).

(** The values whose string image and JSON text are those of the code. *)
Definition printable (v : value) : bool :=
  match v with
  | VNum q => short_decimal q
  | _ => true
  end.

Definition printable_order (p : OrderParams.t) : bool :=
  printable (OrderParams.symbol p) && printable (OrderParams.side p)
  && printable (OrderParams.orderType p) && printable (OrderParams.quantity p)
  && printable (OrderParams.price p) && printable (OrderParams.stopLoss p)
  && printable (OrderParams.takeProfit p).

(** An order for a small quantity, with a stop loss of zero. *)
Definition small_order : OrderParams.t :=
  {| OrderParams.apiKey := "k";
     OrderParams.apiSecret := "s";
     OrderParams.symbol := VStr "BTCUSDT";
     OrderParams.side := VStr "Buy";
     OrderParams.orderType := VStr "Limit";
     OrderParams.quantity := VNum (1 # 10000000);
     OrderParams.price := VNum (650005 # 10);
     OrderParams.stopLoss := VNum 0;
     OrderParams.takeProfit := VNull;
     OrderParams.testnet := VBool false |}.

(** The exchange answers the request with a body whose [retCode] is 0. *)
Definition time_given (w : world) (r : http_request) : option response_data :=
  match exchange w r with
  | Resolved d => if strict_eq (get (fields d) "retCode") (VNum 0) then Some d else None
  | Rejected _ => None
  end.

(** The order that the V5 client posts with the timestamp [timestamp]. *)
Definition V5_order_request (p : OrderParams.t) (timestamp : string) : http_request :=
  let body := JSON_stringify (BybitV5.payload (VStr "linear") p) in
  {| http_method := "POST";
     http_url := BybitV5.baseUrl (OrderParams.testnet p) ++ "/v5/order/create";
     http_data := TextData body;
     http_headers :=
       [ ("Content-Type", "application/json");
         ("X-BAPI-API-KEY", OrderParams.apiKey p);
         ("X-BAPI-TIMESTAMP", timestamp);
         ("X-BAPI-RECV-WINDOW", "15000");
         ("X-BAPI-SIGN",
          Crypto.hmac_sha256 (OrderParams.apiSecret p)
            (timestamp ++ OrderParams.apiKey p ++ "15000" ++ body)) ] |}.

(** The position queries of the legacy revisions. *)
Definition legacy_position_queries : list (PositionParams.t -> M nested) :=
  [ BybitV2aPositions.getBybitPositions; BybitV2bPositions.getBybitPositions;
    BybitV2cPositions.getBybitPositions ].

(** What a legacy position query makes of the exchange's answer. *)
Definition positions_outcome (a : axios_result) (o : outcome nested) : Prop :=
  match a with
  | Resolved d =>
      if strict_eq (get (fields d) "ret_code") (VNum 0) then o = Returned (result d)
      else o = Thrown (Error ("Failed to get positions: Bybit API error: "
                                ++ ToString (get (fields d) "ret_msg")))
  | Rejected e =>
      exists e', o = Thrown e' /\ announced "Failed to get positions: " e'
  end.

(** The position query of the form-encoded revisions that carries the
    timestamp [sent_at] and the signature of the parameters stamped
    [signed_at]. *)
Definition positions_request (p : PositionParams.t) (sent_at signed_at : Z) : http_request :=
  let params :=
    [ ("api_key", VStr (PositionParams.apiKey p));
      ("symbol", PositionParams.symbol p) ] in
  let signature :=
    Crypto.hmac_sha256 (PositionParams.apiSecret p)
      ("api_key=" ++ PositionParams.apiKey p
       ++ "&symbol=" ++ ToString (PositionParams.symbol p)
       ++ "&timestamp=" ++ IntegerToString signed_at) in
  {| http_method := "GET";
     http_url :=
       BybitV2a.baseUrl (PositionParams.testnet p) ++ "/v2/private/position/list?"
       ++ URLSearchParams_toString
            (app params [ ("timestamp", VStr (IntegerToString sent_at));
                          ("sign", VStr signature) ]);
     http_data := NoData;
     http_headers := [] |}.

(** The position query that the V5 client sends with the timestamp
    [timestamp]. *)
Definition V5_positions_request (p : PositionParams.t) (timestamp : string) : http_request :=
  let queryString := "category=linear&symbol=" ++ ToString (PositionParams.symbol p) in
  {| http_method := "GET";
     http_url :=
       BybitV5.baseUrl (PositionParams.testnet p) ++ "/v5/position/list?" ++ queryString;
     http_data := NoData;
     http_headers :=
       [ ("X-BAPI-API-KEY", PositionParams.apiKey p);
         ("X-BAPI-TIMESTAMP", timestamp);
         ("X-BAPI-RECV-WINDOW", "15000");
         ("X-BAPI-SIGN",
          Crypto.hmac_sha256 (PositionParams.apiSecret p)
            (timestamp ++ PositionParams.apiKey p ++ "15000" ++ queryString)) ] |}.

(** The value that the webhook generator finds for a variable of the
    environment: the node-style one when it is set, else Deno's. *)
Definition variable (pf : GenerateWebhook.platform) (w : world) (name : string)
  : option string :=
  if unset (GenerateWebhook.process_env pf name) then env w name
  else GenerateWebhook.process_env pf name.

(** The ReferenceError that the lookup of a variable ends in, if any. *)
Definition lookup_error (pf : GenerateWebhook.platform) (w : world) (name : string)
  : option error :=
  if negb (GenerateWebhook.has_process pf) then Some (Error "process is not defined")
  else if unset (GenerateWebhook.process_env pf name) && negb (deno w)
       then Some (Error "Deno is not defined")
       else None.

(** Both globals exist, both variables of the store are set, and they make
    a client. *)
Definition generator_configured (pf : GenerateWebhook.platform) (w : world) : bool :=
  GenerateWebhook.has_process pf && deno w
  && negb (unset (variable pf w "SUPABASE_URL"))
  && negb (unset (variable pf w "SUPABASE_SERVICE_KEY"))
  && match client_error w (variable pf w "SUPABASE_URL")
             (variable pf w "SUPABASE_SERVICE_KEY") with
     | None => true
     | Some _ => false
     end.

(** The world with one more webhook row. *)
Definition with_webhook (row : Webhook.t) (w : world) : world :=
  {| deno := deno w; env := env w; client_error := client_error w; clock := clock w; reads := reads w;
     webhooks := webhooks w ++ [row]; bots := bots w; api_keys := api_keys w;
     trades := trades w; store_fails := store_fails w;
     exchange := exchange w; sent := sent w |}.

(** The row that the generator writes for the fields of a body, at the
    readings [now] and [created] of the clock. *)
Definition generated_row (pf : GenerateWebhook.platform) (body : obj) (expires created : Z)
  : Webhook.t :=
  {| Webhook.webhook_token := GenerateWebhook.nanoid pf;
     Webhook.user_id := ToString (get body "userId");
     Webhook.bot_id := ToString (get body "botId");
     Webhook.expires_at := expires;
     Webhook.created_at := created |}.

(** The expiration that the generator computes for a body at [now]. *)
Definition expiration (pf : GenerateWebhook.platform) (body : obj) (now : Z) : option Z :=
  GenerateWebhook.expiry pf now (default_param (get body "expirationDays") (VNum 30)).

(** The answer of the generator for a stored row. *)
Definition generated_answer (pf : GenerateWebhook.platform) (req : GenerateWebhook.request)
  (w : world) (expires : Z) : Response.t :=
  json_response 200
    [ ("webhookUrl",
       VStr (ToString (GenerateWebhook.baseUrl (variable pf w "URL") req)
             ++ "/.netlify/functions/processAlert/" ++ GenerateWebhook.nanoid pf));
      ("expiresAt", VStr (GenerateWebhook.toISOString pf expires)) ].

(** A platform of the generator, whose calendar has days of 86400000 ms and
    whose dates print as their time value, and a request. *)
Definition sample_platform : GenerateWebhook.platform :=
  {| GenerateWebhook.has_process := true;
     GenerateWebhook.process_env := fun _ => None;
     GenerateWebhook.nanoid := "Uakgb_J5m9g-0JDMbcJqLJUakgb_J5m9";
     GenerateWebhook.expiry :=
       fun now days =>
         match days with
         | VNum q => Some (now + 86400000 * (Qnum q / Z.pos (Qden q)))
         | _ => None
         end;
     GenerateWebhook.toISOString := IntegerToString;
     GenerateWebhook.insert_error := None |}.

Definition sample_generation : GenerateWebhook.request :=
  {| GenerateWebhook.method := "POST";
     GenerateWebhook.json :=
       Request.Parsed (Object [("userId", VStr "user-1"); ("botId", VStr "bot-1")]);
     GenerateWebhook.host := VStr "relay.example" |}.

(* ================================================================== *)
(** * Properties *)
(* ================================================================== *)

(** ** Test vectors of the hash *)

(** Published test vectors (FIPS 180-4, and the usual HMAC example). *)
Example sha256_abc :
  Crypto.sha256_hex "abc"
  = "ba7816bf8f01cfea414140de5dae2223b00361a396177a9cb410ff61f20015ad".
Proof. vm_compute. reflexivity. Qed.

Example sha256_empty :
  Crypto.sha256_hex EmptyString
  = "e3b0c44298fc1c149afbf4c8996fb92427ae41e4649b934ca495991b7852b855".
Proof. vm_compute. reflexivity. Qed.

Example hmac_sha256_fox :
  Crypto.hmac_sha256 "key" "The quick brown fox jumps over the lazy dog"
  = "f7bc83f430538424b13298e6aa6fb143ef4d59a14946175997479dbc2d1a3cd8".
Proof. vm_compute. reflexivity. Qed.

(** ** Objects *)

Lemma get_set_same (o : obj) (k : string) (v : value) : get (set o k v) k = v.
Proof.
  induction o as [|[k' v'] o IH]; simpl.
  - now rewrite String.eqb_refl.
  - destruct (String.eqb k k') eqn:E; simpl.
    + now rewrite String.eqb_refl.
    + now rewrite E.
Qed.

Lemma get_set_other (o : obj) (k k' : string) (v : value) :
  k <> k' -> get (set o k v) k' = get o k'.
Proof.
  intros Hk. induction o as [|[k0 v0] o IH]; simpl.
  - destruct (String.eqb k' k) eqn:E; [|reflexivity].
    apply String.eqb_eq in E. congruence.
  - destruct (String.eqb k k0) eqn:E; simpl.
    + apply String.eqb_eq in E. subst k0.
      destruct (String.eqb k' k) eqn:E'; [|reflexivity].
      apply String.eqb_eq in E'. congruence.
    + now rewrite IH.
Qed.

Lemma set_set (o : obj) (k : string) (v v' : value) :
  set (set o k v) k v' = set o k v'.
Proof.
  induction o as [|[k0 v0] o IH]; simpl.
  - now rewrite String.eqb_refl.
  - destruct (String.eqb k k0) eqn:E; simpl.
    + now rewrite String.eqb_refl.
    + now rewrite E, IH.
Qed.

Lemma keys_set_present (o : obj) (k : string) (v : value) :
  In k (keys o) -> keys (set o k v) = keys o.
Proof.
  induction o as [|[k0 v0] o IH]; simpl; [tauto|].
  intros H. destruct (String.eqb k k0) eqn:E; simpl.
  - apply String.eqb_eq in E. now subst.
  - f_equal. apply IH. destruct H as [H|H]; [|exact H].
    subst k0. now rewrite String.eqb_refl in E.
Qed.

Lemma in_keys_set (o : obj) (k : string) (v : value) : In k (keys (set o k v)).
Proof.
  induction o as [|[k0 v0] o IH]; simpl; [now left|].
  destruct (String.eqb k k0) eqn:E; simpl; [now left | now right].
Qed.

Lemma get_absent (o : obj) (k : string) : has o k = false -> get o k = VUndefined.
Proof.
  unfold has, keys. induction o as [|[k' v] o IH]; simpl; [reflexivity|].
  intros H. apply orb_false_elim in H. destruct H as [H1 H2].
  rewrite H1. now apply IH.
Qed.

(** ** Strings, sorting, joining *)

Lemma append_assoc (a b c : string) : (a ++ b) ++ c = a ++ b ++ c.
Proof. induction a as [|x a IH]; simpl; [reflexivity | now rewrite IH]. Qed.

Lemma append_empty_r (a : string) : a ++ EmptyString = a.
Proof. induction a as [|x a IH]; simpl; [reflexivity | now rewrite IH]. Qed.

Lemma length_append (a b : string) :
  String.length (a ++ b) = (String.length a + String.length b)%nat.
Proof. induction a as [|x a IH]; simpl; [reflexivity | now rewrite IH]. Qed.

Lemma append_inv_head (a b c : string) : a ++ b = a ++ c -> b = c.
Proof.
  induction a as [|x a IH]; simpl; intros H; [exact H|].
  injection H as H. now apply IH.
Qed.

Lemma append_inv_tail (a b c : string) : a ++ c = b ++ c -> a = b.
Proof.
  revert b. induction a as [|x a IH]; intros [|y b] H; simpl in *.
  - reflexivity.
  - apply (f_equal String.length) in H. simpl in H. rewrite length_append in H. lia.
  - apply (f_equal String.length) in H. simpl in H. rewrite length_append in H. lia.
  - injection H as -> H. f_equal. now apply IH.
Qed.

Lemma drop_last_append (a : string) (c : ascii) :
  drop_last (a ++ String c EmptyString) = a.
Proof.
  induction a as [|x a IH]; [reflexivity|].
  simpl. rewrite IH. destruct a; reflexivity.
Qed.

Lemma join_cons (sep x : string) (l : list string) :
  join sep (x :: l)
  = x ++ match l with [] => EmptyString | _ => sep ++ join sep l end.
Proof. destruct l; simpl; [now rewrite append_empty_r | reflexivity]. Qed.

Lemma join_merge (sep x y : string) (l : list string) :
  join sep ((x ++ sep ++ y) :: l) = join sep (x :: y :: l).
Proof.
  rewrite (join_cons sep x), !join_cons, !append_assoc. reflexivity.
Qed.

Lemma leb_trans (a b c : string) :
  String.leb a b = true -> String.leb b c = true -> String.leb a c = true.
Proof.
  unfold String.leb. revert b c.
  induction a as [|x a IH]; intros [|y b] [|z c]; simpl; try congruence.
  unfold Ascii.compare.
  destruct (N.compare_spec (N_of_ascii x) (N_of_ascii y)) as [Exy|Lxy|Gxy];
    destruct (N.compare_spec (N_of_ascii y) (N_of_ascii z)) as [Eyz|Lyz|Gyz];
    destruct (N.compare_spec (N_of_ascii x) (N_of_ascii z)) as [Exz|Lxz|Gxz];
    try congruence; try lia.
  apply IH.
Qed.

Lemma leb_refl (a : string) : String.leb a a = true.
Proof. destruct (String.leb_total a a); assumption. Qed.

Lemma insert_sorted_perm (k : string) (l : list string) :
  Permutation (insert_sorted k l) (k :: l).
Proof.
  induction l as [|x l IH]; simpl; [reflexivity|].
  destruct (String.leb k x); [reflexivity|].
  rewrite IH. apply perm_swap.
Qed.

Lemma sort_perm (l : list string) : Permutation (sort l) l.
Proof.
  induction l as [|x l IH]; simpl; [reflexivity|].
  rewrite insert_sorted_perm. now constructor.
Qed.

Lemma insert_sorted_ascending (k : string) (l : list string) :
  ascending l -> ascending (insert_sorted k l).
Proof.
  unfold ascending. induction 1 as [|x l Hl IH Hx]; simpl.
  - repeat constructor.
  - destruct (String.leb k x) eqn:E.
    + constructor; [now constructor|].
      constructor; [exact E|].
      eapply Forall_impl; [|exact Hx]. intros y Hy. now apply (leb_trans k x y).
    + constructor; [exact IH|].
      assert (Hxk : String.leb x k = true).
      { destruct (String.leb_total k x) as [H|H]; [congruence | exact H]. }
      eapply Permutation_Forall; [symmetry; apply insert_sorted_perm|].
      now constructor.
Qed.

Lemma sort_ascending (l : list string) : ascending (sort l).
Proof.
  induction l as [|x l IH]; simpl; [constructor|].
  now apply insert_sorted_ascending.
Qed.

(** The ascending arrangement of given strings is unique: the result of
    [sort] does not depend on the algorithm. *)
Lemma ascending_unique (l l' : list string) :
  ascending l -> ascending l' -> Permutation l l' -> l = l'.
Proof.
  unfold ascending. intros Hl. revert l'.
  induction Hl as [|x l Hl IH Hx]; intros l' Hl' Hp.
  - now apply Permutation_nil in Hp.
  - destruct Hl' as [|y l' Hl' Hy]; [now apply Permutation_sym, Permutation_nil in Hp|].
    assert (Exy : x = y).
    { apply String.leb_antisym.
      - assert (Hin : In y (x :: l)) by (eapply Permutation_in; [symmetry; exact Hp | now left]).
        destruct Hin as [->|Hin]; [apply leb_refl|].
        rewrite Forall_forall in Hx. now apply Hx.
      - assert (Hin : In x (y :: l')) by (eapply Permutation_in; [exact Hp | now left]).
        destruct Hin as [->|Hin]; [apply leb_refl|].
        rewrite Forall_forall in Hy. now apply Hy. }
    subst y. f_equal. apply IH; [exact Hl'|].
    now apply Permutation_cons_inv in Hp.
Qed.

(** ** Laws of the computations *)

Lemma bind_ret_l {A B} (a : A) (k : A -> M B) (w : world) : bind (ret a) k w = k a w.
Proof. reflexivity. Qed.

Lemma bind_throw_l {A B} (e : error) (k : A -> M B) (w : world) :
  bind (throw e) k w = (Thrown e, w).
Proof. reflexivity. Qed.

Lemma bind_Date_now {B} (k : Z -> M B) (w : world) :
  bind Date_now k w = k (clock w (reads w)) (tick w).
Proof. reflexivity. Qed.

Lemma bind_select_webhook {B} (token : string) (now : Z) (k : option Joined.t -> M B)
  (w : world) :
  bind (select_webhook token now) k w = k (find_webhook w token now) w.
Proof. reflexivity. Qed.

Lemma bind_select_api_key {B} (user_id : string) (k : option ApiKey.t -> M B) (w : world) :
  bind (select_api_key user_id) k w = k (find_api_key w user_id) w.
Proof. reflexivity. Qed.

Lemma bind_ext {A B} (m : M A) (k k' : A -> M B) (w : world) :
  (forall a w', k a w' = k' a w') -> bind m k w = bind m k' w.
Proof.
  intros H. unfold bind. destruct (m w) as [[a|e] w']; [apply H | reflexivity].
Qed.

(** ** Computations that run alike in a transformed world *)

Create HintDb blind.

Section Blind.

Variable T : world -> world.

Hypothesis blind_Date_now : blind T Date_now.
Hypothesis blind_axios :
  forall method url d hs, blind T (axios method url d hs).

Lemma blind_ret {A} (a : A) : blind T (ret a).
Proof. intros w. reflexivity. Qed.

Lemma blind_throw {A} (e : error) : blind T (@throw A e).
Proof. intros w. reflexivity. Qed.

Lemma blind_bind {A B} (m : M A) (k : A -> M B) :
  blind T m -> (forall a, blind T (k a)) -> blind T (bind m k).
Proof.
  intros Hm Hk w. unfold bind. rewrite Hm.
  destruct (m w) as [[a|e] w']; simpl; [apply Hk | reflexivity].
Qed.

Lemma blind_try_catch {A} (m : M A) (h : error -> M A) :
  blind T m -> (forall e, blind T (h e)) -> blind T (try_catch m h).
Proof.
  intros Hm Hh w. unfold try_catch. rewrite Hm.
  destruct (m w) as [[a|e] w']; simpl; [reflexivity | apply Hh].
Qed.

Lemma blind_if {A} (b : bool) (m1 m2 : M A) :
  blind T m1 -> blind T m2 -> blind T (if b then m1 else m2).
Proof. destruct b; auto. Qed.

Lemma blind_member (x : nested) (k : string) : blind T (member x k).
Proof. intros w. destruct x as [[]|]; reflexivity. Qed.

Lemma blind_req_json (req : Request.t) : blind T (req_json req).
Proof. intros w. unfold req_json. destruct (Request.json req); reflexivity. Qed.

Lemma blind_bot_of (webhook : Joined.t) : blind T (bot_of webhook).
Proof. intros w. unfold bot_of. destruct (Joined.bots webhook); reflexivity. Qed.

Lemma blind_properties (alertData : nested) : blind T (properties alertData).
Proof. intros w. destruct alertData as [[]|]; reflexivity. Qed.

Lemma blind_describe_failure {A} (e : error) : blind T (@describe_failure A e).
Proof.
  intros w. unfold describe_failure.
  destruct (response e) as [[status text]|]; [reflexivity|].
  destruct (request e); reflexivity.
Qed.

Hint Resolve blind_ret blind_throw blind_Date_now blind_axios blind_member
  blind_req_json blind_bot_of blind_properties blind_describe_failure : blind.

Ltac blindly :=
  repeat first
    [ apply blind_bind; [|intro]
    | apply blind_try_catch; [|intro]
    | apply blind_if
    | solve [auto with blind] ].

Lemma blind_legacy_result (p : OrderParams.t) (r : response_data) :
  blind T (legacy_result p r).
Proof. unfold legacy_result. blindly. Qed.

Hint Resolve blind_legacy_result : blind.

(** The four revisions of the client touch the clock and the exchange only. *)
Lemma blind_BybitV2a (p : OrderParams.t) : blind T (BybitV2a.executeBybitOrder p).
Proof.
  unfold BybitV2a.executeBybitOrder, BybitV2a.generateSignature. blindly.
Qed.

Lemma blind_BybitV2b (p : OrderParams.t) : blind T (BybitV2b.executeBybitOrder p).
Proof.
  unfold BybitV2b.executeBybitOrder, BybitV2b.generateSignature. blindly.
Qed.

Lemma blind_BybitV2c (p : OrderParams.t) : blind T (BybitV2c.executeBybitOrder p).
Proof. unfold BybitV2c.executeBybitOrder. blindly. Qed.

Lemma blind_BybitV5 (p : OrderParams.t) : blind T (BybitV5.executeBybitOrder p).
Proof.
  unfold BybitV5.executeBybitOrder, BybitV5.executeBybitOrderWith,
    BybitV5.getServerTimestamp.
  blindly.
Qed.

End Blind.

(** ** Computations and the requests they send *)

Lemma quiet_ret {A} (a : A) : quiet (ret a).
Proof. intros w. reflexivity. Qed.

Lemma quiet_throw {A} (e : error) : quiet (@throw A e).
Proof. intros w. reflexivity. Qed.

Lemma quiet_bind {A B} (m : M A) (k : A -> M B) :
  quiet m -> (forall a, quiet (k a)) -> quiet (bind m k).
Proof.
  intros Hm Hk w. unfold bind. specialize (Hm w).
  destruct (m w) as [[a|e] w']; simpl in *; [now rewrite Hk | exact Hm].
Qed.

Lemma quiet_Date_now : quiet Date_now.
Proof. intros w. reflexivity. Qed.

Lemma quiet_select_api_key (user_id : string) : quiet (select_api_key user_id).
Proof. intros w. reflexivity. Qed.

Lemma quiet_req_json (req : Request.t) : quiet (req_json req).
Proof. intros w. unfold req_json. destruct (Request.json req); reflexivity. Qed.

Lemma quiet_properties (alertData : nested) : quiet (properties alertData).
Proof. intros w. destruct alertData as [[]|]; reflexivity. Qed.

Section Emits.

Variable P : http_request -> Prop.

Lemma emits_ret {A} (a : A) : emits P (ret a).
Proof. intros w. exists []. split; [now rewrite app_nil_r | constructor]. Qed.

Lemma emits_throw {A} (e : error) : emits P (@throw A e).
Proof. intros w. exists []. split; [now rewrite app_nil_r | constructor]. Qed.

Lemma emits_Date_now : emits P Date_now.
Proof. intros w. exists []. split; [simpl; now rewrite app_nil_r | constructor]. Qed.

Lemma emits_member (x : nested) (k : string) : emits P (member x k).
Proof. destruct x as [[]|]; first [apply emits_ret | apply emits_throw]. Qed.

Lemma emits_bind {A B} (m : M A) (k : A -> M B) :
  emits P m -> (forall a, emits P (k a)) -> emits P (bind m k).
Proof.
  intros Hm Hk w. unfold bind. destruct (Hm w) as (l & Hl & HP).
  destruct (m w) as [[a|e] w']; simpl in *.
  - destruct (Hk a w') as (l' & Hl' & HP').
    exists (app l l'). split; [now rewrite Hl', Hl, app_assoc|].
    now apply Forall_app.
  - now exists l.
Qed.

Lemma emits_try_catch {A} (m : M A) (h : error -> M A) :
  emits P m -> (forall e, emits P (h e)) -> emits P (try_catch m h).
Proof.
  intros Hm Hh w. unfold try_catch. destruct (Hm w) as (l & Hl & HP).
  destruct (m w) as [[a|e] w']; simpl in *.
  - now exists l.
  - destruct (Hh e w') as (l' & Hl' & HP').
    exists (app l l'). split; [now rewrite Hl', Hl, app_assoc|].
    now apply Forall_app.
Qed.

Lemma emits_if {A} (b : bool) (m1 m2 : M A) :
  emits P m1 -> emits P m2 -> emits P (if b then m1 else m2).
Proof. destruct b; auto. Qed.

Lemma emits_axios (method url : string) (d : data) (hs : list (string * string)) :
  P {| http_method := method; http_url := url; http_data := d; http_headers := hs |} ->
  emits P (axios method url d hs).
Proof.
  intros H w. unfold axios.
  exists [{| http_method := method; http_url := url; http_data := d; http_headers := hs |}].
  split; [destruct (exchange w _); reflexivity | now repeat constructor].
Qed.

Lemma emits_describe_failure {A} (e : error) : emits P (@describe_failure A e).
Proof.
  unfold describe_failure. destruct (response e) as [[status text]|]; [apply emits_throw|].
  destruct (request e); apply emits_throw.
Qed.

Lemma emits_legacy_result (p : OrderParams.t) (d : response_data) :
  emits P (legacy_result p d).
Proof.
  unfold legacy_result. apply emits_if; [|apply emits_throw].
  apply emits_bind; [apply emits_member | intros v].
  apply emits_bind; [apply emits_member | intros v'; apply emits_ret].
Qed.

End Emits.

Lemma quiet_emits (P : http_request -> Prop) {A} (m : M A) : quiet m -> emits P m.
Proof.
  intros H w. exists []. split; [now rewrite H, app_nil_r | constructor].
Qed.

(** ** Running the handler *)

(** The handler before its [try] statement: the two checks, and the making
    of the client, which is where it can reject. *)
Lemma processAlert_cases (exec : OrderParams.t -> M OrderResult.t) (req : Request.t)
  (w : world) :
  processAlert exec req w
  = if (Request.method req =? "OPTIONS")%string then
      (Returned (Response.mk 204 corsHeaders None), w)
    else if negb (Request.method req =? "POST")%string then
      (Returned (json_response 405 [("error", VStr "Method not allowed")]), w)
    else if negb (deno w) then
      (Thrown (Error "Deno is not defined"), w)
    else if unset (env w "SUPABASE_URL") || unset (env w "SUPABASE_SERVICE_KEY") then
      (Returned (json_response 500 [("error", VStr "Server configuration error")]), w)
    else
      match client_error w (env w "SUPABASE_URL") (env w "SUPABASE_SERVICE_KEY") with
      | Some e => (Thrown e, w)
      | None =>
          try_catch (process exec req)
            (fun error => ret (json_response 500 [("error", VStr (message error))])) w
      end.
Proof.
  unfold processAlert.
  destruct (Request.method req =? "OPTIONS")%string; [reflexivity|].
  destruct (Request.method req =? "POST")%string; [|reflexivity]. cbn [negb].
  unfold bind at 1 2, Deno_env_get.
  destruct (deno w) eqn:Ed; [|reflexivity]. cbn [negb]. cbv beta iota. rewrite Ed.
  destruct (unset _ || unset _); [reflexivity|].
  unfold bind, createClient. now destruct (client_error w _ _).
Qed.

Lemma processAlert_post (exec : OrderParams.t -> M OrderResult.t) (req : Request.t)
  (w : world) :
  Request.method req = "POST" ->
  configured w = true ->
  processAlert exec req w
  = try_catch (process exec req)
      (fun error => ret (json_response 500 [("error", VStr (message error))])) w.
Proof.
  intros Hm Hc. rewrite processAlert_cases, Hm. simpl.
  unfold configured, usable in Hc. apply andb_prop in Hc. destruct Hc as [Hc H3].
  apply andb_prop in Hc. destruct Hc as [Hc H2].
  apply andb_prop in Hc. destruct Hc as [Hd H1].
  apply negb_true_iff in H1, H2. rewrite Hd, H1, H2. simpl.
  now destruct (client_error w _ _).
Qed.

Lemma find_webhook_tick (w : world) (token : string) (now : Z) :
  find_webhook (tick w) token now = find_webhook w token now.
Proof. reflexivity. Qed.

Lemma find_api_key_tick (w : world) (user_id : string) :
  find_api_key (tick w) user_id = find_api_key w user_id.
Proof. reflexivity. Qed.

Lemma process_not_found (exec : OrderParams.t -> M OrderResult.t) (req : Request.t)
  (w : world) :
  find_webhook w (webhookToken req) (clock w (reads w)) = None ->
  process exec req w = (Returned not_found, tick w).
Proof.
  intros H. unfold process, bind, Date_now, select_webhook.
  change (find_webhook (tick w)) with (find_webhook w). now rewrite H.
Qed.

(** Once the webhook and its bot are known. *)
Lemma process_after_webhook (exec : OrderParams.t -> M OrderResult.t) (req : Request.t)
  (w : world) (webhook : Joined.t) (bot : Bot.t) :
  find_webhook w (webhookToken req) (clock w (reads w)) = Some webhook ->
  Joined.bots webhook = Some bot ->
  process exec req w
  = (alertData <- req_json req ;;
     apiKey <- select_api_key (Joined.user_id webhook) ;;
     match apiKey with
     | None => ret (json_response 400 [("error", VStr "API credentials not found")])
     | Some apiKey =>
         alertData <- properties alertData ;;
         r <- orderResult exec bot (orderParams apiKey alertData bot) ;;
         persist webhook bot r
     end) (tick w).
Proof.
  intros Hw Hb. unfold process.
  unfold bind at 1 2, Date_now at 1, select_webhook.
  rewrite find_webhook_tick, Hw.
  apply bind_ext. intros alertData w1.
  unfold bot_of. rewrite Hb, bind_ret_l. reflexivity.
Qed.

Lemma properties_readable (body : nested) (o : obj) :
  readable body = Some o -> properties body = ret o.
Proof. destruct body as [[]|]; simpl; intros H; inversion H; reflexivity. Qed.

Lemma properties_unreadable (body : nested) :
  readable body = None -> exists e, properties body = throw e.
Proof. destruct body as [[]|]; simpl; intros H; inversion H; eauto. Qed.

(** With the webhook, its bot, the credentials and the payload in hand, the
    [try] block is the execution followed by the persistence. *)
Lemma process_resolved (exec : OrderParams.t -> M OrderResult.t) (req : Request.t)
  (w : world) (webhook : Joined.t) (bot : Bot.t) (apiKey : ApiKey.t) (alertData : obj)
  (body : nested) :
  find_webhook w (webhookToken req) (clock w (reads w)) = Some webhook ->
  Joined.bots webhook = Some bot ->
  Request.json req = Request.Parsed body ->
  readable body = Some alertData ->
  find_api_key w (Joined.user_id webhook) = Some apiKey ->
  process exec req w
  = bind (orderResult exec bot (orderParams apiKey alertData bot))
         (persist webhook bot) (tick w).
Proof.
  intros Hw Hb Hj Hr Hk.
  unfold process, bind at 1 2 3 4 5, Date_now at 1, select_webhook, req_json, bot_of,
    select_api_key.
  rewrite find_webhook_tick, Hw, Hj, Hb. cbn [ret].
  rewrite find_api_key_tick, Hk, (properties_readable body alertData Hr). reflexivity.
Qed.

Lemma persist_answer (webhook : Joined.t) (bot : Bot.t) (r : OrderResult.t) (w : world) :
  fst (persist webhook bot r w) = Returned (json_response 200 (success_body r bot)).
Proof.
  unfold persist, bind, Date_now, insert_trade, update_bot. simpl.
  destruct (store_fails w InsertTrade); simpl;
    destruct (store_fails w UpdateBot); reflexivity.
Qed.

Lemma persist_trades (webhook : Joined.t) (bot : Bot.t) (r : OrderResult.t) (w : world) :
  trades (snd (persist webhook bot r w))
  = if store_fails w InsertTrade then trades w
    else app (trades w) [trade_row webhook r (clock w (reads w))].
Proof.
  unfold persist, bind, Date_now, insert_trade, update_bot. simpl.
  destruct (store_fails w InsertTrade); simpl;
    destruct (store_fails w UpdateBot); reflexivity.
Qed.

Lemma persist_sent (webhook : Joined.t) (bot : Bot.t) (r : OrderResult.t) (w : world) :
  sent (snd (persist webhook bot r w)) = sent w.
Proof.
  unfold persist, bind, Date_now, insert_trade, update_bot. simpl.
  destruct (store_fails w InsertTrade); simpl;
    destruct (store_fails w UpdateBot); reflexivity.
Qed.

Lemma quiet_persist (webhook : Joined.t) (bot : Bot.t) (r : OrderResult.t) :
  quiet (persist webhook bot r).
Proof. intros w. apply persist_sent. Qed.

(** An execution that throws ends the request with status 500, and the
    persistence is not reached. *)
Lemma process_execution_fails (exec : OrderParams.t -> M OrderResult.t) (req : Request.t)
  (w w' : world) (webhook : Joined.t) (bot : Bot.t) (apiKey : ApiKey.t) (alertData : obj)
  (body : nested) (e : error) :
  Request.method req = "POST" ->
  configured w = true ->
  find_webhook w (webhookToken req) (clock w (reads w)) = Some webhook ->
  Joined.bots webhook = Some bot ->
  Request.json req = Request.Parsed body ->
  readable body = Some alertData ->
  find_api_key w (Joined.user_id webhook) = Some apiKey ->
  orderResult exec bot (orderParams apiKey alertData bot) (tick w) = (Thrown e, w') ->
  processAlert exec req w
  = (Returned (json_response 500 [("error", VStr (message e))]), w').
Proof.
  intros Hm Hc Hw Hb Hj Hr Hk He.
  rewrite processAlert_post by assumption. unfold try_catch.
  rewrite (process_resolved exec req w webhook bot apiKey alertData body) by assumption.
  unfold bind. rewrite He. reflexivity.
Qed.

(** An execution that returns is answered with status 200, whatever the
    store does with the trade row and the counters. *)
Lemma process_execution_returns (exec : OrderParams.t -> M OrderResult.t) (req : Request.t)
  (w w' : world) (webhook : Joined.t) (bot : Bot.t) (apiKey : ApiKey.t) (alertData : obj)
  (body : nested) (r : OrderResult.t) :
  Request.method req = "POST" ->
  configured w = true ->
  find_webhook w (webhookToken req) (clock w (reads w)) = Some webhook ->
  Joined.bots webhook = Some bot ->
  Request.json req = Request.Parsed body ->
  readable body = Some alertData ->
  find_api_key w (Joined.user_id webhook) = Some apiKey ->
  orderResult exec bot (orderParams apiKey alertData bot) (tick w) = (Returned r, w') ->
  processAlert exec req w = persist webhook bot r w'.
Proof.
  intros Hm Hc Hw Hb Hj Hr Hk He.
  rewrite processAlert_post by assumption. unfold try_catch.
  rewrite (process_resolved exec req w webhook bot apiKey alertData body) by assumption.
  unfold bind at 1. rewrite He.
  pose proof (persist_answer webhook bot r w') as Ha.
  destruct (persist webhook bot r w') as [[a|err] w'']; [reflexivity|discriminate Ha].
Qed.

Lemma BybitV2a_sends (p : OrderParams.t) (w : world) :
  BybitV2a.executeBybitOrder p w
  = let r := order_request p (clock w (reads w)) in
    let w' := record_sent r (tick w) in
    match exchange w r with
    | Resolved d =>
        try_catch (legacy_result p d)
          (fun error => throw (Error ("Failed to execute order: " ++ message error))) w'
    | Rejected e => (Thrown (Error ("Failed to execute order: " ++ message e)), w')
    end.
Proof.
  unfold BybitV2a.executeBybitOrder, BybitV2a.generateSignature, order_request.
  unfold bind at 1 2, Date_now, ret, try_catch, bind, axios. cbn [fst snd].
  change (exchange (tick w)) with (exchange w).
  destruct (exchange w _); reflexivity.
Qed.

Lemma legacy_result_vendor_error (p : OrderParams.t) (d : response_data) (w : world) :
  strict_eq (get (fields d) "ret_code") (VNum 0) = false ->
  legacy_result p d w
  = (Thrown (Error ("Bybit API error: " ++ ToString (get (fields d) "ret_msg"))), w).
Proof. intros H. unfold legacy_result. now rewrite H. Qed.

(** ** The venue that the handler passes on *)

Section KeyFlags.

Variable f : ApiKey.t -> value.

Lemma flag_blind_Date_now : blind (with_key_flags f) Date_now.
Proof. intros w. reflexivity. Qed.

Lemma flag_blind_axios (method url : string) (d : data) (hs : list (string * string)) :
  (blind (with_key_flags f)) (axios method url d hs).
Proof.
  intros w. unfold axios. simpl.
  destruct (exchange w _); reflexivity.
Qed.

Lemma flag_blind_createClient (u k : option string) :
  blind (with_key_flags f) (createClient u k).
Proof. intros w. unfold createClient. cbn [client_error with_key_flags].
  now destruct (client_error w u k). Qed.

Lemma flag_blind_Deno_env_get (name : string) : blind (with_key_flags f) (Deno_env_get name).
Proof.
  intros w. unfold Deno_env_get. cbn [deno with_key_flags]. now destruct (deno w).
Qed.

Lemma flag_blind_select_webhook (token : string) (now : Z) :
  (blind (with_key_flags f)) (select_webhook token now).
Proof. intros w. reflexivity. Qed.

Lemma flag_blind_insert_trade (row : Trade.t) : blind (with_key_flags f) (insert_trade row).
Proof.
  intros w. unfold insert_trade. simpl.
  destruct (store_fails w InsertTrade); reflexivity.
Qed.

Lemma flag_blind_update_bot (id : string) (now : Z) (count : value) :
  (blind (with_key_flags f)) (update_bot id now count).
Proof.
  intros w. unfold update_bot. simpl.
  destruct (store_fails w UpdateBot); reflexivity.
Qed.

Lemma single_map {A B} (g : A -> B) (l : list A) :
  single (map g l) = option_map g (single l).
Proof. destruct l as [|a [|b l]]; reflexivity. Qed.

Lemma filter_map_commute {A B} (g : A -> B) (p : B -> bool) (l : list A) :
  filter p (map g l) = map g (filter (fun a => p (g a)) l).
Proof.
  induction l as [|a l IH]; simpl; [reflexivity|].
  destruct (p (g a)); simpl; now rewrite IH.
Qed.

Lemma find_api_key_reflag (w : world) (user_id : string) :
  find_api_key (with_key_flags f w) user_id
  = option_map (reflag f) (find_api_key w user_id).
Proof.
  unfold find_api_key. simpl.
  destruct (store_fails w SelectApiKey); [reflexivity|].
  now rewrite filter_map_commute, single_map.
Qed.

(** The credential row is read for its key and secret only. *)
Lemma flag_blind_bind_api_key {B} (user_id : string) (k : option ApiKey.t -> M B) :
  (forall a, (blind (with_key_flags f)) (k a)) ->
  (forall a, k (option_map (reflag f) a) = k a) ->
  (blind (with_key_flags f)) (bind (select_api_key user_id) k).
Proof.
  intros Hk Hsame w. unfold bind, select_api_key.
  rewrite find_api_key_reflag, Hsame. apply Hk.
Qed.

Hint Resolve blind_ret blind_throw blind_member blind_req_json blind_bot_of
  blind_properties flag_blind_Date_now flag_blind_axios flag_blind_Deno_env_get
  flag_blind_select_webhook flag_blind_insert_trade flag_blind_update_bot : blind.

Ltac blindly :=
  repeat first
    [ apply blind_bind; [|intro]
    | apply blind_try_catch; [|intro]
    | apply blind_if
    | solve [auto with blind] ].

Lemma flag_blind_process (exec : OrderParams.t -> M OrderResult.t) (req : Request.t) :
  (forall p, (blind (with_key_flags f)) (exec p)) -> (blind (with_key_flags f)) (process exec req).
Proof.
  intros Hexec. unfold process.
  apply blind_bind; [auto with blind|]. intros now.
  apply blind_bind; [auto with blind|]. intros [webhook|]; [|auto with blind].
  apply blind_bind; [auto with blind|]. intros alertData.
  apply blind_bind; [auto with blind|]. intros bot.
  apply flag_blind_bind_api_key.
  - intros [k|]; [|auto with blind].
    unfold orderResult. blindly.
  - intros [k|]; reflexivity.
Qed.

Lemma flag_blind_processAlert (exec : OrderParams.t -> M OrderResult.t) (req : Request.t) :
  (forall p, (blind (with_key_flags f)) (exec p)) -> (blind (with_key_flags f)) (processAlert exec req).
Proof.
  intros Hexec. unfold processAlert.
  apply blind_if; [auto with blind|].
  apply blind_if; [auto with blind|].
  apply blind_bind; [auto with blind|]. intros u.
  apply blind_bind; [auto with blind|]. intros k.
  apply blind_if; [auto with blind|].
  apply blind_bind; [apply flag_blind_createClient|]. intros supabase.
  apply blind_try_catch; [|auto with blind].
  now apply flag_blind_process.
Qed.

Lemma flag_blind_handler (req : Request.t) : blind (with_key_flags f) (handler req).
Proof.
  apply flag_blind_processAlert. intros p.
  apply blind_BybitV2a; [apply flag_blind_Date_now | apply flag_blind_axios].
Qed.

End KeyFlags.

Lemma baseUrl_testnet (v : value) :
  BybitV2a.baseUrl v = BybitV2a.TESTNET_URL <-> truthy v = true.
Proof.
  unfold BybitV2a.baseUrl.
  assert (E : truthy (default_param v (VBool false)) = truthy v)
    by (destruct v; reflexivity).
  rewrite E. destruct (truthy v); split; intros H; try reflexivity; discriminate H.
Qed.

Lemma BybitV2a_venue (p : OrderParams.t) :
  emits (goes_to_venue (OrderParams.testnet p)) (BybitV2a.executeBybitOrder p).
Proof.
  unfold BybitV2a.executeBybitOrder, BybitV2a.generateSignature.
  apply emits_bind; [|intros signed].
  - apply emits_bind; [apply emits_Date_now | intros now; apply emits_ret].
  - apply emits_try_catch; [|intros e; apply emits_throw].
    apply emits_bind; [|intros d; apply emits_legacy_result].
    apply emits_axios. reflexivity.
Qed.

(** Whatever the handler sends for a resolved bot goes to the host that the
    bot's [test_mode] selects. *)
Lemma handler_venue (req : Request.t) (w : world) (webhook : Joined.t) (bot : Bot.t) :
  Request.method req = "POST" ->
  configured w = true ->
  find_webhook w (webhookToken req) (clock w (reads w)) = Some webhook ->
  Joined.bots webhook = Some bot ->
  exists l,
    sent (snd (handler req w)) = app (sent w) l
    /\ Forall (goes_to_venue (Bot.test_mode bot)) l.
Proof.
  intros Hm Hc Hw Hb. unfold handler.
  rewrite processAlert_post by assumption. unfold try_catch.
  rewrite (process_after_webhook _ req w webhook bot Hw Hb).
  match goal with
  | |- context [?K (tick w)] =>
      assert (HK : emits (goes_to_venue (Bot.test_mode bot)) K)
  end.
  { apply emits_bind; [apply quiet_emits, quiet_req_json | intros alertData].
    apply emits_bind; [apply quiet_emits, quiet_select_api_key | intros [apiKey|]];
      [|apply emits_ret].
    apply emits_bind; [apply quiet_emits, quiet_properties | intros o].
    apply emits_bind; [|intros r; apply quiet_emits, quiet_persist].
    unfold orderResult. apply emits_if.
    - apply emits_bind; [apply emits_Date_now | intros now; apply emits_ret].
    - apply (BybitV2a_venue (orderParams apiKey o bot)). }
  destruct (HK (tick w)) as (l & Hl & HP). exists l. split; [|exact HP].
  match goal with
  | |- context [?K (tick w)] => destruct (K (tick w)) as [[a|e] w']
  end; exact Hl.
Qed.

(** ** Test mode (C2) *)

Lemma orderResult_test_mode (exec : OrderParams.t -> M OrderResult.t) (bot : Bot.t)
  (p : OrderParams.t) (w : world) :
  truthy (Bot.test_mode bot) = true ->
  orderResult exec bot p w = (Returned (test_order p (clock w (reads w))), tick w).
Proof. intros H. unfold orderResult. now rewrite H. Qed.

(** In test mode the [try] block does not depend on the client, and sends
    nothing. *)
Lemma process_test_mode (exec exec' : OrderParams.t -> M OrderResult.t) (req : Request.t)
  (w : world) (webhook : Joined.t) (bot : Bot.t) :
  find_webhook w (webhookToken req) (clock w (reads w)) = Some webhook ->
  Joined.bots webhook = Some bot ->
  truthy (Bot.test_mode bot) = true ->
  process exec req w = process exec' req w
  /\ sent (snd (process exec req w)) = sent w.
Proof.
  intros Hw Hb Ht.
  rewrite !(process_after_webhook _ req w webhook bot Hw Hb). split.
  - apply bind_ext. intros alertData w1.
    apply bind_ext. intros [apiKey|] w2; [|reflexivity].
    apply bind_ext. intros o w3.
    unfold bind. now rewrite !orderResult_test_mode by exact Ht.
  - change (sent w) with (sent (tick w)). revert w Hw.
    intros w _. generalize (tick w). clear w.
    apply quiet_bind; [apply quiet_req_json|]. intros alertData.
    apply quiet_bind; [apply quiet_select_api_key|]. intros [apiKey|];
      [|apply quiet_ret].
    apply quiet_bind; [apply quiet_properties|]. intros o.
    apply quiet_bind; [|intros r; apply quiet_persist].
    intros w. now rewrite orderResult_test_mode.
Qed.

(** C2, as amended: when the resolved bot is in test mode the client is
    never invoked, whatever else happens: the handler runs alike with every
    client, and no request leaves.  When moreover the owner's credential row
    is found and the body is JSON other than null, the order result is simulated
    (an id that starts with "test-", the status TEST_ORDER), the caller is
    answered 200, and the insert of the trade row with that id and status is
    issued; the row is in the store unless the store fails on the insert. *)
Theorem test_mode_simulates (exec : OrderParams.t -> M OrderResult.t) (req : Request.t)
  (w : world) (webhook : Joined.t) (bot : Bot.t) :
  Request.method req = "POST" ->
  configured w = true ->
  find_webhook w (webhookToken req) (clock w (reads w)) = Some webhook ->
  Joined.bots webhook = Some bot ->
  truthy (Bot.test_mode bot) = true ->
  (forall exec', processAlert exec' req w = processAlert exec req w)
  /\ sent (snd (processAlert exec req w)) = sent w
  /\ forall apiKey alertData body,
       Request.json req = Request.Parsed body ->
  readable body = Some alertData ->
       find_api_key w (Joined.user_id webhook) = Some apiKey ->
       let r := test_order (orderParams apiKey alertData bot) (clock w (S (reads w))) in
       let row := trade_row webhook r (clock w (S (S (reads w)))) in
       OrderResult.orderId r = VStr ("test-" ++ IntegerToString (clock w (S (reads w))))
       /\ OrderResult.status r = VStr "TEST_ORDER"
       /\ Trade.order_id row = OrderResult.orderId r
       /\ Trade.status row = VStr "TEST_ORDER"
       /\ fst (processAlert exec req w)
          = Returned (json_response 200 (success_body r bot))
       /\ trades (snd (processAlert exec req w))
          = if store_fails w InsertTrade then trades w else app (trades w) [row].
Proof.
  intros Hm Hc Hw Hb Ht. split; [|split].
  - intros exec'. rewrite !processAlert_post by assumption. unfold try_catch.
    destruct (process_test_mode exec' exec req w webhook bot Hw Hb Ht) as [-> _].
    reflexivity.
  - rewrite processAlert_post by assumption. unfold try_catch.
    destruct (process_test_mode exec exec req w webhook bot Hw Hb Ht) as [_ Hs].
    destruct (process exec req w) as [[a|e] w']; exact Hs.
  - intros apiKey alertData body Hj Hr Hk r row.
    repeat (split; [reflexivity|]).
    rewrite (process_execution_returns exec req w (tick (tick w)) webhook bot apiKey
               alertData body r); try assumption.
    + split; [apply persist_answer|]. now rewrite persist_trades.
    + now rewrite orderResult_test_mode.
Qed.

Lemma test_mode_simulates_witness :
  let w := Sample.world_with Sample.test_bot [Sample.apiKey] Sample.rejecting Sample.healthy in
  let req := Sample.post Sample.alert_url [("quantity", VNum (1 # 1000))] in
  sent (snd (handler req w)) = []
  /\ fst (handler req w)
     = Returned (json_response 200
                   [ ("success", VBool true); ("orderId", VStr "test-1700000000001");
                     ("status", VStr "TEST_ORDER"); ("testMode", VBool true) ])
  /\ exists row,
       trades (snd (handler req w)) = [row]
       /\ Trade.order_id row = VStr "test-1700000000001"
       /\ Trade.status row = VStr "TEST_ORDER"
       /\ Trade.quantity row = VNum (1 # 1000).
Proof.
  cbv zeta.
  destruct (test_mode_simulates BybitV2a.executeBybitOrder
              (Sample.post Sample.alert_url [("quantity", VNum (1 # 1000))])
              (Sample.world_with Sample.test_bot [Sample.apiKey] Sample.rejecting
                 Sample.healthy)
              (Joined.mk Sample.webhook (Some Sample.test_bot)) Sample.test_bot)
    as (_ & Hsent & Hrun); try reflexivity.
  split; [exact Hsent|].
  destruct (Hrun Sample.apiKey [("quantity", VNum (1 # 1000))]
              (Object [("quantity", VNum (1 # 1000))]) eq_refl eq_refl eq_refl)
    as (_ & _ & _ & _ & Hanswer & Htrades).
  split; [exact Hanswer|].
  eexists. split; [exact Htrades|]. repeat split.
Defined.

(** C2, the claim as stated fails: a bot in test mode whose owner has no
    credential row.  The webhook resolves, the bot is in test mode, and the
    handler answers 400: nothing is simulated and no trade row is written. *)
Lemma test_mode_without_credentials :
  let w := Sample.world_with Sample.test_bot [] Sample.accepting Sample.healthy in
  let req := Sample.post Sample.alert_url [] in
  find_webhook w (webhookToken req) (clock w (reads w))
  = Some (Joined.mk Sample.webhook (Some Sample.test_bot))
  /\ truthy (Bot.test_mode Sample.test_bot) = true
  /\ fst (handler req w)
     = Returned (json_response 400 [("error", VStr "API credentials not found")])
  /\ trades (snd (handler req w)) = [].
Proof. cbv zeta. repeat split. Qed.

(** ** Execution failure (C3) *)

Lemma not_extended {A} (l : list A) (x : A) : l <> app l [x].
Proof.
  intros H. apply (f_equal (@List.length A)) in H.
  rewrite length_app in H. simpl in H. lia.
Qed.

Lemma legacy_result_world (p : OrderParams.t) (d : response_data) (w : world) :
  snd (legacy_result p d w) = w.
Proof.
  unfold legacy_result. destruct (strict_eq _ _); [|reflexivity].
  unfold bind. destruct (result d) as [[]|]; reflexivity.
Qed.

(** The client sends one request, whatever the answer. *)
Lemma BybitV2a_sends_once (p : OrderParams.t) (w : world) :
  sent (snd (BybitV2a.executeBybitOrder p w))
  = app (sent w) [order_request p (clock w (reads w))].
Proof.
  rewrite BybitV2a_sends. cbv zeta.
  destruct (exchange w _) as [d|e]; [|reflexivity].
  unfold try_catch.
  pose proof (legacy_result_world p d
                (record_sent (order_request p (clock w (reads w))) (tick w))) as H.
  destruct (legacy_result p d _) as [[a|e] w']; simpl in *; now subst.
Qed.

(** What the handler has sent when it returns, for a resolved bot. *)
Lemma handler_sent (req : Request.t) (w : world) (webhook : Joined.t) (bot : Bot.t) :
  Request.method req = "POST" ->
  configured w = true ->
  find_webhook w (webhookToken req) (clock w (reads w)) = Some webhook ->
  Joined.bots webhook = Some bot ->
  sent (snd (handler req w))
  = match Request.json req with
    | Request.Malformed _ => sent w
    | Request.Parsed body =>
        match find_api_key w (Joined.user_id webhook), readable body with
        | Some apiKey, Some alertData =>
            if truthy (Bot.test_mode bot) then sent w
            else app (sent w)
                   [order_request (orderParams apiKey alertData bot) (clock w (S (reads w)))]
        | _, _ => sent w
        end
    end.
Proof.
  intros Hm Hc Hw Hb. unfold handler.
  rewrite processAlert_post by assumption. unfold try_catch.
  rewrite (process_after_webhook _ req w webhook bot Hw Hb).
  unfold bind at 1, req_json.
  destruct (Request.json req) as [e|body]; [reflexivity|].
  cbn [ret]. unfold bind at 1, select_api_key. rewrite find_api_key_tick.
  destruct (find_api_key w (Joined.user_id webhook)) as [apiKey|]; [|reflexivity].
  destruct (readable body) as [alertData|] eqn:Hr.
  - rewrite (properties_readable body alertData Hr), bind_ret_l.
    unfold bind at 1, orderResult.
    destruct (truthy (Bot.test_mode bot)).
    + unfold bind at 1, Date_now at 1. cbn [ret].
      pose proof (persist_sent webhook bot
                    (test_order (orderParams apiKey alertData bot) (clock (tick w) (reads (tick w))))
                    (tick (tick w))) as H.
      destruct (persist _ _ _ _) as [[a|e] w']; exact H.
    + pose proof (BybitV2a_sends_once (orderParams apiKey alertData bot) (tick w)) as H.
      destruct (BybitV2a.executeBybitOrder _ _) as [[r|e] w1]; [|exact H].
      pose proof (persist_sent webhook bot r w1) as H'.
      destruct (persist _ _ _ _) as [[a|e] w']; simpl in *; now rewrite H'.
  - destruct (properties_unreadable body Hr) as (e & ->). reflexivity.
Qed.

Lemma vendor_error_after_resolution (req : Request.t) (w : world)
  (webhook : Joined.t) (bot : Bot.t) (apiKey : ApiKey.t) (alertData : obj)
  (body : nested) (d : response_data) :
  Request.method req = "POST" ->
  configured w = true ->
  find_webhook w (webhookToken req) (clock w (reads w)) = Some webhook ->
  Joined.bots webhook = Some bot ->
  Request.json req = Request.Parsed body ->
  readable body = Some alertData ->
  find_api_key w (Joined.user_id webhook) = Some apiKey ->
  truthy (Bot.test_mode bot) = false ->
  exchange w (order_request (orderParams apiKey alertData bot) (clock w (S (reads w))))
  = Resolved d ->
  strict_eq (get (fields d) "ret_code") (VNum 0) = false ->
  handler req w
  = (Returned (json_response 500
                 [("error", VStr ("Failed to execute order: Bybit API error: "
                                  ++ ToString (get (fields d) "ret_msg")))]),
     record_sent
       (order_request (orderParams apiKey alertData bot) (clock w (S (reads w))))
       (tick (tick w))).
Proof.
  intros Hm Hc Hw Hb Hj Hr Hk Ht Hx Hcode.
  unfold handler.
  apply (process_execution_fails _ req w _ webhook bot apiKey alertData body
           (Error ("Failed to execute order: Bybit API error: "
                   ++ ToString (get (fields d) "ret_msg"))));
    try assumption.
  unfold orderResult. rewrite Ht, BybitV2a_sends. cbv zeta.
  change (clock (tick w) (reads (tick w))) with (clock w (S (reads w))).
  change (exchange (tick w)) with (exchange w).
  rewrite Hx. unfold try_catch.
  rewrite legacy_result_vendor_error by exact Hcode. reflexivity.
Qed.

(** C3: for an alert with a valid token (the webhook resolves to a bot) and
    a bot out of test mode, when the exchange is asked and answers with a
    vendor code other than 0, the handler answers 500 (with the vendor's
    message in the error text) and the store is left as it was: no trade
    row, no counter update. *)
Theorem vendor_error_is_500 (req : Request.t) (w : world)
  (webhook : Joined.t) (bot : Bot.t) (r : http_request) (d : response_data) :
  Request.method req = "POST" ->
  configured w = true ->
  find_webhook w (webhookToken req) (clock w (reads w)) = Some webhook ->
  Joined.bots webhook = Some bot ->
  truthy (Bot.test_mode bot) = false ->
  sent (snd (handler req w)) = app (sent w) [r] ->
  exchange w r = Resolved d ->
  strict_eq (get (fields d) "ret_code") (VNum 0) = false ->
  fst (handler req w)
  = Returned
      {| Response.status := 500;
         Response.headers := corsHeaders ++ [("Content-Type", "application/json")];
         Response.body :=
           Some [ ("error",
                   VStr ("Failed to execute order: Bybit API error: "
                         ++ ToString (get (fields d) "ret_msg"))) ] |}
  /\ trades (snd (handler req w)) = trades w
  /\ bots (snd (handler req w)) = bots w.
Proof.
  intros Hm Hc Hw Hb Ht Hsent Hx Hcode.
  rewrite (handler_sent req w webhook bot Hm Hc Hw Hb), Ht in Hsent.
  destruct (Request.json req) as [e|body] eqn:Hj;
    [now apply not_extended in Hsent|].
  destruct (find_api_key w (Joined.user_id webhook)) as [apiKey|] eqn:Hk;
    [|now apply not_extended in Hsent].
  destruct (readable body) as [alertData|] eqn:Hr;
    [|now apply not_extended in Hsent].
  apply app_inv_head in Hsent. injection Hsent as <-.
  rewrite (vendor_error_after_resolution req w webhook bot apiKey alertData body d)
    by assumption.
  repeat split.
Qed.

Lemma vendor_error_is_500_witness :
  let w := Sample.world_with Sample.bot [Sample.apiKey] Sample.rejecting Sample.healthy in
  let req := Sample.post Sample.alert_url [("side", VStr "Sell")] in
  fst (handler req w)
  = Returned (json_response 500
                [("error", VStr "Failed to execute order: Bybit API error: params error")])
  /\ trades (snd (handler req w)) = []
  /\ bots (snd (handler req w)) = [Sample.bot].
Proof.
  cbv zeta.
  apply (vendor_error_is_500
           (Sample.post Sample.alert_url [("side", VStr "Sell")])
           (Sample.world_with Sample.bot [Sample.apiKey] Sample.rejecting Sample.healthy)
           (Joined.mk Sample.webhook (Some Sample.bot)) Sample.bot
           (order_request (orderParams Sample.apiKey [("side", VStr "Sell")] Sample.bot)
              1700000000001)
           {| fields := [("ret_code", VNum 10001); ("ret_msg", VStr "params error")];
              result := Prim VNull |});
    reflexivity.
Defined.

(** ** Resolving the webhook (C4) *)

Lemma no_live_row (rows : list Webhook.t) (token : string) (now : Z) :
  forallb (fun r => negb (Webhook.webhook_token r =? token)%string
                    || (Webhook.expires_at r <=? now)%Z) rows = true ->
  filter (fun r => (Webhook.webhook_token r =? token)%string
                   && (now <? Webhook.expires_at r)%Z) rows = [].
Proof.
  induction rows as [|r rows IH]; simpl; [reflexivity|].
  intros H. apply andb_prop in H. destruct H as [Hr Hrows].
  rewrite (IH Hrows).
  destruct (Webhook.webhook_token r =? token)%string; simpl in *; [|reflexivity].
  apply Z.leb_le in Hr. apply Z.ltb_ge in Hr. now rewrite Hr.
Qed.

Lemma find_webhook_miss (w : world) (token : string) (now : Z) :
  is_absent w token = true \/ is_expired w token now = true ->
  find_webhook w token now = None.
Proof.
  intros H. unfold find_webhook.
  destruct (store_fails w SelectWebhook); [reflexivity|].
  rewrite no_live_row; [reflexivity|].
  destruct H as [H|H].
  - unfold is_absent in H. rewrite forallb_forall in *.
    intros r Hr. now rewrite (H r Hr).
  - unfold is_expired in H. apply andb_prop in H. apply H.
Qed.

(** C4: a token that no row has and a token whose rows have all expired get
    the same answer, status 404 with the one error body, whatever the two
    requests, stores and clients are otherwise. *)
Theorem miss_is_opaque (exec1 exec2 : OrderParams.t -> M OrderResult.t)
  (req1 req2 : Request.t) (w1 w2 : world) :
  Request.method req1 = "POST" -> Request.method req2 = "POST" ->
  configured w1 = true -> configured w2 = true ->
  is_absent w1 (webhookToken req1) = true ->
  is_expired w2 (webhookToken req2) (clock w2 (reads w2)) = true ->
  fst (processAlert exec1 req1 w1) = Returned not_found
  /\ fst (processAlert exec2 req2 w2) = Returned not_found
  /\ Response.status not_found = 404
  /\ Response.body not_found = Some [("error", VStr "Invalid or expired webhook")].
Proof.
  intros Hm1 Hm2 Hc1 Hc2 Ha He.
  rewrite !processAlert_post by assumption. unfold try_catch.
  rewrite !process_not_found by (apply find_webhook_miss; auto).
  repeat split.
Qed.

Lemma miss_is_opaque_witness :
  let absent := Sample.post "https://relay.example/.netlify/functions/processAlert/unknown" [] in
  let expired := Sample.post Sample.alert_url [] in
  let w := Sample.world_with Sample.bot [Sample.apiKey] Sample.accepting Sample.healthy in
  fst (handler absent w) = Returned not_found
  /\ fst (handler expired (Sample.later w)) = Returned not_found
  /\ Response.status not_found = 404
  /\ Response.body not_found = Some [("error", VStr "Invalid or expired webhook")].
Proof.
  cbv zeta. apply miss_is_opaque; reflexivity.
Defined.

(** ** The legacy signers (C5, C6) *)

Lemma fold_pairs (params : obj) (l : list string) (a : string) :
  fold_left (fun a b => a ++ b ++ "=" ++ ToString (get params b) ++ "&") l (a ++ "&")
  = join "&" (a :: map (pair_of params) l) ++ "&".
Proof.
  revert a. induction l as [|b l IH]; intros a.
  - simpl. reflexivity.
  - cbn [fold_left map].
    replace ((a ++ "&") ++ b ++ "=" ++ ToString (get params b) ++ "&")
      with ((a ++ "&" ++ pair_of params b) ++ "&")
      by (unfold pair_of; now rewrite !append_assoc).
    rewrite IH. now rewrite join_merge.
Qed.

(** What [netlify/utils/bybit.js] signs: the timestamp pair first, then the
    pairs of the sorted keys. *)
Lemma BybitV2a_signed_string (params : obj) (timestamp : string) :
  BybitV2a.signed_string params timestamp
  = join "&" (("timestamp=" ++ timestamp) :: map (pair_of params) (sort (keys params))).
Proof.
  unfold BybitV2a.signed_string, BybitV2a.queryString.
  replace ("timestamp=" ++ timestamp ++ "&") with (("timestamp=" ++ timestamp) ++ "&")
    by now rewrite append_assoc.
  rewrite fold_pairs. apply drop_last_append.
Qed.

(** What the form-encoded revisions sign: the pairs of all keys of [params],
    the timestamp among them, in ascending order of the keys. *)
Lemma BybitV2c_signs_sorted (apiSecret : string) (params : obj) :
  BybitV2c.generateSignature apiSecret params
  = Crypto.hmac_sha256 apiSecret (join "&" (map (pair_of params) (sort (keys params))))
  /\ ascending (sort (keys params))
  /\ Permutation (sort (keys params)) (keys params).
Proof.
  split; [reflexivity|]. split; [apply sort_ascending | apply sort_perm].
Qed.

Lemma BybitV2c_signs_timestamp (p : OrderParams.t) (timestamp : value) :
  In "timestamp" (sort (keys (set (legacy_params p) "timestamp" timestamp))).
Proof.
  eapply Permutation_in; [symmetry; apply sort_perm | apply in_keys_set].
Qed.

(** The signed string of the form-encoded revisions tells any change of one
    value: with the same keys, two values with different string images give
    different strings to sign. *)
Lemma join_differs (g g' : string -> string) (k : string) (ks : list string) :
  NoDup ks -> In k ks ->
  (forall key, key <> k -> g key = g' key) ->
  join "&" (map g ks) = join "&" (map g' ks) ->
  g k = g' k.
Proof.
  intros Hnd Hin Hsame. induction ks as [|x rest IH]; [contradiction|].
  inversion Hnd as [|? ? Hx Hrest]; subst.
  cbn [map]. rewrite !join_cons. intros H.
  destruct (String.eqb_spec x k) as [->|Hxk].
  - assert (E : map g rest = map g' rest).
    { apply map_ext_in. intros key Hkey. apply Hsame. intros ->. contradiction. }
    rewrite E in H. now apply append_inv_tail in H.
  - destruct Hin as [Hin|Hin]; [contradiction|].
    rewrite (Hsame x Hxk) in H. apply append_inv_head in H.
    destruct rest as [|y rest]; [contradiction|].
    cbn [map] in H. apply append_inv_head in H.
    now apply IH.
Qed.

Lemma BybitV2c_string_tells_values (params : obj) (k : string) (v v' : value) :
  NoDup (keys params) -> In k (keys params) ->
  ToString v <> ToString v' ->
  BybitV2c.queryString (set params k v) <> BybitV2c.queryString (set params k v').
Proof.
  intros Hnd Hin Hv H. unfold BybitV2c.queryString in H.
  rewrite !keys_set_present in H by exact Hin.
  apply (join_differs _ _ k) in H.
  - unfold pair_of in H. rewrite !get_set_same in H.
    now do 2 apply append_inv_head in H.
  - eapply Permutation_NoDup; [symmetry; apply sort_perm | exact Hnd].
  - eapply Permutation_in; [symmetry; apply sort_perm | exact Hin].
  - intros key Hkey. unfold pair_of. rewrite !get_set_other by congruence. reflexivity.
Qed.

(** The restamping signer signs the clock's reading in place of the
    timestamp of [params], whatever that timestamp is. *)
Lemma BybitV2b_ignores_timestamp (apiSecret : string) (params : obj) (t t' : value)
  (w : world) :
  BybitV2b.generateSignature apiSecret (set params "timestamp" t) w
  = BybitV2b.generateSignature apiSecret (set params "timestamp" t') w.
Proof.
  unfold BybitV2b.generateSignature, bind, Date_now. now rewrite !set_set.
Qed.

(** C5, at the failing input: in the restamping revision two parameter maps
    that differ in the value of [timestamp] get the same signature, and the
    same secret and parameters get another signature at the next reading of
    the clock; the signer of [netlify/utils/bybit.js] reads the clock too;
    the last revision tells the two maps apart.  When the clock moves between
    the two readings of the restamping client, the order goes out with one
    timestamp and the signature of another. *)
Lemma restamping_signer_misses_tampering :
  let w := Sample.world_with Sample.bot [Sample.apiKey] Sample.accepting Sample.healthy in
  let params t := set (legacy_params Sample.market_order) "timestamp" (VStr t) in
  get Sample.stamped "timestamp" <> get Sample.restamped "timestamp"
  /\ fst (BybitV2b.generateSignature "s" Sample.stamped w)
     = fst (BybitV2b.generateSignature "s" Sample.restamped w)
  /\ fst (BybitV2b.generateSignature "s" Sample.stamped w)
     <> fst (BybitV2b.generateSignature "s" Sample.stamped (tick w))
  /\ fst (BybitV2a.generateSignature "s" Sample.stamped w)
     <> fst (BybitV2a.generateSignature "s" Sample.stamped (tick w))
  /\ BybitV2c.generateSignature "s" Sample.stamped
     <> BybitV2c.generateSignature "s" Sample.restamped
  /\ map http_data (sent (snd (BybitV2b.executeBybitOrder Sample.market_order w)))
     = [TextData
          (URLSearchParams_toString
             (set (params "1700000000000") "sign"
                (VStr (BybitV2c.generateSignature "s" (params "1700000000001")))))]
  /\ BybitV2c.generateSignature "s" (params "1700000000001")
     <> BybitV2c.generateSignature "s" (params "1700000000000").
Proof.
  cbv zeta. split; [discriminate|]. split.
  - change Sample.stamped
      with (set Sample.stamped "timestamp" (VStr "1700000000000")).
    change Sample.restamped
      with (set Sample.stamped "timestamp" (VStr "1700000000999")).
    now rewrite (BybitV2b_ignores_timestamp "s" Sample.stamped
                   (VStr "1700000000000") (VStr "1700000000999")).
  - split; [vm_compute; intros H; discriminate H|].
    split; [vm_compute; intros H; discriminate H|].
    split; [vm_compute; intros H; discriminate H|].
    split; [vm_compute; reflexivity|].
    vm_compute; intros H; discriminate H.
Qed.

(** C6, at the failing input: the signer of [netlify/utils/bybit.js] signs a
    market order with the timestamp pair in front of [api_key], out of the
    ascending order of the keys, and that is the string whose HMAC goes out
    as [sign]; the last form-encoded revision signs the same parameters with
    the timestamp pair in its place. *)
Lemma signer_prepends_timestamp :
  let params := legacy_params Sample.market_order in
  let w := Sample.world_with Sample.bot [Sample.apiKey] Sample.accepting Sample.healthy in
  BybitV2a.signed_string params "1700000000000"
  = "timestamp=1700000000000&api_key=k&order_type=Market&qty=100&side=Buy&symbol=BTCUSD&time_in_force=GoodTillCancel"
  /\ String.leb "timestamp" "api_key" = false
  /\ ~ ascending ("timestamp" :: sort (keys params))
  /\ fst (BybitV2a.generateSignature "s" params w)
     = Returned ("1700000000000",
                 Crypto.hmac_sha256 "s" (BybitV2a.signed_string params "1700000000000"))
  /\ BybitV2c.queryString (set params "timestamp" (VStr "1700000000000"))
     = "api_key=k&order_type=Market&qty=100&side=Buy&symbol=BTCUSD&time_in_force=GoodTillCancel&timestamp=1700000000000".
Proof.
  cbv zeta. split; [reflexivity|]. split; [reflexivity|]. split; [|split; reflexivity].
  intros H. inversion H as [|x l _ Hall]; subst.
  inversion Hall as [|y l' Hy _]; subst. discriminate Hy.
Qed.

(** ** Assembling the order parameters (C7) *)

(** C7, as amended: each of symbol, side, orderType, quantity, stopLoss and
    takeProfit is the payload's value when that value is truthy, and the
    bot's default otherwise (so also for a payload value that is 0, the empty
    string or false); the price is the payload's property, undefined when the
    payload has none, whatever the credential and the bot. *)
Theorem orderParams_precedence (apiKey : ApiKey.t) (alertData : obj) (bot : Bot.t) :
  let p := orderParams apiKey alertData bot in
  let pick k d := if truthy (get alertData k) then get alertData k else d in
  OrderParams.symbol p = pick "symbol" (Bot.symbol bot)
  /\ OrderParams.side p = pick "side" (Bot.default_side bot)
  /\ OrderParams.orderType p = pick "orderType" (Bot.default_order_type bot)
  /\ OrderParams.quantity p = pick "quantity" (Bot.default_quantity bot)
  /\ OrderParams.stopLoss p = pick "stopLoss" (Bot.default_stop_loss bot)
  /\ OrderParams.takeProfit p = pick "takeProfit" (Bot.default_take_profit bot)
  /\ OrderParams.price p
     = (if has alertData "price" then get alertData "price" else VUndefined)
  /\ (forall apiKey' bot',
        OrderParams.price (orderParams apiKey' alertData bot') = OrderParams.price p).
Proof.
  cbv zeta. unfold orderParams, logical_or; simpl.
  repeat split; try reflexivity.
  destruct (has alertData "price") eqn:E; [reflexivity|].
  now apply get_absent.
Qed.

(** Where the payload's fields are nullish or truthy, the code and the
    specification's wording agree. *)
Lemma orderParams_as_specified (apiKey : ApiKey.t) (alertData : obj) (bot : Bot.t) :
  (forall k, nullish (get alertData k) = true \/ truthy (get alertData k) = true) ->
  orderParams apiKey alertData bot = Specified.orderParams apiKey alertData bot.
Proof.
  intros H. unfold orderParams, Specified.orderParams, logical_or, coalesce.
  assert (E : forall k d,
             (if truthy (get alertData k) then get alertData k else d)
             = (if nullish (get alertData k) then d else get alertData k)).
  { intros k d. destruct (H k) as [Hn|Ht].
    - rewrite Hn. destruct (get alertData k); simpl in *; try discriminate; reflexivity.
    - rewrite Ht. destruct (get alertData k); simpl in *; try discriminate; reflexivity. }
  now rewrite !E.
Qed.

(** C7, the claim as stated fails: a stop loss of 0 in the payload is present
    and not null, and the assembled stop loss is the bot's default. *)
Lemma orderParams_zero_stop_loss :
  let p := orderParams Sample.apiKey Sample.alert_zero_stop Sample.bot in
  has Sample.alert_zero_stop "stopLoss" = true
  /\ nullish (get Sample.alert_zero_stop "stopLoss") = false
  /\ OrderParams.stopLoss p = Bot.default_stop_loss Sample.bot
  /\ OrderParams.stopLoss p <> get Sample.alert_zero_stop "stopLoss"
  /\ p <> Specified.orderParams Sample.apiKey Sample.alert_zero_stop Sample.bot.
Proof.
  cbv zeta. repeat split; try reflexivity; intro H; discriminate H.
Qed.

(** ** Time in force (C8) *)

Lemma get_legacy_time_in_force (p : OrderParams.t) :
  get (legacy_params p) "time_in_force" = VStr "GoodTillCancel".
Proof.
  unfold legacy_params.
  destruct (strict_eq _ _); destruct (truthy (OrderParams.stopLoss p));
    destruct (truthy (OrderParams.takeProfit p));
    repeat (rewrite get_set_other by discriminate); reflexivity.
Qed.

(** The legacy order request carries the parameters with their
    [time_in_force]. *)
Lemma order_request_time_in_force (p : OrderParams.t) (now : Z) :
  exists params,
    http_data (order_request p now) = ObjectData params
    /\ get params "time_in_force" = VStr "GoodTillCancel".
Proof.
  eexists. split; [reflexivity|].
  rewrite !get_set_other by discriminate. apply get_legacy_time_in_force.
Qed.

Lemma BybitV5_posts_payload (category recvWindow : value) (p : OrderParams.t) :
  emits (carries_payload category p) (BybitV5.executeBybitOrderWith category recvWindow p).
Proof.
  unfold BybitV5.executeBybitOrderWith, BybitV5.getServerTimestamp.
  apply emits_bind.
  - apply emits_bind; [apply emits_axios; intros H; discriminate H | intros d].
    apply emits_if; [apply emits_throw | apply emits_ret].
  - intros timestamp. apply emits_bind.
    + apply emits_axios. intros _. reflexivity.
    + intros d. apply emits_if; [apply emits_throw|].
      apply emits_bind; [apply emits_member | intros v].
      apply emits_bind; [apply emits_member | intros v'; apply emits_ret].
Qed.

Lemma legacy_params_stamped (p : OrderParams.t) (timestamp sign : value) :
  get (set (set (legacy_params p) "timestamp" timestamp) "sign" sign) "time_in_force"
  = VStr "GoodTillCancel".
Proof. rewrite !get_set_other by discriminate. apply get_legacy_time_in_force. Qed.

Lemma legacy_clients_send_good_till_cancel (p : OrderParams.t) :
  emits carries_good_till_cancel (BybitV2a.executeBybitOrder p)
  /\ emits carries_good_till_cancel (BybitV2b.executeBybitOrder p)
  /\ emits carries_good_till_cancel (BybitV2c.executeBybitOrder p).
Proof.
  split; [|split].
  - unfold BybitV2a.executeBybitOrder, BybitV2a.generateSignature.
    apply emits_bind; [|intros signed].
    + apply emits_bind; [apply emits_Date_now | intros now; apply emits_ret].
    + apply emits_try_catch; [|intros e; apply emits_throw].
      apply emits_bind; [|intros d; apply emits_legacy_result].
      apply emits_axios. eexists. split; [left; reflexivity|].
      apply legacy_params_stamped.
  - unfold BybitV2b.executeBybitOrder, BybitV2b.generateSignature.
    apply emits_bind; [apply emits_Date_now | intros now].
    apply emits_bind; [|intros signature].
    + apply emits_bind; [apply emits_Date_now | intros now'; apply emits_ret].
    + apply emits_try_catch; [|intros e; apply emits_describe_failure].
      apply emits_bind; [|intros d; apply emits_legacy_result].
      apply emits_axios. eexists. split; [right; reflexivity|].
      apply legacy_params_stamped.
  - unfold BybitV2c.executeBybitOrder.
    apply emits_bind; [apply emits_Date_now | intros now].
    apply emits_try_catch; [|intros e; apply emits_describe_failure].
    apply emits_bind; [|intros d; apply emits_legacy_result].
    apply emits_axios. eexists. split; [right; reflexivity|].
    apply legacy_params_stamped.
Qed.

(** C8, as amended: the V5 client transmits IOC when the order type is
    'Market' and PostOnly for every other order type, 'Limit' among them: the
    value is a function of the order type alone, no argument of the client
    replaces it, and every POST of that client carries the payload.  The
    legacy revisions transmit GoodTillCancel with every order. *)
Theorem time_in_force_policy (category recvWindow : value) (p : OrderParams.t) :
  get (BybitV5.payload category p) "timeInForce"
  = (if strict_eq (OrderParams.orderType p) (VStr "Market")
     then VStr "IOC" else VStr "PostOnly")
  /\ strict_eq (VStr "Limit") (VStr "Market") = false
  /\ emits (carries_payload category p)
           (BybitV5.executeBybitOrderWith category recvWindow p)
  /\ get (legacy_params p) "time_in_force" = VStr "GoodTillCancel"
  /\ emits carries_good_till_cancel (BybitV2a.executeBybitOrder p)
  /\ emits carries_good_till_cancel (BybitV2b.executeBybitOrder p)
  /\ emits carries_good_till_cancel (BybitV2c.executeBybitOrder p).
Proof.
  split; [|split; [reflexivity|]].
  - unfold BybitV5.payload.
    destruct (strict_eq (OrderParams.orderType p) (VStr "Limit") && _)%bool;
      destruct (not_null (OrderParams.stopLoss p));
      destruct (not_null (OrderParams.takeProfit p));
      repeat (rewrite get_set_other by discriminate); reflexivity.
  - split; [apply BybitV5_posts_payload|].
    split; [apply get_legacy_time_in_force|].
    apply legacy_clients_send_good_till_cancel.
Qed.

(** C8, the claim as stated fails: the client that the handler imports
    sends a market order with GoodTillCancel, which is neither
    immediate-or-cancel nor post-only. *)
Lemma market_order_good_till_cancel :
  OrderParams.orderType Sample.market_order = VStr "Market"
  /\ get (legacy_params Sample.market_order) "time_in_force" = VStr "GoodTillCancel"
  /\ exists r,
       sent (snd (BybitV2a.executeBybitOrder Sample.market_order
                    (Sample.world_with Sample.bot [Sample.apiKey] Sample.accepting
                       Sample.healthy)))
       = [r]
       /\ exists params,
            http_data r = ObjectData params
            /\ get params "time_in_force" = VStr "GoodTillCancel".
Proof.
  split; [reflexivity|]. split; [reflexivity|].
  eexists. split; [vm_compute; reflexivity|].
  eexists. split; [reflexivity|]. reflexivity.
Qed.

(** ** Persistence is best effort (C9) *)

Lemma fault_blind_Date_now (fails : store_op -> bool) : blind (with_faults fails) Date_now.
Proof. intros w. reflexivity. Qed.

Lemma fault_blind_axios (fails : store_op -> bool) (method url : string) (d : data)
  (hs : list (string * string)) :
  blind (with_faults fails) (axios method url d hs).
Proof. intros w. unfold axios. simpl. destruct (exchange w _); reflexivity. Qed.

Lemma fault_blind_orderResult (fails : store_op -> bool) (bot : Bot.t) (p : OrderParams.t) :
  blind (with_faults fails) (orderResult BybitV2a.executeBybitOrder bot p).
Proof.
  unfold orderResult. apply blind_if.
  - apply blind_bind; [apply fault_blind_Date_now | intros now; apply blind_ret].
  - apply blind_BybitV2a; [apply fault_blind_Date_now | apply fault_blind_axios].
Qed.

(** C9: when the execution, placed or simulated, has returned [r], the
    caller is answered 200 with [success: true], the order id and status of
    [r] and the bot's test-mode flag, and the answer is the same in every
    world that differs only by the store failing or not on the trade insert
    and on the counter update. *)
Theorem persistence_is_best_effort (req : Request.t) (w w' : world)
  (webhook : Joined.t) (bot : Bot.t) (apiKey : ApiKey.t) (alertData : obj)
  (body : nested) (r : OrderResult.t) (fails : store_op -> bool) :
  Request.method req = "POST" ->
  configured w = true ->
  find_webhook w (webhookToken req) (clock w (reads w)) = Some webhook ->
  Joined.bots webhook = Some bot ->
  Request.json req = Request.Parsed body ->
  readable body = Some alertData ->
  find_api_key w (Joined.user_id webhook) = Some apiKey ->
  orderResult BybitV2a.executeBybitOrder bot (orderParams apiKey alertData bot) (tick w)
  = (Returned r, w') ->
  fails SelectWebhook = store_fails w SelectWebhook ->
  fails SelectApiKey = store_fails w SelectApiKey ->
  fst (handler req (with_faults fails w))
  = Returned
      {| Response.status := 200;
         Response.headers := corsHeaders ++ [("Content-Type", "application/json")];
         Response.body :=
           Some [ ("success", VBool true);
                  ("orderId", OrderResult.orderId r);
                  ("status", OrderResult.status r);
                  ("testMode", Bot.test_mode bot) ] |}
  /\ fst (handler req (with_faults fails w)) = fst (handler req w).
Proof.
  intros Hm Hc Hw Hb Hj Hr Hk He Hf1 Hf2.
  assert (Hfaulty : fst (handler req (with_faults fails w))
                    = Returned (json_response 200 (success_body r bot))).
  { unfold handler.
    rewrite (process_execution_returns _ req (with_faults fails w) (with_faults fails w')
               webhook bot apiKey alertData body r); try assumption.
    - apply persist_answer.
    - unfold find_webhook in *. simpl. now rewrite Hf1.
    - unfold find_api_key in *. simpl. now rewrite Hf2.
    - change (tick (with_faults fails w)) with (with_faults fails (tick w)).
      rewrite fault_blind_orderResult, He. reflexivity. }
  split; [exact Hfaulty|].
  rewrite Hfaulty. unfold handler.
  rewrite (process_execution_returns _ req w w' webhook bot apiKey alertData body r)
    by assumption.
  symmetry. apply persist_answer.
Qed.

Lemma persistence_is_best_effort_witness :
  let w := Sample.world_with Sample.bot [Sample.apiKey] Sample.accepting Sample.healthy in
  let req := Sample.post Sample.alert_url [("side", VStr "Sell")] in
  fst (handler req (with_faults Sample.read_only w))
  = Returned (json_response 200
                [ ("success", VBool true); ("orderId", VStr "o-1");
                  ("status", VStr "Created"); ("testMode", VBool false) ])
  /\ fst (handler req (with_faults Sample.read_only w)) = fst (handler req w).
Proof.
  cbv zeta.
  apply (persistence_is_best_effort
           (Sample.post Sample.alert_url [("side", VStr "Sell")])
           (Sample.world_with Sample.bot [Sample.apiKey] Sample.accepting Sample.healthy)
           (record_sent
              (order_request (orderParams Sample.apiKey [("side", VStr "Sell")] Sample.bot)
                 1700000000001)
              (tick (tick (Sample.world_with Sample.bot [Sample.apiKey] Sample.accepting
                             Sample.healthy))))
           (Joined.mk Sample.webhook (Some Sample.bot)) Sample.bot Sample.apiKey
           [("side", VStr "Sell")] (Object [("side", VStr "Sell")])
           (OrderResult.mk (VStr "o-1") (VStr "BTCUSD") (VStr "Sell") (VStr "Market")
              (VNum 100) VUndefined (VStr "Created"))
           Sample.read_only);
    reflexivity.
Defined.

(** ** The token in the URL (C10) *)

Lemma split_not_nil (sep : ascii) (s : string) : split sep s <> [].
Proof.
  destruct s as [|c s]; simpl; [discriminate|].
  destruct (Ascii.eqb c sep); [discriminate|].
  destruct (split sep s); discriminate.
Qed.

Lemma pop_cons (x : string) (l : list string) : l <> [] -> pop (x :: l) = pop l.
Proof. unfold pop. destruct l; [congruence | reflexivity]. Qed.

Lemma split_two (sep : ascii) (s t : string) :
  exists x y l, split sep (s ++ String sep t) = x :: y :: l.
Proof.
  induction s as [|c s (x & y & l & IH)]; simpl.
  - rewrite Ascii.eqb_refl.
    destruct (split sep t) as [|y l] eqn:E; [now apply split_not_nil in E|].
    now exists EmptyString, y, l.
  - rewrite IH. destruct (Ascii.eqb c sep); eauto.
Qed.

(** The last segment is what follows the last separator. *)
Lemma pop_split_after (sep : ascii) (s t : string) :
  pop (split sep (s ++ String sep t)) = pop (split sep t).
Proof.
  induction s as [|c s IH]; simpl.
  - rewrite Ascii.eqb_refl. apply pop_cons, split_not_nil.
  - destruct (Ascii.eqb c sep).
    + rewrite pop_cons by apply split_not_nil. exact IH.
    + destruct (split_two sep s t) as (x & y & l & E).
      rewrite E in *. rewrite <- IH. reflexivity.
Qed.

Lemma split_free (sep : ascii) (s : string) :
  free_of sep s = true -> split sep s = [s].
Proof.
  unfold free_of. induction s as [|c s IH]; simpl; [reflexivity|].
  intros H. apply andb_prop in H. destruct H as [Hc Hs].
  apply negb_true_iff in Hc. rewrite Hc, (IH Hs). reflexivity.
Qed.

Lemma pop_split_free (sep : ascii) (s t : string) :
  free_of sep t = true -> pop (split sep (s ++ String sep t)) = t.
Proof. intros H. now rewrite pop_split_after, split_free. Qed.

(** A minted token is not empty and has no question mark. *)
Lemma minted_not_empty (token : string) : minted token = true -> token <> EmptyString.
Proof. intros H E. subst. discriminate H. Qed.

Lemma minted_plain (token : string) : minted token = true -> plain_token token = true.
Proof.
  intros H. unfold plain_token. apply andb_true_intro. split.
  - apply negb_true_iff, String.eqb_neq. now apply minted_not_empty.
  - unfold free_of. apply forallb_forall. intros c Hc.
    destruct (Ascii.eqb c "?") eqn:E; [|reflexivity].
    apply Ascii.eqb_eq in E. subst c. exfalso.
    unfold minted in H. apply andb_prop in H. destruct H as [_ H].
    rewrite forallb_forall in H. specialize (H _ Hc). discriminate H.
Qed.

Lemma unstored_is_absent (w : world) (token : string) :
  plain_store w = true -> plain_token token = false -> is_absent w token = true.
Proof.
  unfold plain_store, is_absent. rewrite !forallb_forall.
  intros H Ht r Hr. specialize (H r Hr).
  destruct (String.eqb_spec (Webhook.webhook_token r) token) as [E|E]; [|reflexivity].
  rewrite E in H. congruence.
Qed.

Lemma plain_token_empty : plain_token EmptyString = false.
Proof. reflexivity. Qed.

Lemma plain_token_query (s q : string) : plain_token (s ++ String "?" q) = false.
Proof.
  unfold plain_token. apply andb_false_iff. right. unfold free_of.
  induction s as [|c s IH]; simpl; [reflexivity|].
  rewrite IH. apply andb_false_r.
Qed.

Lemma removelast_cons {A} (x : A) (l : list A) :
  l <> [] -> removelast (x :: l) = x :: removelast l.
Proof. destruct l; [congruence | reflexivity]. Qed.

(** Text without a separator, appended to a string, extends its last
    segment. *)
Lemma split_append_free (sep : ascii) (s t : string) :
  free_of sep t = true ->
  split sep (s ++ t) = app (removelast (split sep s)) [pop (split sep s) ++ t].
Proof.
  intros Ht. induction s as [|c s IH]; simpl.
  - now apply split_free.
  - destruct (Ascii.eqb c sep).
    + rewrite IH, pop_cons, removelast_cons by apply split_not_nil. reflexivity.
    + rewrite IH. destruct (split sep s) as [|x [|y l]] eqn:E.
      * now apply split_not_nil in E.
      * reflexivity.
      * reflexivity.
Qed.

Lemma pop_last (l : list string) (x : string) : pop (app l [x]) = x.
Proof. unfold pop. apply last_last. Qed.

Lemma pop_split_append_free (sep : ascii) (s t : string) :
  free_of sep t = true -> pop (split sep (s ++ t)) = pop (split sep s) ++ t.
Proof. intros H. rewrite split_append_free by exact H. apply pop_last. Qed.

(** C10, as amended: the token is the last segment of the URL split on '/'.
    With a trailing slash it is the empty string; with a query string that
    has no '/', it is the last path segment followed by '?' and the query.
    Neither is a stored token as long as the stored tokens are not empty and
    have no question mark, and against such a store the request is answered
    404. *)
Theorem token_is_last_segment (exec : OrderParams.t -> M OrderResult.t)
  (req : Request.t) (w : world) (base q : string) :
  Request.method req = "POST" ->
  configured w = true ->
  plain_store w = true ->
  Request.url req = base ++ "/"
  \/ (Request.url req = base ++ "?" ++ q /\ free_of "/" q = true) ->
  webhookToken req = pop (split "/" (Request.url req))
  /\ (Request.url req = base ++ "/" -> webhookToken req = EmptyString)
  /\ (Request.url req = base ++ "?" ++ q -> free_of "/" q = true ->
      webhookToken req = pop (split "/" base) ++ "?" ++ q)
  /\ is_absent w (webhookToken req) = true
  /\ fst (processAlert exec req w) = Returned not_found.
Proof.
  intros Hm Hc Hs Hurl.
  assert (Hslash : Request.url req = base ++ "/" -> webhookToken req = EmptyString).
  { intros E. unfold webhookToken. rewrite E. now apply pop_split_free. }
  assert (Hquery : Request.url req = base ++ "?" ++ q -> free_of "/" q = true ->
                   webhookToken req = pop (split "/" base) ++ "?" ++ q).
  { intros E Hq. unfold webhookToken. rewrite E.
    now apply pop_split_append_free. }
  assert (Habsent : is_absent w (webhookToken req) = true).
  { apply unstored_is_absent; [exact Hs|].
    destruct Hurl as [E|[E Hq]].
    - now rewrite (Hslash E).
    - rewrite (Hquery E Hq). apply plain_token_query. }
  repeat split; try assumption.
  rewrite processAlert_post by assumption. unfold try_catch.
  rewrite process_not_found; [reflexivity|].
  apply find_webhook_miss. now left.
Qed.

Lemma token_is_last_segment_witness :
  let w := Sample.world_with Sample.test_bot [Sample.apiKey] Sample.accepting Sample.healthy in
  let slash := Sample.post (Sample.alert_url ++ "/") [] in
  let query := Sample.post (Sample.alert_url ++ "?" ++ "source=tv") [] in
  (webhookToken slash = EmptyString /\ fst (handler slash w) = Returned not_found)
  /\ (webhookToken query = Sample.token ++ "?source=tv"
      /\ fst (handler query w) = Returned not_found).
Proof.
  cbv zeta. split.
  - destruct (token_is_last_segment BybitV2a.executeBybitOrder
                (Sample.post (Sample.alert_url ++ "/") [])
                (Sample.world_with Sample.test_bot [Sample.apiKey] Sample.accepting
                   Sample.healthy)
                Sample.alert_url EmptyString)
      as (_ & H1 & _ & _ & H2); try reflexivity.
    + left. reflexivity.
    + split; [apply H1; reflexivity | exact H2].
  - destruct (token_is_last_segment BybitV2a.executeBybitOrder
                (Sample.post (Sample.alert_url ++ "?" ++ "source=tv") [])
                (Sample.world_with Sample.test_bot [Sample.apiKey] Sample.accepting
                   Sample.healthy)
                Sample.alert_url "source=tv")
      as (_ & _ & H1 & _ & H2); try reflexivity.
    + right. split; reflexivity.
    + split; [apply H1; reflexivity | exact H2].
Defined.

(** C10, the claim as stated fails: a query string with a '/' makes the
    token the text after that '/'; when that text is a stored token the
    request is served. *)
Lemma query_with_slash_resolves :
  let w := Sample.world_with Sample.test_bot [Sample.apiKey] Sample.accepting Sample.healthy in
  let req :=
    Sample.post ("https://relay.example/.netlify/functions/processAlert/unknown"
                 ++ "?next=/" ++ Sample.token) [] in
  plain_store w = true
  /\ webhookToken req = Sample.token
  /\ is_absent w (webhookToken req) = false
  /\ (exists r, fst (handler req w) = Returned r /\ Response.status r = 200)
  /\ fst (handler req w) <> Returned not_found.
Proof.
  cbv zeta. split; [reflexivity|]. split; [reflexivity|]. split; [reflexivity|].
  split.
  - eexists. split; [vm_compute; reflexivity | reflexivity].
  - vm_compute. intros H. discriminate H.
Qed.

(** ** The venue and the credential flag (C1) *)

Lemma configured_usable (w : world) :
  configured w = true ->
  deno w = true
  /\ client_error w (env w "SUPABASE_URL") (env w "SUPABASE_SERVICE_KEY") = None.
Proof.
  unfold configured, usable. intros H. apply andb_prop in H. destruct H as [H Hu].
  apply andb_prop in H. destruct H as [H _]. apply andb_prop in H. destruct H as [H _].
  split; [exact H|]. now destruct (client_error w _ _).
Qed.

Lemma Earlier_processAlert_post (exec : OrderParams.t -> M OrderResult.t)
  (req : Request.t) (w : world) :
  Request.method req = "POST" ->
  configured w = true ->
  Earlier.processAlert exec req w
  = try_catch (Earlier.process exec req)
      (fun error => ret (json_response 500 [("error", VStr (message error))])) w.
Proof.
  intros Hm Hc. unfold Earlier.processAlert. rewrite Hm. simpl.
  destruct (configured_usable w Hc) as [Hd Hu].
  unfold bind, Deno_env_get, createClient.
  rewrite Hd. cbv beta iota. rewrite Hd. cbv beta iota. now rewrite Hu.
Qed.

(** With the webhook, its bot, the credentials and the payload in hand, the
    [try] block of the earlier copy is the execution, for the parameters it
    builds, followed by the persistence. *)
Lemma Earlier_process_resolved (exec : OrderParams.t -> M OrderResult.t) (req : Request.t)
  (w : world) (webhook : Joined.t) (bot : Bot.t) (apiKey : ApiKey.t) (alertData : obj)
  (body : nested) :
  find_webhook w (webhookToken req) (clock w (reads w)) = Some webhook ->
  Joined.bots webhook = Some bot ->
  Request.json req = Request.Parsed body ->
  readable body = Some alertData ->
  find_api_key w (Joined.user_id webhook) = Some apiKey ->
  Earlier.process exec req w
  = bind (orderResult exec bot (Earlier.orderParams apiKey alertData bot))
         (persist webhook bot) (tick w).
Proof.
  intros Hw Hb Hj Hr Hk. unfold Earlier.process.
  rewrite bind_Date_now, bind_select_webhook, find_webhook_tick, Hw.
  unfold req_json. rewrite Hj, bind_ret_l, bind_select_api_key, find_api_key_tick, Hk.
  rewrite (properties_readable body alertData Hr), bind_ret_l.
  unfold Earlier.bot_of. rewrite Hb, bind_ret_l. reflexivity.
Qed.

(** What a handler built on [netlify/utils/bybit.js] has sent once it has
    placed the order of a bot out of test mode and logged it. *)
Lemma placed_order_sent (webhook : Joined.t) (bot : Bot.t) (p : OrderParams.t) (w : world) :
  truthy (Bot.test_mode bot) = false ->
  sent (snd (try_catch
               (bind (orderResult BybitV2a.executeBybitOrder bot p) (persist webhook bot))
               (fun error => ret (json_response 500 [("error", VStr (message error))]))
               w))
  = app (sent w) [order_request p (clock w (reads w))].
Proof.
  intros Ht. unfold try_catch, bind, orderResult. rewrite Ht.
  pose proof (BybitV2a_sends_once p w) as H.
  destruct (BybitV2a.executeBybitOrder p w) as [[r|e] w1]; [|exact H].
  pose proof (persist_sent webhook bot r w1) as H'.
  destruct (persist webhook bot r w1) as [[a|e] w']; simpl in *; now rewrite H'.
Qed.

Lemma order_request_url (p : OrderParams.t) (now : Z) :
  http_url (order_request p now)
  = (if truthy (OrderParams.testnet p) then "https://api-testnet.bybit.com"
     else "https://api.bybit.com") ++ "/v2/private/order/create".
Proof.
  unfold order_request, BybitV2a.baseUrl. cbn [http_url].
  replace (truthy (default_param (OrderParams.testnet p) (VBool false)))
    with (truthy (OrderParams.testnet p)) by (destruct (OrderParams.testnet p); reflexivity).
  destruct (truthy (OrderParams.testnet p)); reflexivity.
Qed.

(** C1, where the code fails the claim: in the copy of the alert processor
    kept in [generateWebhook.js], the flag of the credential row moves the
    venue.  For a POST whose token resolves to a bot out of test mode, with
    credentials and a readable body, that copy sends exactly one request, the
    order built from [testnet: apiKey.test_mode || bot.test_mode], and it
    goes to the test network exactly when the credential row's [test_mode] is
    truthy, to the main network otherwise.  [processAlert.js] in the same
    world sends exactly one request as well, built from
    [testnet: bot.test_mode]; it goes to the main network whatever the
    credential row says, and the whole run (response, requests, changes of
    the store) is the same under any other flags of the credential rows. *)
Theorem credential_flag_moves_the_venue (req : Request.t) (w : world)
  (webhook : Joined.t) (bot : Bot.t) (apiKey : ApiKey.t) (body : nested)
  (alertData : obj) :
  Request.method req = "POST" ->
  configured w = true ->
  find_webhook w (webhookToken req) (clock w (reads w)) = Some webhook ->
  Joined.bots webhook = Some bot ->
  Request.json req = Request.Parsed body ->
  readable body = Some alertData ->
  find_api_key w (Joined.user_id webhook) = Some apiKey ->
  truthy (Bot.test_mode bot) = false ->
  let earlier :=
    order_request (Earlier.orderParams apiKey alertData bot) (clock w (S (reads w))) in
  let current :=
    order_request (orderParams apiKey alertData bot) (clock w (S (reads w))) in
  sent (snd (Earlier.handler req w)) = app (sent w) [earlier]
  /\ http_url earlier
     = (if truthy (ApiKey.test_mode apiKey)
        then "https://api-testnet.bybit.com/v2/private/order/create"
        else "https://api.bybit.com/v2/private/order/create")
  /\ sent (snd (handler req w)) = app (sent w) [current]
  /\ http_url current = "https://api.bybit.com/v2/private/order/create"
  /\ forall f,
       handler req (with_key_flags f w)
       = (fst (handler req w), with_key_flags f (snd (handler req w))).
Proof.
  intros Hm Hc Hw Hb Hj Hr Hk Ht. cbv zeta. split; [|split; [|split; [|split]]].
  - unfold Earlier.handler. rewrite Earlier_processAlert_post by assumption.
    unfold try_catch at 1.
    rewrite (Earlier_process_resolved _ req w webhook bot apiKey alertData body)
      by assumption.
    apply (placed_order_sent webhook bot (Earlier.orderParams apiKey alertData bot) (tick w)).
    exact Ht.
  - rewrite order_request_url. unfold Earlier.orderParams, logical_or.
    cbn [OrderParams.testnet].
    destruct (truthy (ApiKey.test_mode apiKey)) eqn:Ea; [now rewrite Ea|].
    now rewrite Ht.
  - rewrite (handler_sent req w webhook bot Hm Hc Hw Hb), Hj, Hk, Hr, Ht. reflexivity.
  - rewrite order_request_url. unfold orderParams. cbn [OrderParams.testnet].
    now rewrite Ht.
  - intros f. apply flag_blind_handler.
Qed.

Lemma credential_flag_moves_the_venue_witness :
  let req := Sample.post Sample.alert_url [] in
  let earlier :=
    order_request (Earlier.orderParams Sample.testnet_apiKey [] Sample.bot) 1700000000001 in
  let current :=
    order_request (orderParams Sample.testnet_apiKey [] Sample.bot) 1700000000001 in
  sent (snd (Earlier.handler req Sample.flagged)) = [earlier]
  /\ http_url earlier = "https://api-testnet.bybit.com/v2/private/order/create"
  /\ sent (snd (handler req Sample.flagged)) = [current]
  /\ http_url current = "https://api.bybit.com/v2/private/order/create"
  /\ forall f,
       handler req (with_key_flags f Sample.flagged)
       = (fst (handler req Sample.flagged),
          with_key_flags f (snd (handler req Sample.flagged))).
Proof.
  apply (credential_flag_moves_the_venue (Sample.post Sample.alert_url []) Sample.flagged
           (Joined.mk Sample.webhook (Some Sample.bot)) Sample.bot Sample.testnet_apiKey
           (Object []) []); reflexivity.
Defined.

(** ** The alert processor, case by case *)

Lemma process_cases (exec : OrderParams.t -> M OrderResult.t) (req : Request.t) (w : world) :
  match find_webhook w (webhookToken req) (clock w (reads w)) with
  | None => process exec req w = (Returned not_found, tick w)
  | Some webhook =>
      match Request.json req with
      | Request.Malformed e => process exec req w = (Thrown e, tick w)
      | Request.Parsed body =>
          match Joined.bots webhook with
          | None =>
              process exec req w
              = (Thrown (Error "Cannot read properties of null (reading 'name')"), tick w)
          | Some bot =>
              match find_api_key w (Joined.user_id webhook) with
              | None =>
                  process exec req w
                  = (Returned (json_response 400
                                 [("error", VStr "API credentials not found")]), tick w)
              | Some apiKey =>
                  match readable body with
                  | None => exists e, process exec req w = (Thrown e, tick w)
                  | Some alertData =>
                      process exec req w
                      = bind (orderResult exec bot (orderParams apiKey alertData bot))
                             (persist webhook bot) (tick w)
                  end
              end
          end
      end
  end.
Proof.
  destruct (find_webhook w _ _) as [webhook|] eqn:Hw; [|now apply process_not_found].
  destruct (Request.json req) as [e|body] eqn:Hj.
  - unfold process, bind, Date_now, select_webhook.
    rewrite find_webhook_tick, Hw. unfold req_json. now rewrite Hj.
  - destruct (Joined.bots webhook) as [bot|] eqn:Hb.
    + rewrite (process_after_webhook exec req w webhook bot Hw Hb).
      unfold req_json. rewrite Hj, bind_ret_l.
      rewrite bind_select_api_key, find_api_key_tick.
      destruct (find_api_key w _) as [apiKey|]; [|reflexivity].
      destruct (readable body) as [alertData|] eqn:Hr.
      * now rewrite (properties_readable body alertData Hr), bind_ret_l.
      * destruct (properties_unreadable body Hr) as [e He]. exists e.
        now rewrite He, bind_throw_l.
    + unfold process, bind, Date_now, select_webhook.
      rewrite find_webhook_tick, Hw. unfold req_json. rewrite Hj. cbn [ret].
      unfold bot_of. now rewrite Hb.
Qed.

Lemma persist_returns (webhook : Joined.t) (bot : Bot.t) (r : OrderResult.t) (w : world) :
  exists w', persist webhook bot r w
             = (Returned (json_response 200 (success_body r bot)), w').
Proof.
  pose proof (persist_answer webhook bot r w) as H.
  destruct (persist webhook bot r w) as [o w']. simpl in H. subst. now exists w'.
Qed.


Lemma json_response_cors (status : Z) (body : obj) :
  incl corsHeaders (Response.headers (json_response status body)).
Proof. apply incl_appl, incl_refl. Qed.


(** ** What the clients leave alone *)

Section Keeps.

Context {B : Type}.
Variable f : world -> B.

Hypothesis f_tick : forall w, f (tick w) = f w.
Hypothesis f_record_sent : forall r w, f (record_sent r w) = f w.

Lemma keeps_ret {A} (a : A) : keeps f (ret a).
Proof. intros w. reflexivity. Qed.

Lemma keeps_throw {A} (e : error) : keeps f (@throw A e).
Proof. intros w. reflexivity. Qed.

Lemma keeps_bind {A C} (m : M A) (k : A -> M C) :
  keeps f m -> (forall a, keeps f (k a)) -> keeps f (bind m k).
Proof.
  intros Hm Hk w. unfold bind. specialize (Hm w).
  destruct (m w) as [[a|e] w']; cbn [snd] in *; [now rewrite Hk | exact Hm].
Qed.

Lemma keeps_try_catch {A} (m : M A) (h : error -> M A) :
  keeps f m -> (forall e, keeps f (h e)) -> keeps f (try_catch m h).
Proof.
  intros Hm Hh w. unfold try_catch. specialize (Hm w).
  destruct (m w) as [[a|e] w']; cbn [snd] in *; [exact Hm | now rewrite Hh].
Qed.

Lemma keeps_if {A} (b : bool) (m1 m2 : M A) :
  keeps f m1 -> keeps f m2 -> keeps f (if b then m1 else m2).
Proof. destruct b; auto. Qed.

Lemma keeps_Date_now : keeps f Date_now.
Proof. intros w. apply f_tick. Qed.

Lemma keeps_axios (method url : string) (d : data) (hs : list (string * string)) :
  keeps f (axios method url d hs).
Proof. intros w. unfold axios. destruct (exchange w _); apply f_record_sent. Qed.

Lemma keeps_member (x : nested) (k : string) : keeps f (member x k).
Proof. intros w. destruct x as [[]|]; reflexivity. Qed.

Lemma keeps_describe_failure {A} (e : error) : keeps f (@describe_failure A e).
Proof.
  intros w. unfold describe_failure.
  destruct (response e) as [[status text]|]; [reflexivity|].
  destruct (request e); reflexivity.
Qed.

Hint Resolve keeps_ret keeps_throw keeps_Date_now keeps_axios keeps_member
  keeps_describe_failure : core.

Ltac keeping :=
  repeat first
    [ apply keeps_bind; [|intro]
    | apply keeps_try_catch; [|intro]
    | apply keeps_if
    | solve [auto] ].

Lemma keeps_legacy_result (p : OrderParams.t) (d : response_data) :
  keeps f (legacy_result p d).
Proof. unfold legacy_result. keeping. Qed.

Hint Resolve keeps_legacy_result : core.

Lemma keeps_clients (exec : OrderParams.t -> M OrderResult.t) (p : OrderParams.t) :
  In exec clients -> keeps f (exec p).
Proof.
  intros [H|[H|[H|[H|[]]]]]; subst exec.
  - unfold BybitV2a.executeBybitOrder, BybitV2a.generateSignature. keeping.
  - unfold BybitV2b.executeBybitOrder, BybitV2b.generateSignature. keeping.
  - unfold BybitV2c.executeBybitOrder. keeping.
  - unfold BybitV5.executeBybitOrder, BybitV5.executeBybitOrderWith,
      BybitV5.getServerTimestamp.
    keeping.
Qed.

Lemma keeps_orderResult (exec : OrderParams.t -> M OrderResult.t) (bot : Bot.t)
  (p : OrderParams.t) :
  In exec clients -> keeps f (orderResult exec bot p).
Proof.
  intros H. unfold orderResult. apply keeps_if; [keeping | now apply keeps_clients].
Qed.

End Keeps.

Lemma clients_keep_tables (exec : OrderParams.t -> M OrderResult.t) (bot : Bot.t)
  (p : OrderParams.t) :
  In exec clients -> keeps tables (orderResult exec bot p).
Proof. intros H. apply keeps_orderResult; [reflexivity | reflexivity | exact H]. Qed.

Lemma persist_world (webhook : Joined.t) (bot : Bot.t) (r : OrderResult.t) (w : world) :
  let w' := snd (persist webhook bot r w) in
  webhooks w' = webhooks w /\ api_keys w' = api_keys w
  /\ (store_fails w InsertTrade = false ->
      trades w' = app (trades w) [trade_row webhook r (clock w (reads w))]).
Proof.
  unfold persist, bind, Date_now, insert_trade, update_bot. simpl.
  destruct (store_fails w InsertTrade); simpl;
    destruct (store_fails w UpdateBot); simpl; repeat split; congruence.
Qed.

(** The outcome of the [try] block against the tables of the store. *)
Lemma process_tables (exec : OrderParams.t -> M OrderResult.t) (req : Request.t)
  (w : world) :
  In exec clients ->
  let out := process exec req w in
  webhooks (snd out) = webhooks w /\ api_keys (snd out) = api_keys w
  /\ ((exists res bot,
          fst out = Returned (json_response 200 (success_body res bot)))
      \/ ((forall r, fst out = Returned r -> Response.status r <> 200)
          /\ trades (snd out) = trades w /\ bots (snd out) = bots w)).
Proof.
  intros Hexec. cbv zeta.
  pose proof (process_cases exec req w) as H.
  destruct (find_webhook w _ _) as [webhook|].
  2:{ rewrite H. repeat split; try reflexivity. right. repeat split.
      intros r E. inversion E. discriminate. }
  destruct (Request.json req) as [e|body].
  { rewrite H. repeat split; try reflexivity. right. repeat split. discriminate. }
  destruct (Joined.bots webhook) as [bot|].
  2:{ rewrite H. repeat split; try reflexivity. right. repeat split. discriminate. }
  destruct (find_api_key w _) as [apiKey|].
  2:{ rewrite H. repeat split; try reflexivity. right. repeat split.
      intros r E. inversion E. discriminate. }
  destruct (readable body) as [alertData|].
  2:{ destruct H as [e H]. rewrite H. repeat split; try reflexivity. right.
      repeat split. discriminate. }
  rewrite H. unfold bind.
  pose proof (clients_keep_tables exec bot (orderParams apiKey alertData bot) Hexec (tick w))
    as Hk.
  destruct (orderResult _ _ _ _) as [[res|e] w1]; cbn [snd] in Hk;
    unfold tables in Hk; simpl in Hk; inversion Hk as [[Hw Hb Ha Ht]].
  - destruct (persist_world webhook bot res w1) as (Pw & Pa & _).
    rewrite Pw, Pa. repeat split; try assumption. left. exists res, bot.
    apply persist_answer.
  - repeat split; try assumption. right. repeat split; try assumption. discriminate.
Qed.

(** X2: with each of the four revisions of the client, the alert processor
    never changes the webhook rows or the credential rows, and it changes
    the trade log and the bot rows only in a run that it answers with 200. *)
Theorem tables_change_only_on_success (exec : OrderParams.t -> M OrderResult.t)
  (req : Request.t) (w : world) :
  In exec clients ->
  let out := processAlert exec req w in
  webhooks (snd out) = webhooks w /\ api_keys (snd out) = api_keys w
  /\ ((exists r, fst out = Returned r /\ Response.status r = 200)
      \/ (trades (snd out) = trades w /\ bots (snd out) = bots w)).
Proof.
  intros Hexec. cbv zeta. rewrite processAlert_cases.
  destruct (Request.method req =? "OPTIONS")%string; [simpl; auto|].
  destruct (Request.method req =? "POST")%string; [|simpl; auto].
  cbn [negb].
  destruct (deno w); [|simpl; auto]. cbn [negb].
  destruct (unset _ || unset _); [simpl; auto|].
  destruct (client_error w _ _); [simpl; auto|].
  unfold try_catch.
  destruct (process_tables exec req w Hexec) as (Hw & Ha & H).
  destruct (process exec req w) as [[r|e] w']; cbn [fst snd] in *.
  - repeat split; try assumption.
    destruct H as [(res & bot & E)|(_ & Ht & Hb)]; [left | now right].
    exists r. split; [reflexivity|]. now inversion E.
  - repeat split; try assumption.
    destruct H as [(res & bot & E)|(_ & Ht & Hb)]; [discriminate | now right].
Qed.

Lemma tables_change_only_on_success_witness :
  let out := processAlert BybitV2a.executeBybitOrder
               (Sample.post Sample.alert_url [])
               (Sample.world_with Sample.bot [] Sample.accepting Sample.healthy) in
  webhooks (snd out) = [Sample.webhook] /\ api_keys (snd out) = []
  /\ ((exists r, fst out = Returned r /\ Response.status r = 200)
      \/ (trades (snd out) = [] /\ bots (snd out) = [Sample.bot])).
Proof.
  apply (tables_change_only_on_success BybitV2a.executeBybitOrder
           (Sample.post Sample.alert_url [])
           (Sample.world_with Sample.bot [] Sample.accepting Sample.healthy)).
  simpl. auto.
Defined.

(** ** The trade log and the counters *)

Lemma processAlert_200 (exec : OrderParams.t -> M OrderResult.t) (req : Request.t)
  (w : world) (r : Response.t) :
  fst (processAlert exec req w) = Returned r ->
  Response.status r = 200 ->
  exists webhook bot apiKey body alertData res w1,
    find_webhook w (webhookToken req) (clock w (reads w)) = Some webhook
    /\ Joined.bots webhook = Some bot
    /\ find_api_key w (Joined.user_id webhook) = Some apiKey
    /\ Request.json req = Request.Parsed body
    /\ readable body = Some alertData
    /\ orderResult exec bot (orderParams apiKey alertData bot) (tick w) = (Returned res, w1)
    /\ processAlert exec req w = persist webhook bot res w1
    /\ r = json_response 200 (success_body res bot).
Proof.
  intros Hr Hs.
  destruct (Request.method req =? "POST")%string eqn:Em.
  2:{ exfalso. rewrite processAlert_cases, Em in Hr.
      destruct (Request.method req =? "OPTIONS")%string;
        simpl in Hr; inversion Hr; subst; discriminate. }
  apply String.eqb_eq in Em.
  destruct (configured w) eqn:Ec.
  2:{ exfalso. rewrite processAlert_cases, Em in Hr. simpl in Hr.
      unfold configured, usable in Ec.
      destruct (deno w); [|discriminate Hr]. simpl in Hr, Ec.
      destruct (unset (env w "SUPABASE_URL") || unset (env w "SUPABASE_SERVICE_KEY")) eqn:Eu;
        [inversion Hr; subst; discriminate|].
      rewrite <- negb_orb, Eu in Ec. simpl in Ec.
      destruct (client_error w _ _); [discriminate Hr | discriminate Ec]. }
  pose proof (process_cases exec req w) as H.
  rewrite (processAlert_post exec req w Em Ec) in Hr. unfold try_catch in Hr.
  destruct (find_webhook w _ _) as [webhook|] eqn:Hw;
    [|rewrite H in Hr; inversion Hr; subst; discriminate].
  destruct (Request.json req) as [e|body] eqn:Hj;
    [rewrite H in Hr; inversion Hr; subst; discriminate|].
  destruct (Joined.bots webhook) as [bot|] eqn:Hb;
    [|rewrite H in Hr; inversion Hr; subst; discriminate].
  destruct (find_api_key w _) as [apiKey|] eqn:Hk;
    [|rewrite H in Hr; inversion Hr; subst; discriminate].
  destruct (readable body) as [alertData|] eqn:Hrd;
    [|destruct H as [e H]; rewrite H in Hr; inversion Hr; subst; discriminate].
  rewrite H in Hr. unfold bind in Hr.
  destruct (orderResult _ _ _ _) as [[res|e] w1] eqn:Ho;
    [|inversion Hr; subst; discriminate].
  destruct (persist_returns webhook bot res w1) as [w2 Hp]. rewrite Hp in Hr.
  inversion Hr.
  exists webhook, bot, apiKey, body, alertData, res, w1.
  repeat split; try reflexivity; try assumption.
  now apply (process_execution_returns exec req w w1 webhook bot apiKey alertData body res).
Qed.

(** X3: with each revision of the client, when the alert processor answers
    200 and the store takes the insert, the trade log has grown by exactly
    one row: it carries the user and bot of the webhook row that the token
    resolved to, and the order id and status that the response reports. *)
Theorem success_is_logged (exec : OrderParams.t -> M OrderResult.t) (req : Request.t)
  (w : world) (r : Response.t) :
  In exec clients ->
  fst (processAlert exec req w) = Returned r ->
  Response.status r = 200 ->
  store_fails w InsertTrade = false ->
  exists webhook body row,
    find_webhook w (webhookToken req) (clock w (reads w)) = Some webhook
    /\ trades (snd (processAlert exec req w)) = app (trades w) [row]
    /\ Trade.user_id row = Joined.user_id webhook
    /\ Trade.bot_id row = Joined.bot_id webhook
    /\ Response.body r = Some body
    /\ get body "orderId" = Trade.order_id row
    /\ get body "status" = Trade.status row.
Proof.
  intros Hexec Hr Hs Hf.
  destruct (processAlert_200 exec req w r Hr Hs)
    as (webhook & bot & apiKey & body & alertData & res & w1
        & Hw & Hb & Hk & Hj & Hrd & Ho & Hp & E).
  pose proof (clients_keep_tables exec bot (orderParams apiKey alertData bot) Hexec (tick w))
    as Hkeep.
  rewrite Ho in Hkeep. cbn [snd] in Hkeep. inversion Hkeep as [[Hw1 Hb1 Ha1 Ht1]].
  pose proof (keeps_orderResult store_fails (fun _ => eq_refl) (fun _ _ => eq_refl)
                exec bot (orderParams apiKey alertData bot) Hexec (tick w)) as Hfail.
  rewrite Ho in Hfail. cbn [snd] in Hfail.
  destruct (persist_world webhook bot res w1) as (_ & _ & Pt).
  exists webhook, (success_body res bot), (trade_row webhook res (clock w1 (reads w1))).
  split; [exact Hw|]. split.
  { rewrite Hp, Pt, Ht1; [reflexivity|]. rewrite Hfail. exact Hf. }
  subst r. repeat split; reflexivity.
Qed.

Lemma success_is_logged_witness :
  exists webhook body row,
    find_webhook (Sample.world_with Sample.test_bot [Sample.apiKey] Sample.accepting
                    Sample.healthy)
      Sample.token 1700000000000 = Some webhook
    /\ trades (snd (processAlert BybitV2a.executeBybitOrder
                      (Sample.post Sample.alert_url [])
                      (Sample.world_with Sample.test_bot [Sample.apiKey] Sample.accepting
                         Sample.healthy)))
       = [row]
    /\ Trade.user_id row = Joined.user_id webhook
    /\ Trade.bot_id row = Joined.bot_id webhook
    /\ Some (success_body (test_order (orderParams Sample.apiKey [] Sample.test_bot)
                                      1700000000001) Sample.test_bot) = Some body
    /\ get body "orderId" = Trade.order_id row
    /\ get body "status" = Trade.status row.
Proof.
  apply (success_is_logged BybitV2a.executeBybitOrder (Sample.post Sample.alert_url [])
           (Sample.world_with Sample.test_bot [Sample.apiKey] Sample.accepting Sample.healthy)
           (json_response 200
              (success_body (test_order (orderParams Sample.apiKey [] Sample.test_bot)
                                        1700000000001) Sample.test_bot))).
  - simpl. auto.
  - vm_compute. reflexivity.
  - reflexivity.
  - reflexivity.
Defined.

Lemma persist_bots (webhook : Joined.t) (bot : Bot.t) (r : OrderResult.t) (w : world) :
  store_fails w UpdateBot = false ->
  bots (snd (persist webhook bot r w))
  = map (fun b =>
           if (Bot.id b =? Joined.bot_id webhook)%string then
             Bot.mk (Bot.id b) (Bot.name b) (Bot.symbol b) (Bot.default_side b)
               (Bot.default_order_type b) (Bot.default_quantity b)
               (Bot.default_stop_loss b) (Bot.default_take_profit b) (Bot.test_mode b)
               (next_trade_count (Bot.trade_count bot)) (Some (clock w (S (reads w))))
           else b)
        (bots w).
Proof.
  intros H. unfold persist, bind, Date_now, insert_trade, update_bot. simpl.
  destruct (store_fails w InsertTrade); simpl; rewrite H; reflexivity.
Qed.

Lemma Forall2_map_r {A B} (g : A -> B) (R : A -> B -> Prop) (l : list A) :
  (forall a, In a l -> R a (g a)) -> Forall2 R l (map g l).
Proof.
  induction l as [|a l IH]; simpl; intros H; constructor; auto.
Qed.

(** X4: with each revision of the client, when the alert processor answers
    200 and the store takes the update, the bot rows keep their number and
    order; each row with the id that the webhook names has its
    [trade_count] set to [bot.trade_count ? bot.trade_count + 1 : 1] of the
    joined bot and its [last_trade_at] set to a reading of the clock, with
    the other columns as they were, and every other row is unchanged. *)
Theorem success_bumps_the_bot (exec : OrderParams.t -> M OrderResult.t) (req : Request.t)
  (w : world) (r : Response.t) :
  In exec clients ->
  fst (processAlert exec req w) = Returned r ->
  Response.status r = 200 ->
  store_fails w UpdateBot = false ->
  exists webhook bot n,
    find_webhook w (webhookToken req) (clock w (reads w)) = Some webhook
    /\ Joined.bots webhook = Some bot
    /\ Forall2
         (fun b b' =>
            if (Bot.id b =? Joined.bot_id webhook)%string then
              b' = Bot.mk (Bot.id b) (Bot.name b) (Bot.symbol b) (Bot.default_side b)
                     (Bot.default_order_type b) (Bot.default_quantity b)
                     (Bot.default_stop_loss b) (Bot.default_take_profit b)
                     (Bot.test_mode b)
                     (next_trade_count (Bot.trade_count bot))
                     (Some (clock w n))
            else b' = b)
         (bots w) (bots (snd (processAlert exec req w))).
Proof.
  intros Hexec Hr Hs Hf.
  destruct (processAlert_200 exec req w r Hr Hs)
    as (webhook & bot & apiKey & body & alertData & res & w1
        & Hw & Hb & Hk & Hj & Hrd & Ho & Hp & E).
  pose proof (clients_keep_tables exec bot (orderParams apiKey alertData bot) Hexec (tick w))
    as Hkeep.
  rewrite Ho in Hkeep. cbn [snd] in Hkeep. inversion Hkeep as [[Hw1 Hb1 Ha1 Ht1]].
  pose proof (keeps_orderResult store_fails (fun _ => eq_refl) (fun _ _ => eq_refl)
                exec bot (orderParams apiKey alertData bot) Hexec (tick w)) as Hfail.
  pose proof (keeps_orderResult clock (fun _ => eq_refl) (fun _ _ => eq_refl)
                exec bot (orderParams apiKey alertData bot) Hexec (tick w)) as Hclock.
  rewrite Ho in Hfail, Hclock. cbn [snd] in Hfail, Hclock.
  exists webhook, bot, (S (reads w1)).
  split; [exact Hw|]. split; [exact Hb|].
  rewrite Hp, persist_bots by (rewrite Hfail; exact Hf).
  rewrite Hb1, Hclock. apply Forall2_map_r. intros b _.
  change (clock (tick w)) with (clock w).
  destruct (Bot.id b =? Joined.bot_id webhook)%string; reflexivity.
Qed.

Lemma success_bumps_the_bot_witness :
  exists webhook bot n,
    find_webhook (Sample.world_with Sample.test_bot [Sample.apiKey] Sample.accepting
                    Sample.healthy)
      Sample.token 1700000000000 = Some webhook
    /\ Joined.bots webhook = Some bot
    /\ Forall2
         (fun b b' =>
            if (Bot.id b =? Joined.bot_id webhook)%string then
              b' = Bot.mk (Bot.id b) (Bot.name b) (Bot.symbol b) (Bot.default_side b)
                     (Bot.default_order_type b) (Bot.default_quantity b)
                     (Bot.default_stop_loss b) (Bot.default_take_profit b)
                     (Bot.test_mode b)
                     (next_trade_count (Bot.trade_count bot))
                     (Some (1700000000000 + Z.of_nat n))
            else b' = b)
         [Sample.test_bot]
         (bots (snd (processAlert BybitV2a.executeBybitOrder
                       (Sample.post Sample.alert_url [])
                       (Sample.world_with Sample.test_bot [Sample.apiKey] Sample.accepting
                          Sample.healthy)))).
Proof.
  apply (success_bumps_the_bot BybitV2a.executeBybitOrder (Sample.post Sample.alert_url [])
           (Sample.world_with Sample.test_bot [Sample.apiKey] Sample.accepting Sample.healthy)
           (json_response 200
              (success_body (test_order (orderParams Sample.apiKey [] Sample.test_bot)
                                        1700000000001) Sample.test_bot))).
  - simpl. auto.
  - vm_compute. reflexivity.
  - reflexivity.
  - reflexivity.
Defined.

(** ** The two selections *)

Lemma single_none {A} (l : list A) : single l = None <-> List.length l <> 1%nat.
Proof.
  destruct l as [|a [|b l]]; simpl; split; intros H; try reflexivity; try discriminate;
    try lia; congruence.
Qed.

Lemma find_webhook_none (w : world) (token : string) (now : Z) :
  find_webhook w token now = None
  <-> store_fails w SelectWebhook = true
      \/ List.length (live_rows w token now) <> 1%nat.
Proof.
  unfold find_webhook, live_rows. destruct (store_fails w SelectWebhook).
  - split; auto.
  - rewrite <- single_none.
    destruct (single _) as [r|]; simpl.
    + split; [discriminate|]. intros [H|H]; discriminate.
    + split; auto.
Qed.

Lemma find_api_key_none (w : world) (user_id : string) :
  find_api_key w user_id = None
  <-> store_fails w SelectApiKey = true
      \/ List.length (bybit_rows w user_id) <> 1%nat.
Proof.
  unfold find_api_key, bybit_rows. destruct (store_fails w SelectApiKey).
  - split; auto.
  - rewrite <- single_none. split; auto. intros [H|H]; [discriminate | exact H].
Qed.

(** X5: for a POST to a configured processor, whatever the client, the
    answer is 404 exactly when the webhook query fails or the rows that
    carry the token of the URL and expire after the reading of the clock
    are not exactly one: none, or several with the same token. *)
Theorem not_found_iff (exec : OrderParams.t -> M OrderResult.t) (req : Request.t)
  (w : world) (r : Response.t) :
  Request.method req = "POST" ->
  configured w = true ->
  fst (processAlert exec req w) = Returned r ->
  (Response.status r = 404
   <-> store_fails w SelectWebhook = true
       \/ List.length (live_rows w (webhookToken req) (clock w (reads w))) <> 1%nat).
Proof.
  intros Hm Hc Hr. rewrite <- find_webhook_none.
  rewrite processAlert_post in Hr by assumption. unfold try_catch in Hr.
  pose proof (process_cases exec req w) as H.
  destruct (find_webhook w _ _) as [webhook|].
  2:{ rewrite H in Hr. inversion Hr. split; reflexivity. }
  split; [|discriminate]. intros Hs. exfalso.
  destruct (Request.json req) as [e|body];
    [rewrite H in Hr; inversion Hr; subst; discriminate|].
  destruct (Joined.bots webhook) as [bot|];
    [|rewrite H in Hr; inversion Hr; subst; discriminate].
  destruct (find_api_key w _) as [apiKey|];
    [|rewrite H in Hr; inversion Hr; subst; discriminate].
  destruct (readable body) as [alertData|];
    [|destruct H as [e H]; rewrite H in Hr; inversion Hr; subst; discriminate].
  rewrite H in Hr. unfold bind in Hr.
  destruct (orderResult _ _ _ _) as [[res|e] w1];
    [|inversion Hr; subst; discriminate].
  destruct (persist_returns webhook bot res w1) as [w2 Hp]. rewrite Hp in Hr.
  inversion Hr; subst; discriminate.
Qed.

Lemma not_found_iff_witness :
  Response.status not_found = 404
  <-> Sample.healthy SelectWebhook = true
      \/ List.length
           (live_rows (twice (Sample.world_with Sample.bot [Sample.apiKey] Sample.accepting
                                Sample.healthy))
              Sample.token 1700000000000) <> 1%nat.
Proof.
  apply (not_found_iff BybitV2a.executeBybitOrder (Sample.post Sample.alert_url [])
           (twice (Sample.world_with Sample.bot [Sample.apiKey] Sample.accepting
                     Sample.healthy))
           not_found).
  - reflexivity.
  - reflexivity.
  - vm_compute. reflexivity.
Defined.

(** X6: once the token has resolved to a webhook with its bot and the body
    has parsed, a credential query that fails or that finds not exactly one
    bybit row of the webhook's user (none, or several) ends the request with
    400 'API credentials not found', before the payload is looked at and
    also for a bot in test mode: the clock has been read once, and nothing
    else has changed. *)
Theorem credentials_needed (exec : OrderParams.t -> M OrderResult.t) (req : Request.t)
  (w : world) (webhook : Joined.t) (bot : Bot.t) (body : nested) :
  Request.method req = "POST" ->
  configured w = true ->
  find_webhook w (webhookToken req) (clock w (reads w)) = Some webhook ->
  Joined.bots webhook = Some bot ->
  Request.json req = Request.Parsed body ->
  store_fails w SelectApiKey = true
  \/ List.length (bybit_rows w (Joined.user_id webhook)) <> 1%nat ->
  processAlert exec req w
  = (Returned (json_response 400 [("error", VStr "API credentials not found")]), tick w).
Proof.
  intros Hm Hc Hw Hb Hj Hk. apply find_api_key_none in Hk.
  rewrite processAlert_post by assumption. unfold try_catch.
  pose proof (process_cases exec req w) as H.
  rewrite Hw, Hj, Hb, Hk in H. now rewrite H.
Qed.

Lemma credentials_needed_witness :
  processAlert BybitV2a.executeBybitOrder
    {| Request.method := "POST"; Request.url := Sample.alert_url;
       Request.json := Request.Parsed (Prim VNull) |}
    (Sample.world_with Sample.test_bot [Sample.apiKey; Sample.testnet_apiKey]
       Sample.accepting Sample.healthy)
  = (Returned (json_response 400 [("error", VStr "API credentials not found")]),
     tick (Sample.world_with Sample.test_bot [Sample.apiKey; Sample.testnet_apiKey]
             Sample.accepting Sample.healthy)).
Proof.
  apply (credentials_needed BybitV2a.executeBybitOrder
           {| Request.method := "POST"; Request.url := Sample.alert_url;
              Request.json := Request.Parsed (Prim VNull) |}
           (Sample.world_with Sample.test_bot [Sample.apiKey; Sample.testnet_apiKey]
              Sample.accepting Sample.healthy)
           (Joined.mk Sample.webhook (Some Sample.test_bot)) Sample.test_bot (Prim VNull)).
  - reflexivity.
  - reflexivity.
  - vm_compute. reflexivity.
  - reflexivity.
  - reflexivity.
  - right. vm_compute. discriminate.
Defined.

(** X7: the body is parsed after the token has resolved and before the bot
    and the credentials are looked at: when [req.json()] rejects with an
    error, a request whose token resolves is answered 500 with the message
    of that error, whatever the bot, the credentials and the client; the
    clock has been read once, and nothing else has changed. *)
Theorem malformed_body_is_500 (exec : OrderParams.t -> M OrderResult.t) (req : Request.t)
  (w : world) (webhook : Joined.t) (e : error) :
  Request.method req = "POST" ->
  configured w = true ->
  find_webhook w (webhookToken req) (clock w (reads w)) = Some webhook ->
  Request.json req = Request.Malformed e ->
  processAlert exec req w
  = (Returned (json_response 500 [("error", VStr (message e))]), tick w).
Proof.
  intros Hm Hc Hw Hj.
  rewrite processAlert_post by assumption. unfold try_catch.
  pose proof (process_cases exec req w) as H.
  rewrite Hw, Hj in H. now rewrite H.
Qed.

Lemma malformed_body_is_500_witness :
  processAlert BybitV2a.executeBybitOrder
    {| Request.method := "POST"; Request.url := Sample.alert_url;
       Request.json := Request.Malformed (Error "Unexpected end of JSON input") |}
    (Sample.world_with Sample.bot [] Sample.accepting Sample.healthy)
  = (Returned (json_response 500 [("error", VStr "Unexpected end of JSON input")]),
     tick (Sample.world_with Sample.bot [] Sample.accepting Sample.healthy)).
Proof.
  apply (malformed_body_is_500 BybitV2a.executeBybitOrder
           {| Request.method := "POST"; Request.url := Sample.alert_url;
              Request.json := Request.Malformed (Error "Unexpected end of JSON input") |}
           (Sample.world_with Sample.bot [] Sample.accepting Sample.healthy)
           (Joined.mk Sample.webhook (Some Sample.bot))
           (Error "Unexpected end of JSON input")).
  - reflexivity.
  - reflexivity.
  - vm_compute. reflexivity.
  - reflexivity.
Defined.

(** X8: the alert processor as deployed (with [netlify/utils/bybit.js])
    sends at most one request in a run, and that request is a POST to the
    order endpoint of the main network: the test network is never
    contacted, since a bot in test mode is simulated and any other bot is
    routed to the main host. *)
Theorem handler_reaches_mainnet_only (req : Request.t) (w : world) :
  sent (snd (handler req w)) = sent w
  \/ exists r,
       sent (snd (handler req w)) = app (sent w) [r]
       /\ http_method r = "POST"
       /\ http_url r = "https://api.bybit.com/v2/private/order/create".
Proof.
  destruct (Request.method req =? "POST")%string eqn:Em.
  2:{ left. unfold handler. rewrite processAlert_cases, Em.
      destruct (Request.method req =? "OPTIONS")%string; reflexivity. }
  apply String.eqb_eq in Em.
  destruct (configured w) eqn:Ec.
  2:{ left. unfold handler. rewrite processAlert_cases, Em. simpl.
      unfold configured, usable in Ec.
      destruct (deno w); [|reflexivity]. simpl. simpl in Ec.
      destruct (unset (env w "SUPABASE_URL") || unset (env w "SUPABASE_SERVICE_KEY")) eqn:Eu;
        [reflexivity|].
      rewrite <- negb_orb, Eu in Ec. simpl in Ec.
      destruct (client_error w _ _); [reflexivity | discriminate Ec]. }
  destruct (find_webhook w (webhookToken req) (clock w (reads w))) as [webhook|] eqn:Hw.
  2:{ left. unfold handler. rewrite processAlert_post by assumption. unfold try_catch.
      now rewrite process_not_found. }
  destruct (Joined.bots webhook) as [bot|] eqn:Hb.
  2:{ left. unfold handler. rewrite processAlert_post by assumption. unfold try_catch.
      pose proof (process_cases BybitV2a.executeBybitOrder req w) as H.
      rewrite Hw, Hb in H. destruct (Request.json req); now rewrite H. }
  rewrite (handler_sent req w webhook bot Em Ec Hw Hb).
  destruct (Request.json req) as [e|body]; [now left|].
  destruct (find_api_key w _) as [apiKey|]; [|now left].
  destruct (readable body) as [alertData|]; [|now left].
  destruct (truthy (Bot.test_mode bot)) eqn:Et; [now left|].
  right. eexists. split; [reflexivity|]. split; [reflexivity|].
  unfold order_request, orderParams. cbn [http_url OrderParams.testnet].
  unfold BybitV2a.baseUrl.
  replace (truthy (default_param (Bot.test_mode bot) (VBool false))) with false
    by (destruct (Bot.test_mode bot); simpl in *; congruence).
  reflexivity.
Qed.

(** ** The errors of the legacy clients *)

Lemma prefix_append (s t : string) : String.prefix s (s ++ t) = true.
Proof.
  induction s as [|c s IH]; simpl; [now destruct t|].
  destruct (ascii_dec c c) as [_|N]; [exact IH | congruence].
Qed.

Section FailsWith.

Variable Q : error -> Prop.



End FailsWith.




(** ** What a returned order result stands for *)

Lemma legacy_result_returned (p : OrderParams.t) (d : response_data) (w : world)
  (r : OrderResult.t) :
  fst (legacy_result p d w) = Returned r ->
  strict_eq (get (fields d) "ret_code") (VNum 0) = true
  /\ r = OrderResult.mk (property (result d) "order_id") (OrderParams.symbol p)
           (OrderParams.side p) (OrderParams.orderType p) (OrderParams.quantity p)
           (OrderParams.price p) (property (result d) "order_status").
Proof.
  unfold legacy_result. destruct (strict_eq _ _); [|discriminate].
  unfold bind. destruct (result d) as [[]|]; simpl; intros H; inversion H; auto.
Qed.

Lemma describe_failure_throws {A} (e : error) (w : world) :
  exists e', @describe_failure A e w = (Thrown e', w).
Proof.
  unfold describe_failure. destruct (response e) as [[status text]|]; [eexists; reflexivity|].
  destruct (request e); eexists; reflexivity.
Qed.

Lemma post_then_result (url : string) (d : data) (hs : list (string * string))
  (p : OrderParams.t) (h : error -> M OrderResult.t) (w : world) (r : OrderResult.t) :
  (forall e w', exists e', h e w' = (Thrown e', w')) ->
  fst (try_catch (response <- axios "POST" url d hs ;; legacy_result p response) h w)
  = Returned r ->
  snd (try_catch (response <- axios "POST" url d hs ;; legacy_result p response) h w)
  = record_sent
      {| http_method := "POST"; http_url := url; http_data := d; http_headers := hs |} w
  /\ exists answer,
       exchange w
         {| http_method := "POST"; http_url := url; http_data := d; http_headers := hs |}
       = Resolved answer
       /\ strict_eq (get (fields answer) "ret_code") (VNum 0) = true
       /\ r = OrderResult.mk (property (result answer) "order_id") (OrderParams.symbol p)
                (OrderParams.side p) (OrderParams.orderType p) (OrderParams.quantity p)
                (OrderParams.price p) (property (result answer) "order_status").
Proof.
  intros Hh. unfold try_catch, bind, axios.
  destruct (exchange w _) as [answer|e].
  - pose proof (legacy_result_returned p answer (record_sent
        {| http_method := "POST"; http_url := url; http_data := d; http_headers := hs |} w))
      as Hr.
    pose proof (legacy_result_world p answer (record_sent
        {| http_method := "POST"; http_url := url; http_data := d; http_headers := hs |} w))
      as Hw.
    destruct (legacy_result p answer _) as [[r'|e] w']; cbn [fst snd] in *.
    + intros E. inversion E. subst. split; [reflexivity|]. exists answer.
      split; [reflexivity|]. now apply Hr.
    + destruct (Hh e w') as [e' He]. rewrite He. discriminate.
  - destruct (Hh e (record_sent
        {| http_method := "POST"; http_url := url; http_data := d; http_headers := hs |} w))
      as [e' He].
    rewrite He. discriminate.
Qed.

(** The three revisions stamp the parameters, sign them, and post them. *)
Lemma BybitV2a_run (p : OrderParams.t) (w : world) :
  BybitV2a.executeBybitOrder p w
  = try_catch
      (response <-
         axios "POST" (http_url (order_request p (clock w (reads w))))
           (http_data (order_request p (clock w (reads w)))) [] ;;
       legacy_result p response)
      (fun error => throw (Error ("Failed to execute order: " ++ message error)))
      (tick w).
Proof. reflexivity. Qed.

Lemma BybitV2b_run (p : OrderParams.t) (w : world) :
  BybitV2b.executeBybitOrder p w
  = let timestamp := IntegerToString (clock w (reads w)) in
    let stamp := IntegerToString (clock w (S (reads w))) in
    let params := set (legacy_params p) "timestamp" (VStr timestamp) in
    let signature :=
      Crypto.hmac_sha256 (OrderParams.apiSecret p)
        (BybitV2b.queryString (set params "timestamp" (VStr stamp))) in
    try_catch
      (response <-
         axios "POST" (BybitV2b.baseUrl (OrderParams.testnet p) ++ "/v2/private/order/create")
           (TextData (URLSearchParams_toString (set params "sign" (VStr signature))))
           [("Content-Type", "application/x-www-form-urlencoded")] ;;
       legacy_result p response)
      describe_failure (tick (tick w)).
Proof. reflexivity. Qed.

Lemma BybitV2c_run (p : OrderParams.t) (w : world) :
  BybitV2c.executeBybitOrder p w
  = let timestamp := IntegerToString (clock w (reads w)) in
    let params := set (legacy_params p) "timestamp" (VStr timestamp) in
    let signature := BybitV2c.generateSignature (OrderParams.apiSecret p) params in
    try_catch
      (response <-
         axios "POST" (BybitV2c.baseUrl (OrderParams.testnet p) ++ "/v2/private/order/create")
           (TextData (URLSearchParams_toString (set params "sign" (VStr signature))))
           [("Content-Type", "application/x-www-form-urlencoded")] ;;
       legacy_result p response)
      describe_failure (tick w).
Proof. reflexivity. Qed.

(** With a secret that is a string, each legacy revision stamps and signs
    the parameters and runs its [try] statement on the request it has
    built. *)
Lemma legacy_clients_try (exec : OrderParams.t -> M OrderResult.t) (p : OrderParams.t)
  (w : world) :
  In exec legacy_clients ->
  exists catch request w',
    In catch legacy_catches /\ exec p w = legacy_try catch request p w'.
Proof.
  intros [H|[H|[H|[]]]]; subst exec.
  - rewrite BybitV2a_run. eexists. exists (order_request p (clock w (reads w))), (tick w).
    split; [left; reflexivity | reflexivity].
  - rewrite BybitV2b_run. cbv zeta. exists describe_failure.
    eexists {| http_method := "POST"; http_url := _; http_data := _; http_headers := _ |}.
    exists (tick (tick w)). split; [right; left; reflexivity | reflexivity].
  - rewrite BybitV2c_run. cbv zeta. exists describe_failure.
    eexists {| http_method := "POST"; http_url := _; http_data := _; http_headers := _ |}.
    exists (tick w). split; [right; left; reflexivity | reflexivity].
Qed.

(** X10: a legacy revision of [executeBybitOrder] returns an order result
    only when it has sent exactly one request, to the order endpoint of the
    host that [testnet] selects, and the exchange has resolved that request
    with [ret_code === 0]; the result then carries the exchange's
    [order_id] and [order_status], and the symbol, side, order type,
    quantity and price of the parameters. *)
Theorem reported_orders_were_accepted (exec : OrderParams.t -> M OrderResult.t)
  (p : OrderParams.t) (w : world) (r : OrderResult.t) :
  In exec legacy_clients ->
  fst (exec p w) = Returned r ->
  exists request answer,
    sent (snd (exec p w)) = app (sent w) [request]
    /\ http_method request = "POST"
    /\ http_url request
       = BybitV2a.baseUrl (OrderParams.testnet p) ++ "/v2/private/order/create"
    /\ exchange w request = Resolved answer
    /\ strict_eq (get (fields answer) "ret_code") (VNum 0) = true
    /\ r = OrderResult.mk (property (result answer) "order_id") (OrderParams.symbol p)
             (OrderParams.side p) (OrderParams.orderType p) (OrderParams.quantity p)
             (OrderParams.price p) (property (result answer) "order_status").
Proof.
  intros [H|[H|[H|[]]]]; subst exec.
  - rewrite BybitV2a_run. intros Hr.
    apply post_then_result in Hr as (Hs & answer & Ha & Hc & E);
      [|intros e w'; eexists; reflexivity].
    eexists. exists answer. rewrite Hs.
    split; [reflexivity|]. split; [reflexivity|]. split; [reflexivity|].
    split; [exact Ha|]. split; assumption.
  - rewrite BybitV2b_run. cbv zeta. intros Hr.
    apply post_then_result in Hr as (Hs & answer & Ha & Hc & E);
      [|intros e w'; apply describe_failure_throws].
    eexists. exists answer. rewrite Hs.
    split; [reflexivity|]. split; [reflexivity|]. split; [reflexivity|].
    split; [exact Ha|]. split; assumption.
  - rewrite BybitV2c_run. cbv zeta. intros Hr.
    apply post_then_result in Hr as (Hs & answer & Ha & Hc & E);
      [|intros e w'; apply describe_failure_throws].
    eexists. exists answer. rewrite Hs.
    split; [reflexivity|]. split; [reflexivity|]. split; [reflexivity|].
    split; [exact Ha|]. split; assumption.
Qed.

Lemma reported_orders_were_accepted_witness :
  exists request answer,
    sent (snd (BybitV2c.executeBybitOrder Sample.market_order
                 (Sample.world_with Sample.bot [Sample.apiKey] Sample.accepting
                    Sample.healthy)))
    = [request]
    /\ http_method request = "POST"
    /\ http_url request = "https://api.bybit.com/v2/private/order/create"
    /\ Sample.accepting request = Resolved answer
    /\ strict_eq (get (fields answer) "ret_code") (VNum 0) = true
    /\ OrderResult.mk (VStr "o-1") (VStr "BTCUSD") (VStr "Buy") (VStr "Market") (VNum 100)
         VUndefined (VStr "Created")
       = OrderResult.mk (property (result answer) "order_id") (VStr "BTCUSD") (VStr "Buy")
           (VStr "Market") (VNum 100) VUndefined (property (result answer) "order_status").
Proof.
  apply (reported_orders_were_accepted BybitV2c.executeBybitOrder Sample.market_order
           (Sample.world_with Sample.bot [Sample.apiKey] Sample.accepting Sample.healthy)
           (OrderResult.mk (VStr "o-1") (VStr "BTCUSD") (VStr "Buy") (VStr "Market")
              (VNum 100) VUndefined (VStr "Created"))).
  - simpl. auto.
  - vm_compute. reflexivity.
Defined.

(** ** The V5 client and the exchange's clock *)

Lemma default_param_idem (v d : value) :
  default_param (default_param v d) d = default_param v d.
Proof. destruct v; try reflexivity. destruct d; reflexivity. Qed.

Lemma getServerTimestamp_run (testnet : value) (w : world) :
  BybitV5.getServerTimestamp (default_param testnet (VBool false)) w
  = match exchange w (time_request testnet) with
    | Resolved d =>
        if strict_eq (get (fields d) "retCode") (VNum 0)
        then (Returned (ToString (get (fields d) "time")), record_sent (time_request testnet) w)
        else (Thrown (Error ("Failed to fetch server time: "
                               ++ ToString (get (fields d) "retMsg"))),
              record_sent (time_request testnet) w)
    | Rejected e => (Thrown e, record_sent (time_request testnet) w)
    end.
Proof.
  unfold BybitV5.getServerTimestamp, time_request, BybitV5.baseUrl, bind, axios.
  rewrite default_param_idem.
  destruct (exchange w _) as [d|e]; [|reflexivity].
  destruct (strict_eq _ _); reflexivity.
Qed.

(** X11: the V5 client places no order without the exchange's time: when
    the request for the server time is rejected, or is answered with a
    [retCode] other than 0, [executeBybitOrder] throws, and that request is
    the only one it has sent; the local clock is not read. *)
Theorem V5_needs_server_time (p : OrderParams.t) (w : world) :
  time_given w (time_request (OrderParams.testnet p)) = None ->
  exists e,
    BybitV5.executeBybitOrder p w
    = (Thrown e, record_sent (time_request (OrderParams.testnet p)) w).
Proof.
  unfold time_given. intros H.
  unfold BybitV5.executeBybitOrder, BybitV5.executeBybitOrderWith.
  unfold bind at 1. rewrite getServerTimestamp_run.
  destruct (exchange w _) as [d|e]; [|now exists e].
  destruct (strict_eq _ _); [discriminate|]. eexists. reflexivity.
Qed.

Lemma V5_needs_server_time_witness :
  exists e,
    BybitV5.executeBybitOrder Sample.market_order
      (Sample.world_with Sample.bot [Sample.apiKey] Sample.accepting Sample.healthy)
    = (Thrown e,
       record_sent (time_request (VBool false))
         (Sample.world_with Sample.bot [Sample.apiKey] Sample.accepting Sample.healthy)).
Proof.
  apply (V5_needs_server_time Sample.market_order
           (Sample.world_with Sample.bot [Sample.apiKey] Sample.accepting Sample.healthy)).
  reflexivity.
Defined.

(** X12: when the exchange gives its time, the V5 client sends exactly two
    requests, the request for the time and one POST to the order endpoint
    of the host that [testnet] selects: its body is the JSON text of the
    payload, its timestamp header is the exchange's [time], and its
    signature header is the HMAC, under the secret, of timestamp, key,
    receive window and that same body.  The local clock is not read.  The
    numbers among the fields of the order and the exchange's time are
    decimals of at most 15 significant digits, whose text is the one the
    code prints. *)
Theorem V5_signs_what_it_sends (p : OrderParams.t) (w : world) (d : response_data) :
  time_given w (time_request (OrderParams.testnet p)) = Some d ->
  printable (get (fields d) "time") = true ->
  printable_order p = true ->
  sent (snd (BybitV5.executeBybitOrder p w))
  = app (sent w)
      [ time_request (OrderParams.testnet p);
        V5_order_request p (ToString (get (fields d) "time")) ]
  /\ reads (snd (BybitV5.executeBybitOrder p w)) = reads w.
Proof.
  unfold time_given. intros H _ _.
  remember (BybitV5.executeBybitOrder p w) as out eqn:E.
  unfold BybitV5.executeBybitOrder, BybitV5.executeBybitOrderWith in E.
  unfold bind at 1 in E. rewrite getServerTimestamp_run in E.
  destruct (exchange w _) as [d'|e]; [|discriminate].
  destruct (strict_eq _ _); [|discriminate]. inversion H. subst d'.
  unfold bind, axios in E. cbn [default_param ToString] in E.
  change (exchange (record_sent (time_request (OrderParams.testnet p)) w))
    with (exchange w) in E.
  set (order := {| http_method := "POST"; http_url := _; http_data := _;
                   http_headers := _ |}) in E.
  change order with (V5_order_request p (ToString (get (fields d) "time"))) in E.
  clear order.
  destruct (exchange w (V5_order_request p _)) as [d2|e2].
  - destruct (strict_eq (get (fields d2) "retCode") (VNum 0)); cbn [negb] in E.
    + destruct (result d2) as [[]|]; subst out; simpl; rewrite <- app_assoc;
        split; reflexivity.
    + subst out. simpl. rewrite <- app_assoc. split; reflexivity.
  - subst out. simpl. rewrite <- app_assoc. split; reflexivity.
Qed.

Lemma V5_signs_what_it_sends_witness :
  let w :=
    Sample.world_with Sample.bot [Sample.apiKey]
      (fun r => Resolved {| fields := [("retCode", VNum 0); ("time", VNum 1700000000123)];
                            result := Object [("orderId", VStr "o-5")] |})
      Sample.healthy in
  sent (snd (BybitV5.executeBybitOrder small_order w))
  = [ time_request (VBool false); V5_order_request small_order "1700000000123" ]
  /\ reads (snd (BybitV5.executeBybitOrder small_order w)) = 0%nat.
Proof.
  apply (V5_signs_what_it_sends small_order
           (Sample.world_with Sample.bot [Sample.apiKey]
              (fun r => Resolved {| fields := [("retCode", VNum 0);
                                               ("time", VNum 1700000000123)];
                                    result := Object [("orderId", VStr "o-5")] |})
              Sample.healthy)
           {| fields := [("retCode", VNum 0); ("time", VNum 1700000000123)];
              result := Object [("orderId", VStr "o-5")] |}).
  - reflexivity.
  - vm_compute. reflexivity.
  - vm_compute. reflexivity.
Defined.

(** The body that goes out for the small order: the quantity in exponent
    form, the stop loss of zero as a string, no take profit. *)
Example small_order_body :
  http_data (V5_order_request small_order "1700000000123")
  = TextData (JSON_stringify
                [ ("category", VStr "linear"); ("symbol", VStr "BTCUSDT");
                  ("side", VStr "Buy"); ("orderType", VStr "Limit");
                  ("qty", VStr "1e-7"); ("timeInForce", VStr "PostOnly");
                  ("price", VStr "65000.5"); ("stopLoss", VStr "0") ]).
Proof. vm_compute. reflexivity. Qed.

(** X13: the V5 client returns an order result only when the exchange has
    given its time and has resolved the order request with [retCode === 0];
    the result then carries the exchange's [orderId] and [orderStatus], the
    symbol, side, order type and quantity of the parameters, and their price
    or, when that is falsy, null. *)
Theorem V5_reported_orders_were_accepted (p : OrderParams.t) (w : world)
  (r : OrderResult.t) :
  fst (BybitV5.executeBybitOrder p w) = Returned r ->
  exists d answer,
    time_given w (time_request (OrderParams.testnet p)) = Some d
    /\ exchange w (V5_order_request p (ToString (get (fields d) "time"))) = Resolved answer
    /\ strict_eq (get (fields answer) "retCode") (VNum 0) = true
    /\ r = OrderResult.mk (property (result answer) "orderId") (OrderParams.symbol p)
             (OrderParams.side p) (OrderParams.orderType p) (OrderParams.quantity p)
             (logical_or (OrderParams.price p) VNull)
             (property (result answer) "orderStatus").
Proof.
  unfold time_given.
  unfold BybitV5.executeBybitOrder, BybitV5.executeBybitOrderWith.
  unfold bind at 1. rewrite getServerTimestamp_run.
  destruct (exchange w (time_request _)) as [d|e]; [|discriminate].
  destruct (strict_eq (get (fields d) "retCode") (VNum 0)) eqn:Ed; [|discriminate].
  unfold bind, axios. cbn [default_param ToString].
  change (exchange (record_sent (time_request (OrderParams.testnet p)) w))
    with (exchange w).
  set (order := {| http_method := "POST"; http_url := _; http_data := _;
                   http_headers := _ |}).
  change order with (V5_order_request p (ToString (get (fields d) "time"))).
  clear order.
  destruct (exchange w (V5_order_request p _)) as [answer|e] eqn:Ea; [|discriminate].
  destruct (strict_eq (get (fields answer) "retCode") (VNum 0)) eqn:Ec; [|discriminate].
  cbn [negb]. intros H. exists d, answer.
  split; [reflexivity|]. split; [exact Ea|]. split; [exact Ec|].
  destruct (result answer) as [[]|o]; simpl in H; inversion H; reflexivity.
Qed.

Lemma V5_reported_orders_were_accepted_witness :
  let answer :=
    {| fields := [("retCode", VNum 0); ("time", VNum 1700000000123)];
       result := Object [("orderId", VStr "o-5"); ("orderStatus", VStr "New")] |} in
  let w := Sample.world_with Sample.bot [Sample.apiKey] (fun r => Resolved answer)
             Sample.healthy in
  exists d answer',
    time_given w (time_request (VBool false)) = Some d
    /\ exchange w (V5_order_request Sample.market_order (ToString (get (fields d) "time")))
       = Resolved answer'
    /\ strict_eq (get (fields answer') "retCode") (VNum 0) = true
    /\ OrderResult.mk (VStr "o-5") (VStr "BTCUSD") (VStr "Buy") (VStr "Market") (VNum 100)
         VNull (VStr "New")
       = OrderResult.mk (property (result answer') "orderId") (VStr "BTCUSD") (VStr "Buy")
           (VStr "Market") (VNum 100) VNull (property (result answer') "orderStatus").
Proof.
  apply (V5_reported_orders_were_accepted Sample.market_order
           (Sample.world_with Sample.bot [Sample.apiKey]
              (fun r => Resolved
                 {| fields := [("retCode", VNum 0); ("time", VNum 1700000000123)];
                    result := Object [("orderId", VStr "o-5");
                                      ("orderStatus", VStr "New")] |})
              Sample.healthy)
           (OrderResult.mk (VStr "o-5") (VStr "BTCUSD") (VStr "Buy") (VStr "Market")
              (VNum 100) VNull (VStr "New"))).
  vm_compute. reflexivity.
Defined.

(** ** The parameters on the wire *)

(** X14: of the parameters of a legacy order, [price] is present exactly
    for the order type 'Limit' (with whatever price was given, undefined
    included), [stop_loss] and [take_profit] exactly when the given value is
    truthy (a stop loss of 0 is left out); the keys are distinct, and
    [timestamp] and [sign] are not among them before stamping. *)
Theorem legacy_params_optional (p : OrderParams.t) :
  has (legacy_params p) "price" = strict_eq (OrderParams.orderType p) (VStr "Limit")
  /\ has (legacy_params p) "stop_loss" = truthy (OrderParams.stopLoss p)
  /\ has (legacy_params p) "take_profit" = truthy (OrderParams.takeProfit p)
  /\ get (legacy_params p) "price"
     = (if strict_eq (OrderParams.orderType p) (VStr "Limit")
        then OrderParams.price p else VUndefined)
  /\ get (legacy_params p) "stop_loss"
     = (if truthy (OrderParams.stopLoss p) then OrderParams.stopLoss p else VUndefined)
  /\ get (legacy_params p) "take_profit"
     = (if truthy (OrderParams.takeProfit p) then OrderParams.takeProfit p else VUndefined)
  /\ NoDup (keys (legacy_params p))
  /\ has (legacy_params p) "timestamp" = false
  /\ has (legacy_params p) "sign" = false.
Proof.
  unfold legacy_params.
  destruct (strict_eq (OrderParams.orderType p) (VStr "Limit"));
    destruct (truthy (OrderParams.stopLoss p));
    destruct (truthy (OrderParams.takeProfit p));
    cbn; repeat split; repeat constructor; simpl; intuition discriminate.
Qed.

(** X15: in the payload of a V5 order, [price] is present exactly for the
    order type 'Limit' with a price that is neither null nor undefined,
    [stopLoss] and [takeProfit] exactly when the given value is neither null
    nor undefined (a stop loss of 0 is sent); quantity, price, stop loss and
    take profit go out as the strings of their values, where a number is a
    decimal of at most 15 significant digits, whose string is the one the
    code prints. *)
Theorem V5_payload_optional (category : value) (p : OrderParams.t) :
  printable_order p = true ->
  let payload := BybitV5.payload category p in
  has payload "price"
  = strict_eq (OrderParams.orderType p) (VStr "Limit") && not_null (OrderParams.price p)
  /\ has payload "stopLoss" = not_null (OrderParams.stopLoss p)
  /\ has payload "takeProfit" = not_null (OrderParams.takeProfit p)
  /\ get payload "qty" = VStr (ToString (OrderParams.quantity p))
  /\ (has payload "price" = true ->
      get payload "price" = VStr (ToString (OrderParams.price p)))
  /\ (has payload "stopLoss" = true ->
      get payload "stopLoss" = VStr (ToString (OrderParams.stopLoss p)))
  /\ (has payload "takeProfit" = true ->
      get payload "takeProfit" = VStr (ToString (OrderParams.takeProfit p)))
  /\ NoDup (keys payload).
Proof.
  intros _. cbv zeta. unfold BybitV5.payload.
  destruct (strict_eq (OrderParams.orderType p) (VStr "Limit"));
    destruct (not_null (OrderParams.price p));
    destruct (not_null (OrderParams.stopLoss p));
    destruct (not_null (OrderParams.takeProfit p));
    cbn; repeat split; try discriminate; repeat constructor; simpl; intuition discriminate.
Qed.

Lemma V5_payload_optional_witness :
  let payload := BybitV5.payload (VStr "linear") small_order in
  has payload "price" = true
  /\ has payload "stopLoss" = true
  /\ has payload "takeProfit" = false
  /\ get payload "qty" = VStr "1e-7"
  /\ (has payload "price" = true -> get payload "price" = VStr "65000.5")
  /\ (has payload "stopLoss" = true -> get payload "stopLoss" = VStr "0")
  /\ (has payload "takeProfit" = true -> get payload "takeProfit" = VStr "null")
  /\ NoDup (keys payload).
Proof.
  apply (V5_payload_optional (VStr "linear") small_order).
  vm_compute. reflexivity.
Defined.

(** ** The signed string and the order of the properties *)

Lemma get_permutation (o o' : obj) (k : string) :
  NoDup (keys o) -> Permutation o o' -> get o k = get o' k.
Proof.
  intros Hn Hp. induction Hp as [|[k0 v0] l l' Hp IH|[k1 v1] [k2 v2] l|l l' l'' H1 IH1 H2 IH2].
  - reflexivity.
  - simpl. inversion Hn. subst. destruct (k =? k0)%string; [reflexivity | now apply IH].
  - simpl. destruct (k =? k1)%string eqn:E1; destruct (k =? k2)%string eqn:E2;
      try reflexivity.
    apply String.eqb_eq in E1, E2. subst. inversion Hn. subst. simpl in *. tauto.
  - rewrite IH1 by exact Hn. apply IH2.
    unfold keys. eapply Permutation_NoDup; [|exact Hn]. now apply Permutation_map.
Qed.

Lemma sort_permutation (l l' : list string) : Permutation l l' -> sort l = sort l'.
Proof.
  intros H. apply ascending_unique; try apply sort_ascending.
  rewrite !sort_perm. exact H.
Qed.

Lemma pairs_permutation (o o' : obj) :
  NoDup (keys o) -> Permutation o o' ->
  map (fun key => key ++ "=" ++ ToString (get o key)) (sort (keys o))
  = map (fun key => key ++ "=" ++ ToString (get o' key)) (sort (keys o')).
Proof.
  intros Hn Hp.
  rewrite (sort_permutation (keys o) (keys o')) by (unfold keys; now apply Permutation_map).
  apply map_ext. intros k. now rewrite (get_permutation o o' k Hn Hp).
Qed.

(** X16: the signers do not depend on the order in which the caller wrote
    the properties: two parameter objects with the same properties (distinct
    keys, as in any object) in different insertion orders get the same
    signed string from each of the three legacy revisions, hence the same
    signature. *)
Theorem signature_ignores_insertion_order (apiSecret : string) (params params' : obj) :
  NoDup (keys params) ->
  Permutation params params' ->
  BybitV2c.generateSignature apiSecret params = BybitV2c.generateSignature apiSecret params'
  /\ BybitV2b.queryString params = BybitV2b.queryString params'
  /\ forall timestamp,
       BybitV2a.signed_string params timestamp = BybitV2a.signed_string params' timestamp.
Proof.
  intros Hn Hp. pose proof (pairs_permutation params params' Hn Hp) as E.
  split; [|split].
  - unfold BybitV2c.generateSignature, BybitV2c.queryString. now rewrite E.
  - unfold BybitV2b.queryString. now rewrite E.
  - intros timestamp. rewrite !BybitV2a_signed_string. unfold pair_of. now rewrite E.
Qed.

Lemma signature_ignores_insertion_order_witness :
  BybitV2c.generateSignature "s" [("symbol", VStr "BTCUSD"); ("api_key", VStr "k")]
  = BybitV2c.generateSignature "s" [("api_key", VStr "k"); ("symbol", VStr "BTCUSD")]
  /\ BybitV2b.queryString [("symbol", VStr "BTCUSD"); ("api_key", VStr "k")]
     = BybitV2b.queryString [("api_key", VStr "k"); ("symbol", VStr "BTCUSD")]
  /\ forall timestamp,
       BybitV2a.signed_string [("symbol", VStr "BTCUSD"); ("api_key", VStr "k")] timestamp
       = BybitV2a.signed_string [("api_key", VStr "k"); ("symbol", VStr "BTCUSD")] timestamp.
Proof.
  apply (signature_ignores_insertion_order "s"
           [("symbol", VStr "BTCUSD"); ("api_key", VStr "k")]
           [("api_key", VStr "k"); ("symbol", VStr "BTCUSD")]).
  - repeat constructor; simpl; intuition discriminate.
  - apply perm_swap.
Defined.

(** ** The position queries *)

Lemma positions_result_run (d : response_data) (w : world) :
  positions_result d w
  = (if strict_eq (get (fields d) "ret_code") (VNum 0) then Returned (result d)
     else Thrown (Error ("Bybit API error: " ++ ToString (get (fields d) "ret_msg"))),
     w).
Proof. unfold positions_result. destruct (strict_eq _ _); reflexivity. Qed.

Lemma describe_positions_failure_announced {A} (e : error) (w : world) :
  exists e', @describe_positions_failure A e w = (Thrown e', w)
             /\ announced "Failed to get positions: " e'.
Proof.
  unfold describe_positions_failure. destruct (response e) as [[status text]|].
  - eexists. split; [reflexivity | apply prefix_append].
  - destruct (request e); eexists; (split; [reflexivity|]);
      [reflexivity | apply prefix_append].
Qed.

Lemma get_then_positions (url : string) (d : data) (h : error -> M nested) (w : world) :
  (forall e w', exists e', h e w' = (Thrown e', w')
                           /\ announced "Failed to get positions: " e') ->
  (forall msg w', h (Error msg) w' = (Thrown (Error ("Failed to get positions: " ++ msg)), w')) ->
  let request :=
    {| http_method := "GET"; http_url := url; http_data := d; http_headers := [] |} in
  let run := try_catch (response <- axios "GET" url d [] ;; positions_result response) h w in
  snd run = record_sent request w
  /\ positions_outcome (exchange w request) (fst run).
Proof.
  intros Hh Hm. cbv zeta. unfold try_catch, bind, axios, positions_outcome.
  destruct (exchange w _) as [answer|e].
  - rewrite positions_result_run.
    destruct (strict_eq _ _); [split; reflexivity|].
    rewrite Hm. split; reflexivity.
  - destruct (Hh e (record_sent
        {| http_method := "GET"; http_url := url; http_data := d; http_headers := [] |} w))
      as (e' & He & Ha).
    rewrite He. split; [reflexivity|]. now exists e'.
Qed.

Lemma BybitV2aPositions_run (p : PositionParams.t) (w : world) :
  BybitV2aPositions.getBybitPositions p w
  = let timestamp := IntegerToString (clock w (reads w)) in
    let params :=
      [ ("api_key", VStr (PositionParams.apiKey p));
        ("symbol", PositionParams.symbol p) ] in
    let signature :=
      Crypto.hmac_sha256 (PositionParams.apiSecret p)
        (BybitV2a.signed_string params timestamp) in
    try_catch
      (response <-
         axios "GET"
           (BybitV2a.baseUrl (PositionParams.testnet p) ++ "/v2/private/position/list")
           (ObjectData (set (set params "timestamp" (VStr timestamp))
                            "sign" (VStr signature))) [] ;;
       positions_result response)
      (fun error => throw (Error ("Failed to get positions: " ++ message error)))
      (tick w).
Proof. reflexivity. Qed.

Lemma BybitV2bPositions_run (p : PositionParams.t) (w : world) :
  BybitV2bPositions.getBybitPositions p w
  = try_catch
      (response <-
         axios "GET"
           (http_url (positions_request p (clock w (reads w)) (clock w (S (reads w)))))
           NoData [] ;;
       positions_result response)
      describe_positions_failure (tick (tick w)).
Proof. reflexivity. Qed.

Lemma BybitV2cPositions_run (p : PositionParams.t) (w : world) :
  BybitV2cPositions.getBybitPositions p w
  = try_catch
      (response <-
         axios "GET"
           (http_url (positions_request p (clock w (reads w)) (clock w (reads w))))
           NoData [] ;;
       positions_result response)
      describe_positions_failure (tick w).
Proof. reflexivity. Qed.

(** X17: each legacy revision of [getBybitPositions] sends exactly one
    request, a GET; when the exchange resolves it with [ret_code === 0] the
    query returns the [result] of the answer as it is; with another
    [ret_code] it throws 'Failed to get positions: Bybit API error: '
    followed by the exchange's [ret_msg]; when the request is rejected it
    throws an error whose message starts with 'Failed to get positions: '. *)
Theorem positions_are_the_exchange_result (query : PositionParams.t -> M nested)
  (p : PositionParams.t) (w : world) :
  In query legacy_position_queries ->
  exists request,
    sent (snd (query p w)) = app (sent w) [request]
    /\ http_method request = "GET"
    /\ positions_outcome (exchange w request) (fst (query p w)).
Proof.
  intros [H|[H|[H|[]]]]; subst query.
  - rewrite BybitV2aPositions_run. cbv zeta.
    edestruct get_then_positions as [Hs Ho]; [| |rewrite Hs; eexists; split;
      [reflexivity|]; split; [reflexivity | exact Ho]].
    + intros e w'. eexists. split; [reflexivity | apply prefix_append].
    + reflexivity.
  - rewrite BybitV2bPositions_run.
    edestruct get_then_positions as [Hs Ho]; [| |rewrite Hs; eexists; split;
      [reflexivity|]; split; [reflexivity | exact Ho]].
    + intros e w'. apply describe_positions_failure_announced.
    + reflexivity.
  - rewrite BybitV2cPositions_run.
    edestruct get_then_positions as [Hs Ho]; [| |rewrite Hs; eexists; split;
      [reflexivity|]; split; [reflexivity | exact Ho]].
    + intros e w'. apply describe_positions_failure_announced.
    + reflexivity.
Qed.

Lemma positions_are_the_exchange_result_witness :
  exists request,
    sent (snd (BybitV2aPositions.getBybitPositions
                 (PositionParams.mk "k" "s" (VStr "BTCUSD") VUndefined)
                 (Sample.world_with Sample.bot [] Sample.accepting Sample.healthy)))
    = [request]
    /\ http_method request = "GET"
    /\ positions_outcome (Sample.accepting request)
         (fst (BybitV2aPositions.getBybitPositions
                 (PositionParams.mk "k" "s" (VStr "BTCUSD") VUndefined)
                 (Sample.world_with Sample.bot [] Sample.accepting Sample.healthy))).
Proof.
  apply (positions_are_the_exchange_result BybitV2aPositions.getBybitPositions
           (PositionParams.mk "k" "s" (VStr "BTCUSD") VUndefined)
           (Sample.world_with Sample.bot [] Sample.accepting Sample.healthy)).
  simpl. auto.
Defined.

(** X18: the two form-encoded revisions of [getBybitPositions] put
    [api_key], [symbol], [timestamp] and [sign] in the query of the URL,
    the timestamp being the first reading of the clock.  The later revision
    signs 'api_key=..&symbol=..&timestamp=..' with that same timestamp; the
    earlier one signs it with the timestamp of a second reading of the
    clock, so that its signature covers the timestamp it sends only when the
    two readings agree. *)
Theorem positions_query_stamps (p : PositionParams.t) (w : world) :
  sent (snd (BybitV2cPositions.getBybitPositions p w))
  = app (sent w) [positions_request p (clock w (reads w)) (clock w (reads w))]
  /\ sent (snd (BybitV2bPositions.getBybitPositions p w))
     = app (sent w) [positions_request p (clock w (reads w)) (clock w (S (reads w)))].
Proof.
  split.
  - rewrite BybitV2cPositions_run.
    edestruct get_then_positions as [Hs _]; [| |rewrite Hs; reflexivity].
    + intros e w'. apply describe_positions_failure_announced.
    + reflexivity.
  - rewrite BybitV2bPositions_run.
    edestruct get_then_positions as [Hs _]; [| |rewrite Hs; reflexivity].
    + intros e w'. apply describe_positions_failure_announced.
    + reflexivity.
Qed.

(** X19: when the exchange gives its time, the V5 revision of
    [getBybitPositions] sends the request for the time and one GET whose URL
    ends in the query 'category=linear&symbol=' followed by the symbol as
    written (not URL-encoded), signed over timestamp, key, receive window
    and that same query string with the exchange's time; it returns the
    [result] of the answer when [retCode] is 0, throws 'Bybit API error
    <retCode>: <retMsg>' when it is not, and rethrows a rejection as it
    is. *)
Theorem V5_positions_signs_its_query (p : PositionParams.t) (w : world)
  (d : response_data) :
  time_given w (time_request (PositionParams.testnet p)) = Some d ->
  let query := V5_positions_request p (ToString (get (fields d) "time")) in
  sent (snd (BybitV5Positions.getBybitPositions p w))
  = app (sent w) [time_request (PositionParams.testnet p); query]
  /\ fst (BybitV5Positions.getBybitPositions p w)
     = match exchange w query with
       | Resolved a =>
           if strict_eq (get (fields a) "retCode") (VNum 0) then Returned (result a)
           else Thrown (Error ("Bybit API error " ++ ToString (get (fields a) "retCode")
                                 ++ ": " ++ ToString (get (fields a) "retMsg")))
       | Rejected e => Thrown e
       end.
Proof.
  unfold time_given. intros H. cbv zeta.
  remember (BybitV5Positions.getBybitPositions p w) as out eqn:E.
  unfold BybitV5Positions.getBybitPositions, BybitV5Positions.getBybitPositionsWith in E.
  unfold bind at 1 in E. rewrite getServerTimestamp_run in E.
  destruct (exchange w (time_request _)) as [d'|e]; [|discriminate].
  destruct (strict_eq _ _); [|discriminate]. inversion H. subst d'.
  unfold bind, axios in E. cbn [default_param ToString] in E.
  change (exchange (record_sent (time_request (PositionParams.testnet p)) w))
    with (exchange w) in E.
  set (query := {| http_method := "GET"; http_url := _; http_data := _;
                   http_headers := _ |}) in E.
  change query with (V5_positions_request p (ToString (get (fields d) "time"))) in E.
  clear query.
  destruct (exchange w (V5_positions_request p _)) as [a|e].
  - destruct (strict_eq (get (fields a) "retCode") (VNum 0)); cbn [negb] in E;
      subst out; simpl; rewrite <- app_assoc; split; reflexivity.
  - subst out. simpl. rewrite <- app_assoc. split; reflexivity.
Qed.

Lemma V5_positions_signs_its_query_witness :
  let w :=
    Sample.world_with Sample.bot []
      (fun r => Resolved {| fields := [("retCode", VNum 0); ("time", VNum 1700000000123)];
                            result := Object [("category", VStr "linear")] |})
      Sample.healthy in
  let p := PositionParams.mk "k" "s" (VStr "BTCUSDT") VUndefined in
  let query := V5_positions_request p "1700000000123" in
  sent (snd (BybitV5Positions.getBybitPositions p w)) = [time_request VUndefined; query]
  /\ fst (BybitV5Positions.getBybitPositions p w)
     = Returned (Object [("category", VStr "linear")]).
Proof.
  apply (V5_positions_signs_its_query
           (PositionParams.mk "k" "s" (VStr "BTCUSDT") VUndefined)
           (Sample.world_with Sample.bot []
              (fun r => Resolved {| fields := [("retCode", VNum 0);
                                               ("time", VNum 1700000000123)];
                                    result := Object [("category", VStr "linear")] |})
              Sample.healthy)
           {| fields := [("retCode", VNum 0); ("time", VNum 1700000000123)];
              result := Object [("category", VStr "linear")] |}).
  reflexivity.
Defined.

(** ** The webhook generator *)

Lemma lookup_run (pf : GenerateWebhook.platform) (name : string) (w : world) :
  GenerateWebhook.lookup pf name w
  = match lookup_error pf w name with
    | Some e => (Thrown e, w)
    | None => (Returned (variable pf w name), w)
    end.
Proof.
  unfold GenerateWebhook.lookup, lookup_error, variable, Deno_env_get.
  destruct (GenerateWebhook.has_process pf); [|reflexivity]. cbn [negb].
  destruct (unset (GenerateWebhook.process_env pf name)); [|reflexivity].
  destruct (deno w); reflexivity.
Qed.

Lemma lookup_error_deno (pf : GenerateWebhook.platform) (w' w : world) (name : string) :
  deno w' = deno w -> lookup_error pf w' name = lookup_error pf w name.
Proof. intros H. unfold lookup_error. now rewrite H. Qed.

(** The generator before its [try] statement: the two checks, the lookups
    of the variables and the making of the client, which are where it can
    reject. *)
Lemma generateWebhook_cases (pf : GenerateWebhook.platform)
  (req : GenerateWebhook.request) (w : world) :
  GenerateWebhook.generateWebhook pf req w
  = if (GenerateWebhook.method req =? "OPTIONS")%string then
      (Returned (Response.mk 204 corsHeaders None), w)
    else if negb (GenerateWebhook.method req =? "POST")%string then
      (Returned (json_response 405 [("error", VStr "Method not allowed")]), w)
    else
      match lookup_error pf w "SUPABASE_URL", lookup_error pf w "SUPABASE_SERVICE_KEY" with
      | Some e, _ => (Thrown e, w)
      | None, Some e => (Thrown e, w)
      | None, None =>
          if unset (variable pf w "SUPABASE_URL")
             || unset (variable pf w "SUPABASE_SERVICE_KEY") then
            (Returned (json_response 500 [("error", VStr "Server configuration error")]), w)
          else
            match client_error w (variable pf w "SUPABASE_URL")
                    (variable pf w "SUPABASE_SERVICE_KEY") with
            | Some e => (Thrown e, w)
            | None =>
                try_catch (GenerateWebhook.generate pf req)
                  (fun error => ret (json_response 500 [("error", VStr (message error))])) w
            end
      end.
Proof.
  unfold GenerateWebhook.generateWebhook.
  destruct (GenerateWebhook.method req =? "OPTIONS")%string; [reflexivity|].
  destruct (GenerateWebhook.method req =? "POST")%string; [|reflexivity]. cbn [negb].
  unfold bind at 1. rewrite lookup_run.
  destruct (lookup_error pf w "SUPABASE_URL"); [reflexivity|].
  unfold bind at 1. rewrite lookup_run.
  destruct (lookup_error pf w "SUPABASE_SERVICE_KEY"); [reflexivity|].
  destruct (unset _ || unset _); [reflexivity|].
  unfold bind, createClient. now destruct (client_error w _ _).
Qed.

Lemma configured_lookup (pf : GenerateWebhook.platform) (w : world) (name : string) :
  generator_configured pf w = true -> lookup_error pf w name = None.
Proof.
  unfold generator_configured, lookup_error. intros H.
  apply andb_prop in H. destruct H as [H _].
  apply andb_prop in H. destruct H as [H _].
  apply andb_prop in H. destruct H as [H _].
  apply andb_prop in H. destruct H as [Hp Hd]. rewrite Hp, Hd. cbn [negb].
  now rewrite andb_false_r.
Qed.

Lemma generateWebhook_post (pf : GenerateWebhook.platform) (req : GenerateWebhook.request)
  (w : world) :
  GenerateWebhook.method req = "POST" ->
  generator_configured pf w = true ->
  GenerateWebhook.generateWebhook pf req w
  = try_catch (GenerateWebhook.generate pf req)
      (fun error => ret (json_response 500 [("error", VStr (message error))])) w.
Proof.
  intros Hm Hc. rewrite generateWebhook_cases, Hm. simpl.
  rewrite !(configured_lookup pf w) by exact Hc.
  unfold generator_configured in Hc.
  apply andb_prop in Hc. destruct Hc as [Hc H3].
  apply andb_prop in Hc. destruct Hc as [Hc H2].
  apply andb_prop in Hc. destruct Hc as [_ H1].
  apply negb_true_iff in H1, H2. rewrite H1, H2. simpl.
  now destruct (client_error w _ _).
Qed.

Lemma generate_cases (pf : GenerateWebhook.platform) (req : GenerateWebhook.request)
  (w : world) :
  match GenerateWebhook.json req with
  | Request.Malformed e => GenerateWebhook.generate pf req w = (Thrown e, w)
  | Request.Parsed body =>
      match readable body with
      | None => exists e, GenerateWebhook.generate pf req w = (Thrown e, w)
      | Some o =>
          if negb (truthy (get o "userId")) || negb (truthy (get o "botId")) then
            GenerateWebhook.generate pf req w
            = (Returned (json_response 400 [("error", VStr "Missing required fields")]), w)
          else
            match expiration pf o (clock w (reads w)) with
            | None =>
                GenerateWebhook.generate pf req w
                = (Thrown (Error "Invalid time value"), tick w)
            | Some expires =>
                match GenerateWebhook.insert_error pf with
                | Some e => GenerateWebhook.generate pf req w = (Thrown e, tick (tick w))
                | None =>
                    GenerateWebhook.generate pf req w
                    = (match lookup_error pf w "URL" with
                       | Some e => Thrown e
                       | None => Returned (generated_answer pf req w expires)
                       end,
                       with_webhook
                         (generated_row pf o expires (clock w (S (reads w))))
                         (tick (tick w)))
                end
            end
      end
  end.
Proof.
  unfold GenerateWebhook.generate, req_json. cbn [Request.json].
  destruct (GenerateWebhook.json req) as [e|body]; [reflexivity|].
  rewrite bind_ret_l.
  destruct body as [[]|o]; cbn [readable GenerateWebhook.destructure];
    try (eexists; reflexivity); rewrite bind_ret_l.
  all: destruct (negb (truthy (get _ "userId")) || negb (truthy (get _ "botId")));
    [reflexivity|].
  all: rewrite bind_Date_now; unfold GenerateWebhook.expirationDate, expiration.
  all: destruct (GenerateWebhook.expiry pf _ _) as [expires|]; [|reflexivity].
  all: rewrite bind_ret_l, bind_Date_now.
  all: unfold bind at 1; unfold GenerateWebhook.insert_webhook.
  all: destruct (GenerateWebhook.insert_error pf) as [e|]; [reflexivity|].
  all: unfold bind; rewrite lookup_run.
  all: rewrite (lookup_error_deno pf _ w) by reflexivity.
  all: destruct (lookup_error pf w "URL"); reflexivity.
Qed.

Lemma generated_answer_ok (pf : GenerateWebhook.platform) (req : GenerateWebhook.request)
  (w : world) (expires : Z) :
  Response.status (generated_answer pf req w expires) = 200.
Proof. reflexivity. Qed.



(** A run of the generator that ends in a JSON response other than 200 and
    has stored nothing. *)
Ltac unstored :=
  cbn [fst snd ret]; repeat (split; [reflexivity|]); right; eexists;
  split; [reflexivity|]; split; [simpl; auto 7|]; split; [apply json_response_cors|];
  right; left; split; [discriminate | reflexivity].

(** X21: the generator sends nothing to the exchange and leaves bots,
    credentials and trades alone, and it ends in one of four ways.  It
    rejects, before anything is read or written, when a global it reads does
    not exist or [createClient] refuses the variables.  It answers 200, and
    then the webhook table has gained exactly one row, with the token drawn
    from [nanoid].  It answers 204, 400, 405 or 500 with the table
    unchanged.  Or, where [Deno] does not exist and the lookup of the base
    URL needs it, it answers 500 after the row has been stored.  Every
    response carries the CORS headers. *)
Theorem generator_answers_and_stores (pf : GenerateWebhook.platform)
  (req : GenerateWebhook.request) (w : world) :
  let out := GenerateWebhook.generateWebhook pf req w in
  sent (snd out) = sent w /\ bots (snd out) = bots w
  /\ api_keys (snd out) = api_keys w /\ trades (snd out) = trades w
  /\ ((exists e,
         out = (Thrown e, w)
         /\ GenerateWebhook.method req = "POST"
         /\ (GenerateWebhook.has_process pf = false
             \/ deno w = false
             \/ client_error w (variable pf w "SUPABASE_URL")
                  (variable pf w "SUPABASE_SERVICE_KEY") = Some e))
      \/ exists r,
           fst out = Returned r
           /\ In (Response.status r) [200; 204; 400; 405; 500]
           /\ incl corsHeaders (Response.headers r)
           /\ ((Response.status r = 200
                /\ exists row,
                     webhooks (snd out) = app (webhooks w) [row]
                     /\ Webhook.webhook_token row = GenerateWebhook.nanoid pf)
               \/ (Response.status r <> 200 /\ webhooks (snd out) = webhooks w)
               \/ (Response.status r = 500
                   /\ deno w = false
                   /\ exists row,
                        webhooks (snd out) = app (webhooks w) [row]
                        /\ Webhook.webhook_token row = GenerateWebhook.nanoid pf))).
Proof.
  cbv zeta. rewrite generateWebhook_cases.
  destruct (GenerateWebhook.method req =? "OPTIONS")%string.
  { repeat (split; [reflexivity|]). right. eexists. split; [reflexivity|].
    split; [simpl; auto|]. split; [apply incl_refl|].
    right. left. split; [discriminate | reflexivity]. }
  destruct (GenerateWebhook.method req =? "POST")%string eqn:Em; cbn [negb];
    [|unstored].
  apply String.eqb_eq in Em.
  assert (missing : forall name e,
             lookup_error pf w name = Some e ->
             GenerateWebhook.has_process pf = false \/ deno w = false).
  { intros name e. unfold lookup_error.
    destruct (GenerateWebhook.has_process pf); [|now left].
    destruct (deno w); [|now right].
    cbn [negb]. rewrite andb_false_r. discriminate. }
  destruct (lookup_error pf w "SUPABASE_URL") as [e|] eqn:E1.
  { cbn [fst snd]. repeat (split; [reflexivity|]). left. exists e.
    split; [reflexivity|]. split; [exact Em|].
    destruct (missing _ _ E1); auto. }
  destruct (lookup_error pf w "SUPABASE_SERVICE_KEY") as [e|] eqn:E2.
  { cbn [fst snd]. repeat (split; [reflexivity|]). left. exists e.
    split; [reflexivity|]. split; [exact Em|].
    destruct (missing _ _ E2); auto. }
  destruct (unset _ || unset _); [unstored|].
  destruct (client_error w _ _) as [e|] eqn:Ec.
  { cbn [fst snd]. repeat (split; [reflexivity|]). left. exists e.
    split; [reflexivity|]. split; [exact Em|]. auto. }
  unfold try_catch.
  pose proof (generate_cases pf req w) as H.
  destruct (GenerateWebhook.json req) as [e|body]; [rewrite H; unstored|].
  destruct (readable body) as [o|]; [|destruct H as [e H]; rewrite H; unstored].
  destruct (negb (truthy (get o "userId")) || negb (truthy (get o "botId")));
    [rewrite H; unstored|].
  destruct (expiration pf o _) as [expires|]; [|rewrite H; unstored].
  destruct (GenerateWebhook.insert_error pf) as [e|]; [rewrite H; unstored|].
  rewrite H. destruct (lookup_error pf w "URL") as [e|] eqn:E3; cbn [fst snd ret].
  - repeat (split; [reflexivity|]). right. eexists.
    split; [reflexivity|]. split; [simpl; auto 7|]. split; [apply json_response_cors|].
    right. right. split; [reflexivity|]. split.
    + destruct (missing _ _ E3) as [Hp|Hd]; [|exact Hd].
      unfold lookup_error in E1. rewrite Hp in E1. discriminate E1.
    + eexists. split; reflexivity.
  - repeat (split; [reflexivity|]). right. eexists.
    split; [reflexivity|]. split; [simpl; auto|]. split; [apply json_response_cors|].
    left. split; [reflexivity|]. eexists. split; reflexivity.
Qed.

(** ** From the generator to the alert processor *)

Lemma minted_free_of_slash (token : string) :
  minted token = true -> free_of "/" token = true.
Proof.
  unfold minted, free_of. intros H. apply andb_prop in H. destruct H as [_ H].
  rewrite forallb_forall in *. intros c Hc. specialize (H c Hc).
  destruct (Ascii.eqb c "/") eqn:E; [|reflexivity].
  apply Ascii.eqb_eq in E. subst c. discriminate H.
Qed.

Lemma absent_no_rows (rows : list Webhook.t) (token : string) (now : Z) :
  forallb (fun r => negb (Webhook.webhook_token r =? token)%string) rows = true ->
  filter (fun r => (Webhook.webhook_token r =? token)%string
                   && (now <? Webhook.expires_at r)%Z) rows = [].
Proof.
  intros H. apply no_live_row. rewrite forallb_forall in *.
  intros r Hr. now rewrite (H r Hr).
Qed.

(** X22: a generated webhook is one that the alert processor resolves.
    When the generator stores a row (POST, configured, truthy [userId] and
    [botId], a valid expiration, an insert that the store takes) with a
    token minted by [nanoid(32)] that no earlier row carries, it answers
    200 with the URL base + '/.netlify/functions/processAlert/' + token,
    where base is the URL variable or else the Host header; the token that
    the alert processor cuts from that URL is the stored one, and its
    webhook query, against the table the generator left, finds that row
    (of the user and bot of the body) at every time before the expiration,
    and no row from the expiration on. *)
Theorem generated_webhook_resolves (pf : GenerateWebhook.platform)
  (req : GenerateWebhook.request) (w : world) (body : nested) (o : obj) (expires : Z) :
  GenerateWebhook.method req = "POST" ->
  generator_configured pf w = true ->
  GenerateWebhook.json req = Request.Parsed body ->
  readable body = Some o ->
  truthy (get o "userId") = true ->
  truthy (get o "botId") = true ->
  expiration pf o (clock w (reads w)) = Some expires ->
  GenerateWebhook.insert_error pf = None ->
  minted (GenerateWebhook.nanoid pf) = true ->
  is_absent w (GenerateWebhook.nanoid pf) = true ->
  let url :=
    ToString (GenerateWebhook.baseUrl (variable pf w "URL") req)
    ++ "/.netlify/functions/processAlert/" ++ GenerateWebhook.nanoid pf in
  let row := generated_row pf o expires (clock w (S (reads w))) in
  fst (GenerateWebhook.generateWebhook pf req w)
  = Returned (json_response 200
                [ ("webhookUrl", VStr url);
                  ("expiresAt", VStr (GenerateWebhook.toISOString pf expires)) ])
  /\ webhooks (snd (GenerateWebhook.generateWebhook pf req w)) = app (webhooks w) [row]
  /\ forall (alert : Request.t) (w2 : world) (now : Z),
       Request.url alert = url ->
       webhooks w2 = webhooks (snd (GenerateWebhook.generateWebhook pf req w)) ->
       store_fails w2 SelectWebhook = false ->
       webhookToken alert = GenerateWebhook.nanoid pf
       /\ find_webhook w2 (webhookToken alert) now
          = (if (now <? expires)%Z then Some (join_bot w2 row) else None).
Proof.
  intros Hm Hc Hj Hr Hu Hb He Hi Hmint Habs. cbv zeta.
  rewrite generateWebhook_post by assumption. unfold try_catch.
  pose proof (generate_cases pf req w) as H.
  rewrite Hj, Hr, Hu, Hb, He, Hi, (configured_lookup pf w "URL" Hc) in H.
  cbn [negb orb] in H. rewrite H.
  split; [reflexivity|]. split; [reflexivity|].
  intros alert w2 now Hurl Hw2 Hf.
  assert (Ht : webhookToken alert = GenerateWebhook.nanoid pf).
  { unfold webhookToken. rewrite Hurl.
    change ("/.netlify/functions/processAlert/" ++ GenerateWebhook.nanoid pf)
      with ("/.netlify/functions/processAlert" ++ String "/" (GenerateWebhook.nanoid pf)).
    rewrite <- append_assoc. apply pop_split_free. now apply minted_free_of_slash. }
  split; [exact Ht|]. rewrite Ht.
  unfold find_webhook. rewrite Hf, Hw2. cbn [snd with_webhook webhooks].
  rewrite filter_app, absent_no_rows by exact Habs.
  cbn [filter app generated_row Webhook.webhook_token Webhook.expires_at].
  rewrite String.eqb_refl. cbn [andb].
  destruct (now <? expires)%Z; reflexivity.
Qed.

Lemma generated_webhook_resolves_witness :
  let w := Sample.world_with Sample.bot [Sample.apiKey] Sample.accepting Sample.healthy in
  let url :=
    "relay.example/.netlify/functions/processAlert/Uakgb_J5m9g-0JDMbcJqLJUakgb_J5m9" in
  let row :=
    generated_row sample_platform [("userId", VStr "user-1"); ("botId", VStr "bot-1")]
      1702592000000 1700000000001 in
  fst (GenerateWebhook.generateWebhook sample_platform sample_generation w)
  = Returned (json_response 200
                [ ("webhookUrl", VStr url); ("expiresAt", VStr "1702592000000") ])
  /\ webhooks (snd (GenerateWebhook.generateWebhook sample_platform sample_generation w))
     = [Sample.webhook; row]
  /\ forall (alert : Request.t) (w2 : world) (now : Z),
       Request.url alert = url ->
       webhooks w2
       = webhooks (snd (GenerateWebhook.generateWebhook sample_platform sample_generation w)) ->
       store_fails w2 SelectWebhook = false ->
       webhookToken alert = "Uakgb_J5m9g-0JDMbcJqLJUakgb_J5m9"
       /\ find_webhook w2 (webhookToken alert) now
          = (if (now <? 1702592000000)%Z then Some (join_bot w2 row) else None).
Proof.
  apply (generated_webhook_resolves sample_platform sample_generation
           (Sample.world_with Sample.bot [Sample.apiKey] Sample.accepting Sample.healthy)
           (Object [("userId", VStr "user-1"); ("botId", VStr "bot-1")])
           [("userId", VStr "user-1"); ("botId", VStr "bot-1")]
           1702592000000);
    reflexivity.
Defined.
